(** * Transaction risk-scoring pipeline: a shallow embedding and its properties

    The development follows [internal/detector/fraud_detector.go] and the
    analyzers that accompany it (velocity tracker, geo analyzer, pattern
    matcher, the bundled predictive model), then the interface of the
    detector ([internal/detector/fraud_detector_interface.go]), the engine of
    package [ml] and the handlers of package [main].

    - Go's [float64] is Rocq's primitive binary64 [float]: every addition,
      comparison and division below is the IEEE-754 operation the Go program
      performs, in the order the program performs it, each rounded on its own
      (no fused multiply-add, as on amd64).
    - [time.Time] is an instant in nanoseconds with a zone offset; the wall
      clock is an explicit oracle: the n-th call of [time.Now()] returns
      [wallclock n]. A [time.Duration] is an int64: its negation wraps.
    - The condition of a rule is a function value, which is nil in a rule
      built without one: an [option]. Calling it when it is nil panics, and
      what can panic gives an [outcome].
    - Go maps keyed by account are [gmap string _]; slices are lists; the
      locks are left out: one call runs at a time.
    - Functions of Go's standard library that have no binary64 counterpart in
      Rocq ([math.Sin], [math.Cos], [math.Atan2], [math.Floor], the [%.0f]
      verb of [fmt]) are the fields of the class [GoLib], a parameter of the
      embedding; so is the printing of a duration ([GoFmt]).
    - The source of [math/rand] is an oracle like the clock: the n-th call of
      [rand.Float64()] returns [randFloat64 n].
    - A handler is followed from the decoded request to the value it encodes:
      a request is its method and what decoding its body gives; an answer is
      an error with its status, a value encoded as JSON, or a panic.

    Definitions come first (numbers, time, data model, effects, the pipeline,
    the interface, the engine, the handlers, examples), then the facts on
    binary64, the properties of the pipeline, of the engine and of the
    handlers, and the properties at work on the examples. *)

From Stdlib Require Import ZArith Bool Floats DecimalString.
From stdpp Require Import gmap strings list.

#[local] Set Warnings "-inexact-float".

(* ===================================================================== *)
(** ** Go's float64: comparisons and the operations of package [math]     *)
(* ===================================================================== *)

Module F64.
Local Open Scope float_scope.

(** [math.MaxFloat64] and [math.Pi] (the untyped constant, converted to the
    nearest binary64 when it meets a [float64] operand). *)
Definition MaxFloat64 : float := 0x1.fffffffffffffp+1023.
Definition Pi : float := 0x1.921fb54442d18p+1.

(** Go's comparison operators [x > y] and [x >= y]. *)
Definition gt (x y : float) : bool := y <? x.
Definition ge (x y : float) : bool := y <=? x.

(** [math.IsNaN(f)] is [f != f]. *)
Definition IsNaN (f : float) : bool := negb (f =? f).

(** [math.IsInf(f, sign)]:
    [sign >= 0 && f > MaxFloat64 || sign <= 0 && f < -MaxFloat64]. *)
Definition IsInf (f : float) (sign : Z) : bool :=
  ((0 <=? sign)%Z && gt f MaxFloat64) || ((sign <=? 0)%Z && (f <? - MaxFloat64)).

(** [math.Signbit(x)]: the sign bit, also of a zero. *)
Definition Signbit (x : float) : bool := get_sign x.

(** [math.Max(x, y)] with its special cases. *)
Definition Max (x y : float) : float :=
  if IsInf x 1 || IsInf y 1 then infinity
  else if IsNaN x || IsNaN y then nan
  else if (x =? 0) && (x =? y) then (if Signbit x then y else x)
  else if gt x y then x else y.

(** [math.Min(x, y)] with its special cases. *)
Definition Min (x y : float) : float :=
  if IsInf x (-1) || IsInf y (-1) then neg_infinity
  else if IsNaN x || IsNaN y then nan
  else if (x =? 0) && (x =? y) then (if Signbit x then x else y)
  else if x <? y then x else y.

(** The conversion [float64(n)] of an integer that fits 63 bits. *)
Definition of_int (n : Z) : float :=
  if (n <? 0)%Z then - of_uint63 (Uint63.of_Z (- n)) else of_uint63 (Uint63.of_Z n).

(** [0 <= x] as a proposition; it excludes NaN. *)
Definition nonneg (x : float) : Prop := (0 <=? x) = true.

(** [lo <= x <= hi], both comparisons of binary64. *)
Definition between (lo hi x : float) : Prop :=
  (lo <=? x) = true /\ (x <=? hi) = true.

(** A number that is neither NaN nor an infinity. *)
Definition finite (x : float) : Prop := is_finite x = true.

(** The same on the specification side. *)
Definition sf_finite (x : spec_float) : Prop :=
  match x with S754_zero _ | S754_finite _ _ _ => True | _ => False end.

(** A zero, or a finite number whose exponent is at most zero. *)
Definition sf_small (x : spec_float) : Prop :=
  match x with S754_zero _ => True | S754_finite _ _ e => (e <= 0)%Z | _ => False end.

(** Non-negative, and of a given sign, on the specification side. *)
Definition sf_nonneg (x : spec_float) : bool := SFleb (S754_zero false) x.

Definition sf_signed (s : bool) (x : spec_float) : Prop :=
  match x with
  | S754_zero s' | S754_infinity s' | S754_finite s' _ _ => s' = s
  | S754_nan => False
  end.

(** The clamp of [Analyze]: [math.Min(1.0, math.Max(0.0, x))]. *)
Definition clamp01 (x : float) : float := Min 1 (Max 0 x).

End F64.

(* ===================================================================== *)
(** ** Package [time]: instants, durations, the wall clock                *)
(* ===================================================================== *)

Module time.
Local Open Scope Z_scope.

(** An instant: nanoseconds since the Unix epoch, and the offset in seconds
    east of UTC of the location the instant is presented in. The wall and
    the monotonic readings of an instant agree. *)
Record Time := { unixNano : Z; zoneOffset : Z }.

(** [time.Duration]: a signed count of nanoseconds, 64 bits wide. *)
Definition Duration := Z.
Definition Second : Duration := 1000000000.
Definition Minute : Duration := 60 * Second.
Definition Hour : Duration := 60 * Minute.
Definition minDuration : Duration := - 2 ^ 63.
Definition maxDuration : Duration := 2 ^ 63 - 1.

(** The wrap-around of 64-bit signed arithmetic. *)
Definition wrap64 (z : Z) : Z := (z + 2 ^ 63) mod 2 ^ 64 - 2 ^ 63.

(** [-d] on a [Duration]: the negation of an int64, which gives the least
    duration back as it is. *)
Definition Neg (d : Duration) : Duration := wrap64 (- d).

(** [time.Time{}]: January 1 of year 1, 00:00 UTC. *)
Definition zero : Time := {| unixNano := -62135596800 * Second; zoneOffset := 0 |}.

(** [t.After(u)]. *)
Definition After (t u : Time) : bool := unixNano u <? unixNano t.

(** [t.Add(d)]. *)
Definition Add (t : Time) (d : Duration) : Time :=
  {| unixNano := unixNano t + d; zoneOffset := zoneOffset t |}.

(** [t.Sub(u)]: the difference, saturated to the range of [Duration]. *)
Definition Sub (t u : Time) : Duration :=
  Z.max minDuration (Z.min maxDuration (unixNano t - unixNano u)).

(** [t.Hour()]: the hour of the day, in [0, 23], in the instant's location. *)
Definition HourOf (t : Time) : Z :=
  ((unixNano t / Second + zoneOffset t) mod 86400) / 3600.

(** [d.Hours()]:
    [hour := d / Hour; nsec := d % Hour;
     return float64(hour) + float64(nsec)/(60*60*1e9)]. *)
Definition Hours (d : Duration) : float :=
  (F64.of_int (Z.quot d Hour) + F64.of_int (Z.rem d Hour) / 3600000000000)%float.
End time.

(* ===================================================================== *)
(** ** Data model                                                         *)
(* ===================================================================== *)

(** Go's [error], by its message. *)
Definition error := string.

(** The verb [%d] of [fmt]. *)
Definition FormatInt (n : Z) : string := NilZero.string_of_int (Z.to_int n).

Record Location := {
  Latitude : float;
  Longitude : float;
  Country : string;
  City : string
}.

Module Transaction.
Record t := {
  ID : string;
  AccountID : string;
  Amount : float;
  Currency : string;
  MerchantID : string;
  Location : Location;
  Timestamp : time.Time;
  Type_ : string;  (* the field [Type] of the source *)
  DeviceID : string;
  IPAddress : string
}.
End Transaction.
Abbreviation Transaction := Transaction.t.

Record FraudScore := {
  Score : float;
  Risk : string;
  Reasons : list string;
  Confidence : float;
  ShouldBlock : bool;
  Timestamp : time.Time
}.

(** A rule; [Condition] is a Go function value: [None] when it is nil, as it
    is in a rule that is built without one. *)
Module Rule.
Record t := {
  ID : string;
  Name : string;
  Description : string;
  Condition : option (Transaction -> bool);
  Score : float;
  Action : string
}.
End Rule.
Abbreviation Rule := Rule.t.

(** A pattern; the matcher holds no patterns but those of [DefaultPatterns],
    whose [Matcher]s are function literals. *)
Module Pattern.
Record t := {
  Name : string;
  Description : string;
  Matcher : Transaction -> bool;
  Score : float
}.
End Pattern.
Abbreviation Pattern := Pattern.t.

Record Config := {
  MaxVelocity : Z;
  VelocityWindow : time.Duration;
  HighRiskThreshold : float;
  BlockThreshold : float;
  MLEnabled : bool
}.

(** [accountVelocity] is the list of its timestamps; the tracker maps an
    account to it. *)
Record VelocityTracker := {
  window : time.Duration;
  accounts : gmap string (list time.Time)
}.

Record locationData := {
  location : Location;
  seen : time.Time  (* the field [time] of the source *)
}.

Record GeoAnalyzer := {
  lastLocations : gmap string locationData
}.

Record PatternMatcher := {
  patterns : list Pattern
}.

(** The interface [MLModel]: one method. *)
Record MLModel := {
  Predict : Transaction -> float * float
}.

Record Detector := {
  rules : list Rule;
  velocityTracker : VelocityTracker;
  geoAnalyzer : GeoAnalyzer;
  patternMatcher : PatternMatcher;
  mlModel : MLModel;
  config : Config
}.

(** What the embedding takes from Go's standard library as it is. *)
Class GoLib := {
  Sin : float -> float;      (* math.Sin *)
  Cos : float -> float;      (* math.Cos *)
  Atan2 : float -> float -> float;  (* math.Atan2(y, x) *)
  Floor : float -> float;    (* math.Floor *)
  FormatF0 : float -> string (* the verb %.0f of fmt *)
}.

(** The wall clock: [wallclock n] is what the n-th call of [time.Now()]
    returns. *)
Class WallClock := {
  wallclock : nat -> time.Time
}.

(* ===================================================================== *)
(** ** Effects: a state, and the ticks of the wall clock                  *)
(* ===================================================================== *)

(** What a call gives its caller: it returns, or it panics. The program
    panics in one place, the call of a function value that is nil, and
    recovers nowhere: the panic unwinds through the callers, which leave the
    state as it is at that point. *)
Inductive outcome (A : Type) : Type :=
| Returns (a : A)
| Panics.
Arguments Returns {A} _.
Arguments Panics {A}.

(** A computation over a state [S] that may read the clock: it receives the
    state and the number of clock readings made so far. *)
Definition Eff (S A : Type) : Type := S -> nat -> A * S * nat.

(** What a run returns: its result, the state it leaves, the clock readings
    made. *)
Definition result {S A : Type} (r : A * S * nat) : A := fst (fst r).
Definition state {S A : Type} (r : A * S * nat) : S := snd (fst r).
Definition ticks {S A : Type} (r : A * S * nat) : nat := snd r.

Definition ret {S A : Type} (a : A) : Eff S A := fun s n => (a, s, n).

Definition bind {S A B : Type} (m : Eff S A) (k : A -> Eff S B) : Eff S B :=
  fun s n => let r := m s n in k (result r) (state r) (ticks r).

Definition get {S : Type} : Eff S S := fun s n => (s, s, n).

Definition put {S : Type} (s' : S) : Eff S unit := fun _ n => (tt, s', n).

(** Runs a computation of a component inside a larger state. *)
Definition zoom {S T A : Type} (proj : S -> T) (upd : T -> S -> S) (m : Eff T A) : Eff S A :=
  fun s n => let r := m (proj s) n in (result r, upd (state r) s, ticks r).

Declare Scope eff_scope.
Delimit Scope eff_scope with eff.
Notation "x <- m ;; k" := (bind m (fun x => k))
  (at level 100, m at next level, right associativity) : eff_scope.
Notation "m ;; k" := (bind m (fun _ => k))
  (at level 100, right associativity) : eff_scope.

(* ===================================================================== *)
(** ** The components and the detector                                    *)
(* ===================================================================== *)

Section Pipeline.
Context {lib : GoLib} {clock : WallClock}.

Local Open Scope eff_scope.
Local Open Scope float_scope.

(** [time.Now()]. *)
Definition Now {S : Type} : Eff S time.Time := fun s n => (wallclock n, s, Datatypes.S n).

(** [time.Since(t)] is [time.Now().Sub(t)]. *)
Definition Since {S : Type} (t : time.Time) : Eff S time.Duration :=
  now <- Now ;; ret (time.Sub now t).

(** *** Velocity tracker *)

Definition NewVelocityTracker (w : time.Duration) : VelocityTracker :=
  {| window := w; accounts := ∅ |}.

Definition Track (tx : Transaction) : Eff VelocityTracker unit :=
  v <- get ;;
  let id := Transaction.AccountID tx in
  let accounts1 :=
    match accounts v !! id with
    | Some _ => accounts v
    | None => <[id := []]> (accounts v)
    end in
  let acc := default [] (accounts1 !! id) in
  (* Clean old transactions *)
  now <- Now ;;
  let cutoff := time.Add now (time.Neg (window v)) in
  let newTxs := List.filter (fun t => time.After t cutoff) acc in
  put {| window := window v;
         accounts := <[id := newTxs ++ [Transaction.Timestamp tx]]> accounts1 |}.

Definition GetCount (accountID : string) : Eff VelocityTracker Z :=
  v <- get ;;
  match accounts v !! accountID with
  | None => ret 0%Z
  | Some acc =>
      now <- Now ;;
      let cutoff := time.Add now (time.Neg (window v)) in
      ret (Z.of_nat (length (List.filter (fun t => time.After t cutoff) acc)))
  end.

(** *** Geo analyzer *)

Definition NewGeoAnalyzer : GeoAnalyzer := {| lastLocations := ∅ |}.

Definition GetLastLocation (accountID : string) : Eff GeoAnalyzer (option Location) :=
  g <- get ;;
  match lastLocations g !! accountID with
  | Some data => ret (Some (location data))
  | None => ret None
  end.

Definition GetLastTime (accountID : string) : Eff GeoAnalyzer time.Time :=
  g <- get ;;
  match lastLocations g !! accountID with
  | Some data => ret (seen data)
  | None => ret time.zero
  end.

Definition UpdateLocation (accountID : string) (loc : Location) : Eff GeoAnalyzer unit :=
  g <- get ;;
  now <- Now ;;
  put {| lastLocations := <[accountID := {| location := loc; seen := now |}]> (lastLocations g) |}.

Definition earthRadius : float := 6371.

Definition CalculateDistance (loc1 loc2 : Location) : float :=
  let lat1Rad := Latitude loc1 * F64.Pi / 180 in
  let lat2Rad := Latitude loc2 * F64.Pi / 180 in
  let deltaLat := (Latitude loc2 - Latitude loc1) * F64.Pi / 180 in
  let deltaLon := (Longitude loc2 - Longitude loc1) * F64.Pi / 180 in
  let a := Sin (deltaLat / 2) * Sin (deltaLat / 2) +
           Cos lat1Rad * Cos lat2Rad *
           Sin (deltaLon / 2) * Sin (deltaLon / 2) in
  let c := 2 * Atan2 (PrimFloat.sqrt a) (PrimFloat.sqrt (1 - a)) in
  earthRadius * c.

(** *** Pattern matcher *)

Definition DefaultPatterns : list Pattern :=
  [ {| Pattern.Name := "RAPID_FIRE";
       Pattern.Description := "Multiple transactions in rapid succession";
       Pattern.Matcher := fun _ => false;
       Pattern.Score := 0.4 |};
    {| Pattern.Name := "ROUND_AMOUNT";
       Pattern.Description := "Suspicious round amount";
       Pattern.Matcher := fun tx =>
         (Transaction.Amount tx =? Floor (Transaction.Amount tx))
         && F64.gt (Transaction.Amount tx) 1000;
       Pattern.Score := 0.1 |} ].

Definition NewPatternMatcher : PatternMatcher := {| patterns := DefaultPatterns |}.

(** The loop of [Match]: one step per pattern, on the running total and the
    reasons collected so far. *)
Definition Match_step (tx : Transaction) (acc : float * list string) (pattern : Pattern)
  : float * list string :=
  if Pattern.Matcher pattern tx
  then (fst acc + Pattern.Score pattern, snd acc ++ [Pattern.Description pattern])
  else acc.

Definition Match (p : PatternMatcher) (tx : Transaction) : float * list string :=
  fold_left (Match_step tx) (patterns p) (0, []).

(** *** The bundled model *)

Definition SimpleMLModel_Predict (tx : Transaction) : float * float :=
  let score := 0 in
  let score := if F64.gt (Transaction.Amount tx) 10000 then score + 0.2 else score in
  let score := if F64.gt (Transaction.Amount tx) 50000 then score + 0.3 else score in
  let hour := time.HourOf (Transaction.Timestamp tx) in
  let score := if (2 <=? hour)%Z && (hour <=? 5)%Z then score + 0.1 else score in
  let score := if String.eqb (Transaction.Type_ tx) "WIRE_TRANSFER" then score + 0.15 else score in
  let confidence := 0.85 in
  let confidence := if String.eqb (Transaction.DeviceID tx) "" then confidence - 0.1 else confidence in
  let confidence := if String.eqb (Transaction.IPAddress tx) "" then confidence - 0.1 else confidence in
  (F64.Min 1 score, confidence).

Definition SimpleMLModel : MLModel := {| Predict := SimpleMLModel_Predict |}.

Definition NewMLModel : MLModel := SimpleMLModel.

(** *** Rules *)

Definition DefaultRules : list Rule :=
  [ {| Rule.ID := "HIGH_AMOUNT";
       Rule.Name := "High Amount Detection";
       Rule.Description := "Transaction amount exceeds threshold";
       Rule.Condition := Some (fun tx => F64.gt (Transaction.Amount tx) 10000);
       Rule.Score := 0.3;
       Rule.Action := "REVIEW" |};
    {| Rule.ID := "UNUSUAL_TIME";
       Rule.Name := "Unusual Time Detection";
       Rule.Description := "Transaction at unusual hours";
       Rule.Condition := Some (fun tx =>
         let hour := time.HourOf (Transaction.Timestamp tx) in
         (2 <=? hour)%Z && (hour <=? 5)%Z);
       Rule.Score := 0.2;
       Rule.Action := "FLAG" |};
    {| Rule.ID := "NEW_MERCHANT";
       Rule.Name := "New Merchant Detection";
       Rule.Description := "First transaction with merchant";
       Rule.Condition := Some (fun tx => String.eqb (Transaction.MerchantID tx) "NEW");
       Rule.Score := 0.1;
       Rule.Action := "MONITOR" |} ].

(** *** Detector *)

Definition NewDetector (cfg : Config) : Detector :=
  {| rules := DefaultRules;
     velocityTracker := NewVelocityTracker (VelocityWindow cfg);
     geoAnalyzer := NewGeoAnalyzer;
     patternMatcher := NewPatternMatcher;
     mlModel := NewMLModel;
     config := cfg |}.

(** Assignments to the detector's fields. *)
Definition withRules (rs : list Rule) (d : Detector) : Detector :=
  {| rules := rs; velocityTracker := velocityTracker d; geoAnalyzer := geoAnalyzer d;
     patternMatcher := patternMatcher d; mlModel := mlModel d; config := config d |}.

Definition withVelocityTracker (v : VelocityTracker) (d : Detector) : Detector :=
  {| rules := rules d; velocityTracker := v; geoAnalyzer := geoAnalyzer d;
     patternMatcher := patternMatcher d; mlModel := mlModel d; config := config d |}.

Definition withGeoAnalyzer (g : GeoAnalyzer) (d : Detector) : Detector :=
  {| rules := rules d; velocityTracker := velocityTracker d; geoAnalyzer := g;
     patternMatcher := patternMatcher d; mlModel := mlModel d; config := config d |}.

(** The tracker and the analyzer are objects the detector points to: their
    methods run on the detector's state through these two. *)
Definition onVelocity {A : Type} (m : Eff VelocityTracker A) : Eff Detector A :=
  zoom velocityTracker withVelocityTracker m.

Definition onGeo {A : Type} (m : Eff GeoAnalyzer A) : Eff Detector A :=
  zoom geoAnalyzer withGeoAnalyzer m.

(** The loop of [applyRules], as [Match_step]; [rule.Condition(tx)] panics
    when [Condition] is nil, and the panic ends the loop. *)
Definition applyRules_step (tx : Transaction) (acc : outcome (float * list string))
    (rule : Rule) : outcome (float * list string) :=
  match acc with
  | Panics => Panics
  | Returns acc =>
      match Rule.Condition rule with
      | None => Panics
      | Some condition =>
          if condition tx
          then Returns (fst acc + Rule.Score rule, snd acc ++ [Rule.Description rule])
          else Returns acc
      end
  end.

Definition applyRules (tx : Transaction) : Eff Detector (outcome (float * list string)) :=
  d <- get ;;
  ret (fold_left (applyRules_step tx) (rules d) (Returns (0, []))).

Definition checkVelocity (tx : Transaction) : Eff Detector (float * string) :=
  (* Track the transaction first to include it in the count *)
  onVelocity (Track tx) ;;
  (* Now check the velocity including the current transaction *)
  count <- onVelocity (GetCount (Transaction.AccountID tx)) ;;
  d <- get ;;
  if (MaxVelocity (config d) <? count)%Z
  then ret (0.3, "High transaction velocity: " +:+ FormatInt count +:+ " transactions in window")
  else ret (0, "").

Definition analyzeGeography (tx : Transaction) : Eff Detector (float * string) :=
  lastLocation <- onGeo (GetLastLocation (Transaction.AccountID tx)) ;;
  match lastLocation with
  | None =>
      onGeo (UpdateLocation (Transaction.AccountID tx) (Transaction.Location tx)) ;;
      ret (0, "")
  | Some lastLocation =>
      let distance := CalculateDistance lastLocation (Transaction.Location tx) in
      lastTime <- onGeo (GetLastTime (Transaction.AccountID tx)) ;;
      timeDiff <- Since lastTime ;;
      (* Impossible travel detection *)
      let maxPossibleDistance := time.Hours timeDiff * 900 in
      if F64.gt distance maxPossibleDistance
      then ret (0.5, "Impossible travel detected: " +:+ FormatF0 distance +:+ " km in "
                       +:+ FormatF0 (time.Hours timeDiff) +:+ " hours")
      else
        onGeo (UpdateLocation (Transaction.AccountID tx) (Transaction.Location tx)) ;;
        ret (0, "")
  end.

Definition matchPatterns (tx : Transaction) : Eff Detector (float * list string) :=
  d <- get ;;
  ret (Match (patternMatcher d) tx).

Definition determineRiskLevel (score : float) : string :=
  if F64.ge score 0.8 then "CRITICAL"
  else if F64.ge score 0.6 then "HIGH"
  else if F64.ge score 0.4 then "MEDIUM"
  else if F64.ge score 0.2 then "LOW"
  else "MINIMAL".

(** [Analyze]; the argument is a pointer, [None] when it is nil. The locals
    [s], [rs] and [conf] (paired as [sr] and [sc] where one branch sets two
    of them) are the fields [Score], [Reasons] and [Confidence] of the
    result under construction. *)
Definition Analyze (tx : option Transaction)
  : Eff Detector (outcome (option FraudScore * option error)) :=
  match tx with
  | None => ret (Returns (None, Some "transaction is nil"))
  | Some tx =>
      now <- Now ;;
      let s := 0 in
      let rs := [] in
      let conf := 0 in
      (* Apply rule-based detection *)
      r <- applyRules tx ;;
      match r with
      | Panics => ret Panics
      | Returns r =>
          let s := s + fst r in
          let rs := rs ++ snd r in
          (* Check velocity *)
          v <- checkVelocity tx ;;
          let sr := if F64.gt (fst v) 0 then (s + fst v, rs ++ [snd v]) else (s, rs) in
          (* Analyze geographical patterns *)
          g <- analyzeGeography tx ;;
          let sr := if F64.gt (fst g) 0 then (fst sr + fst g, snd sr ++ [snd g]) else sr in
          (* Pattern matching *)
          p <- matchPatterns tx ;;
          let s := fst sr + fst p in
          let rs := snd sr ++ snd p in
          (* ML model scoring (if enabled) *)
          d <- get ;;
          let sc := if MLEnabled (config d)
                    then (let ml := Predict (mlModel d) tx in ((s + fst ml) / 2, snd ml))
                    else (s, conf) in
          let s := fst sc in
          let conf := snd sc in
          (* Normalize score to 0-1 range *)
          let s := F64.Min 1 (F64.Max 0 s) in
          (* Determine risk level and action *)
          ret (Returns (Some {| Score := s;
                                Risk := determineRiskLevel s;
                                Reasons := rs;
                                Confidence := conf;
                                ShouldBlock := F64.ge s (BlockThreshold (config d));
                                Timestamp := now |}, None))
      end
  end.

(** [AddRule]. *)
Definition AddRule (rule : Rule) : Eff Detector unit :=
  d <- get ;;
  put (withRules (rules d ++ [rule]) d).

(** The loop of [RemoveRule]: the index of the first rule whose [ID] is
    [ruleID], counting from [i]. *)
Fixpoint findRule (ruleID : string) (rs : list Rule) (i : nat) : option nat :=
  match rs with
  | [] => None
  | rule :: rest =>
      if String.eqb (Rule.ID rule) ruleID then Some i else findRule ruleID rest (Datatypes.S i)
  end.

(** [RemoveRule]: [d.rules = append(d.rules[:i], d.rules[i+1:]...)]. *)
Definition RemoveRule (ruleID : string) : Eff Detector (option error) :=
  d <- get ;;
  match findRule ruleID (rules d) 0 with
  | Some i =>
      put (withRules (take i (rules d) ++ drop (Datatypes.S i) (rules d)) d) ;;
      ret None
  | None => ret (Some ("rule not found: " +:+ ruleID))
  end.

(** The entry ["total_rules"] of [GetMetrics]. *)
Definition total_rules (d : Detector) : nat := length (rules d).

(** *** The stages of [Analyze], one at a time

    [Analyze (Some tx)] started in state [d] after [n] clock readings makes one
    reading for the result's timestamp, then runs its stages. The definitions
    below name what each stage returns and the running score and reasons after
    it; [Analyze_Some] relates them to what [Analyze] returns. *)

(** The count [checkVelocity] reads back, started in state [d] at tick [n]:
    [Track], then [GetCount]. *)
Definition observedCount (tx : Transaction) (d : Detector) (n : nat) : Z :=
  let r := onVelocity (Track tx) d n in
  result (onVelocity (GetCount (Transaction.AccountID tx)) (state r) (ticks r)).

Definition afterRules (tx : Transaction) (d : Detector) : float * list string :=
  match result (applyRules tx d 0%nat) with
  | Returns r => (0 + fst r, [] ++ snd r)
  | Panics => (0, [])  (* [Analyze] goes no further *)
  end.

Definition velocityRun (tx : Transaction) (d : Detector) (n : nat) :=
  checkVelocity tx d (Datatypes.S n).

Definition afterVelocity (tx : Transaction) (d : Detector) (n : nat) : float * list string :=
  let v := result (velocityRun tx d n) in
  let sr := afterRules tx d in
  if F64.gt (fst v) 0 then (fst sr + fst v, snd sr ++ [snd v]) else sr.

Definition geoRun (tx : Transaction) (d : Detector) (n : nat) :=
  let r := velocityRun tx d n in
  analyzeGeography tx (state r) (ticks r).

Definition afterGeo (tx : Transaction) (d : Detector) (n : nat) : float * list string :=
  let g := result (geoRun tx d n) in
  let sr := afterVelocity tx d n in
  if F64.gt (fst g) 0 then (fst sr + fst g, snd sr ++ [snd g]) else sr.

Definition afterPatterns (tx : Transaction) (d : Detector) (n : nat) : float * list string :=
  let p := Match (patternMatcher d) tx in
  let sr := afterGeo tx d n in
  (fst sr + fst p, snd sr ++ snd p).

(** The score before the clamp, and the confidence. *)
Definition blended (tx : Transaction) (d : Detector) (n : nat) : float * float :=
  let s := fst (afterPatterns tx d n) in
  if MLEnabled (config d)
  then (let ml := Predict (mlModel d) tx in ((s + fst ml) / 2, snd ml))
  else (s, 0).

(** *** Well-formed detectors, tiers *)

(** Whether the condition of a rule holds of a transaction, for a rule that
    has one. *)
Definition holds (rule : Rule) (tx : Transaction) : bool :=
  match Rule.Condition rule with
  | Some condition => condition tx
  | None => false
  end.

(** Every rule of the detector has a condition, as the rules of the data
    model have: none is a nil function. *)
Definition callable (d : Detector) : Prop :=
  Forall (fun r => is_Some (Rule.Condition r)) (rules d).

(** The weights of the data model are non-negative numbers: those of the
    rules and of the patterns. *)
Definition weights_nonneg (d : Detector) : Prop :=
  Forall (fun r => F64.nonneg (Rule.Score r)) (rules d) /\
  Forall (fun p => F64.nonneg (Pattern.Score p)) (patterns (patternMatcher d)).

(** The score the model gives a transaction, when the model is consulted, is
    a non-negative number. *)
Definition model_score_nonneg (d : Detector) (tx : Transaction) : Prop :=
  MLEnabled (config d) = true -> F64.nonneg (fst (Predict (mlModel d) tx)).

(** The five tiers, in their order. *)
Definition tierRank (risk : string) : nat :=
  if String.eqb risk "CRITICAL" then 4
  else if String.eqb risk "HIGH" then 3
  else if String.eqb risk "MEDIUM" then 2
  else if String.eqb risk "LOW" then 1
  else 0.

End Pipeline.

(* ===================================================================== *)
(** ** The detector behind its interface                                  *)
(* ===================================================================== *)

(** A value of type [interface{}], by the dynamic types the program stores
    in one. *)
Inductive any :=
| AnyInt (n : Z)
| AnyFloat (x : float)
| AnyBool (b : bool)
| AnyString (s : string)
| AnyDuration (d : time.Duration)
| AnyTime (t : time.Time).

(** [FraudDetector]: a pointer to the detector. *)
Record FraudDetector := {
  detector : Detector
}.

Section Interface.
Context {lib : GoLib} {clock : WallClock}.

Local Open Scope eff_scope.
Local Open Scope float_scope.

(** [GetMetrics]: a map literal of four entries. *)
Definition GetMetrics (d : Detector) : gmap string any :=
  <["total_rules" := AnyInt (Z.of_nat (length (rules d)))]>
  (<["velocity_window" := AnyDuration (VelocityWindow (config d))]>
  (<["high_risk_threshold" := AnyFloat (HighRiskThreshold (config d))]>
  (<["ml_enabled" := AnyBool (MLEnabled (config d))]> ∅))).

Definition NewFraudDetector : FraudDetector :=
  let config := {| MaxVelocity := 5;
                   VelocityWindow := time.Hour;
                   HighRiskThreshold := 0.6;
                   BlockThreshold := 0.8;
                   MLEnabled := true |} in
  {| detector := NewDetector config |}.

(** The methods of the detector run on the object [fd.detector] points to. *)
Definition onDetector {A : Type} (m : Eff Detector A) : Eff FraudDetector A :=
  zoom detector (fun d _ => {| detector := d |}) m.

Definition AnalyzeTransaction (tx : option Transaction)
  : Eff FraudDetector (outcome (option FraudScore * option error)) :=
  onDetector (Analyze tx).

Definition GetStatistics : Eff FraudDetector (gmap string any) :=
  fd <- get ;; ret (GetMetrics (detector fd)).

(** [GetActiveRules]: the default rules, whatever the detector holds. *)
Definition GetActiveRules : Eff FraudDetector (list Rule) :=
  ret DefaultRules.

Definition AddCustomRule (rule : Rule) : Eff FraudDetector unit :=
  onDetector (AddRule rule).

(** Assignments to the fields of a transaction. *)
Definition setAccountID (v : string) (tx : Transaction) : Transaction :=
  {| Transaction.ID := Transaction.ID tx; Transaction.AccountID := v;
     Transaction.Amount := Transaction.Amount tx; Transaction.Currency := Transaction.Currency tx;
     Transaction.MerchantID := Transaction.MerchantID tx;
     Transaction.Location := Transaction.Location tx;
     Transaction.Timestamp := Transaction.Timestamp tx; Transaction.Type_ := Transaction.Type_ tx;
     Transaction.DeviceID := Transaction.DeviceID tx;
     Transaction.IPAddress := Transaction.IPAddress tx |}.

Definition setLocation (v : Location) (tx : Transaction) : Transaction :=
  {| Transaction.ID := Transaction.ID tx; Transaction.AccountID := Transaction.AccountID tx;
     Transaction.Amount := Transaction.Amount tx; Transaction.Currency := Transaction.Currency tx;
     Transaction.MerchantID := Transaction.MerchantID tx;
     Transaction.Location := v;
     Transaction.Timestamp := Transaction.Timestamp tx; Transaction.Type_ := Transaction.Type_ tx;
     Transaction.DeviceID := Transaction.DeviceID tx;
     Transaction.IPAddress := Transaction.IPAddress tx |}.

Definition setCountry (v : string) (tx : Transaction) : Transaction :=
  let l := Transaction.Location tx in
  setLocation {| Latitude := Latitude l; Longitude := Longitude l; Country := v; City := City l |} tx.

Definition setCity (v : string) (tx : Transaction) : Transaction :=
  let l := Transaction.Location tx in
  setLocation {| Latitude := Latitude l; Longitude := Longitude l; Country := Country l; City := v |} tx.

Definition setTimestamp (v : time.Time) (tx : Transaction) : Transaction :=
  {| Transaction.ID := Transaction.ID tx; Transaction.AccountID := Transaction.AccountID tx;
     Transaction.Amount := Transaction.Amount tx; Transaction.Currency := Transaction.Currency tx;
     Transaction.MerchantID := Transaction.MerchantID tx;
     Transaction.Location := Transaction.Location tx;
     Transaction.Timestamp := v; Transaction.Type_ := Transaction.Type_ tx;
     Transaction.DeviceID := Transaction.DeviceID tx;
     Transaction.IPAddress := Transaction.IPAddress tx |}.

Definition setType (v : string) (tx : Transaction) : Transaction :=
  {| Transaction.ID := Transaction.ID tx; Transaction.AccountID := Transaction.AccountID tx;
     Transaction.Amount := Transaction.Amount tx; Transaction.Currency := Transaction.Currency tx;
     Transaction.MerchantID := Transaction.MerchantID tx;
     Transaction.Location := Transaction.Location tx;
     Transaction.Timestamp := Transaction.Timestamp tx; Transaction.Type_ := v;
     Transaction.DeviceID := Transaction.DeviceID tx;
     Transaction.IPAddress := Transaction.IPAddress tx |}.

Definition setDeviceID (v : string) (tx : Transaction) : Transaction :=
  {| Transaction.ID := Transaction.ID tx; Transaction.AccountID := Transaction.AccountID tx;
     Transaction.Amount := Transaction.Amount tx; Transaction.Currency := Transaction.Currency tx;
     Transaction.MerchantID := Transaction.MerchantID tx;
     Transaction.Location := Transaction.Location tx;
     Transaction.Timestamp := Transaction.Timestamp tx; Transaction.Type_ := Transaction.Type_ tx;
     Transaction.DeviceID := v;
     Transaction.IPAddress := Transaction.IPAddress tx |}.

Definition setIPAddress (v : string) (tx : Transaction) : Transaction :=
  {| Transaction.ID := Transaction.ID tx; Transaction.AccountID := Transaction.AccountID tx;
     Transaction.Amount := Transaction.Amount tx; Transaction.Currency := Transaction.Currency tx;
     Transaction.MerchantID := Transaction.MerchantID tx;
     Transaction.Location := Transaction.Location tx;
     Transaction.Timestamp := Transaction.Timestamp tx; Transaction.Type_ := Transaction.Type_ tx;
     Transaction.DeviceID := Transaction.DeviceID tx;
     Transaction.IPAddress := v |}.

(** [UpdateTransaction]. The transaction is the object [tx] points to; the
    map is the caller's, [None] when the caller passes nil: the function then
    writes to a map of its own, which no one else sees. The result is the
    transaction and the caller's map after the call. *)
Definition UpdateTransaction (tx : Transaction)
    (customerID paymentMethod country city ipAddress deviceID userAgent : string)
    (metadata : option (gmap string any))
  : Transaction * option (gmap string any) :=
  let tx := if String.eqb (Transaction.AccountID tx) "" && negb (String.eqb customerID "")
            then setAccountID customerID tx else tx in
  let written (m : gmap string any) : gmap string any :=
    <["user_agent" := AnyString userAgent]>
    (<["device_id" := AnyString deviceID]>
    (<["ip_address" := AnyString ipAddress]>
    (<["payment_method" := AnyString paymentMethod]>
    (<["customer_id" := AnyString customerID]> m)))) in
  let metadata := match metadata with
                  | None => None  (* the writes go to a map made here *)
                  | Some m => Some (written m)
                  end in
  (* Update location information *)
  let tx := if negb (String.eqb country "") then setCountry country tx else tx in
  let tx := if negb (String.eqb city "") then setCity city tx else tx in
  (* Store the device and payment info in a way the detector can use *)
  let tx := setDeviceID deviceID tx in
  let tx := setIPAddress ipAddress tx in
  (* Use the Type field to store payment method for now *)
  let tx := if negb (String.eqb paymentMethod "") then setType paymentMethod tx else tx in
  (tx, metadata).

(** The detectors a program can hold: a new one, and what [Analyze],
    [AddRule] with a rule that has a condition and a non-negative weight, and
    [RemoveRule] leave of one. *)
Inductive reachable (cfg : Config) : Detector -> Prop :=
| reachable_NewDetector :
    reachable cfg (NewDetector cfg)
| reachable_Analyze (d : Detector) (tx : option Transaction) (n : nat) :
    reachable cfg d -> reachable cfg (state (Analyze tx d n))
| reachable_AddRule (d : Detector) (rule : Rule) (n : nat) :
    reachable cfg d -> is_Some (Rule.Condition rule) -> F64.nonneg (Rule.Score rule) ->
    reachable cfg (state (AddRule rule d n))
| reachable_RemoveRule (d : Detector) (ruleID : string) (n : nat) :
    reachable cfg d -> reachable cfg (state (RemoveRule ruleID d n)).

End Interface.

(* ===================================================================== *)
(** ** Package [ml]: the engine of the service                            *)
(* ===================================================================== *)

(** The source of [math/rand]: [randFloat64 n] is what the n-th call of
    [rand.Float64()] returns. *)
Class RandSource := {
  randFloat64 : nat -> float
}.

Module ml.

Record MLEngine := {
  ready : bool;
  modelPath : string;
  lastUpdate : time.Time
}.

(** What the methods of the engine run on: the engine, and the number of
    draws made from the source of [math/rand], which belongs to the process. *)
Record World := {
  engine : MLEngine;
  drawn : nat
}.

Section Engine.
Context {clock : WallClock} {rand : RandSource}.

Local Open Scope eff_scope.
Local Open Scope float_scope.

(** [rand.Float64()]. *)
Definition Float64 : Eff World float :=
  fun w n => (randFloat64 (drawn w), {| engine := engine w; drawn := S (drawn w) |}, n).

Definition NewMLEngine {S : Type} : Eff S MLEngine :=
  now <- Now ;;
  ret {| ready := true; (* Simulate ready state *)
         modelPath := "/tmp/fraud_model.bin";
         lastUpdate := now |}.

Definition IsReady : Eff World bool :=
  w <- get ;; ret (ready (engine w)).

Definition highRiskCountries : list string := ["NG"; "CN"; "RU"; "PK"].

(** The loop over the high-risk countries: it adds once, and breaks. *)
Fixpoint addHighRisk (country : string) (countries : list string) (score : float) : float :=
  match countries with
  | [] => score
  | c :: rest => if String.eqb country c then score + 0.25 else addHighRisk country rest score
  end.

(** [calculateMLScore]; the argument is a pointer the callers never pass
    nil. *)
Definition calculateMLScore (transaction : Transaction) : Eff World float :=
  let score := 0 in
  (* Simulate feature-based scoring *)
  let score := if F64.gt (Transaction.Amount transaction) 10000 then score + 0.3 else score in
  let score := if F64.gt (Transaction.Amount transaction) 50000 then score + 0.2 else score in
  (* High-risk countries *)
  let score := addHighRisk (Country (Transaction.Location transaction)) highRiskCountries score in
  (* Unusual transaction types *)
  let score := if String.eqb (Transaction.Type_ transaction) "cash_advance"
                  || String.eqb (Transaction.Type_ transaction) "cryptocurrency"
               then score + 0.2 else score in
  (* Time-based features (simulate velocity checks) *)
  now <- Now ;;
  score <- (if time.After (Transaction.Timestamp transaction) (time.Add now (- time.Hour)%Z)
            then r <- Float64 ;; ret (score + r * 0.1)
            else ret score) ;;
  (* Ensure score is between 0 and 1 *)
  let score := if F64.gt score 1 then 1 else score in
  let score := if score <? 0 then 0 else score in
  ret score.

Definition PredictFraud (transaction : Transaction) : Eff World (float * float * option error) :=
  w <- get ;;
  if negb (ready (engine w)) then ret (0, 0, Some "ML engine not ready")
  else
    score <- calculateMLScore transaction ;;
    r <- Float64 ;;
    let confidence := 0.85 + r * 0.1 in
    ret (score, confidence, None).

Definition TrainModel : Eff World (option error) :=
  w <- get ;;
  if negb (ready (engine w)) then ret (Some "ML engine not ready")
  else
    now <- Now ;;
    put {| engine := {| ready := ready (engine w); modelPath := modelPath (engine w);
                        lastUpdate := now |};
           drawn := drawn w |} ;;
    ret None.

Definition GetModelInfo : Eff World (gmap string any) :=
  w <- get ;;
  ret (<["ready" := AnyBool (ready (engine w))]>
       (<["model_path" := AnyString (modelPath (engine w))]>
       (<["last_update" := AnyTime (lastUpdate (engine w))]>
       (<["version" := AnyString "v1.0.0"]> ∅)))).

End Engine.
End ml.

(* ===================================================================== *)
(** ** Package [main]: the handlers of the service                        *)
(* ===================================================================== *)

(** [d.String()] of a [time.Duration], as Go prints it. *)
Class GoFmt := {
  DurationString : time.Duration -> string
}.

Module main.

Module Location.
Record t := {
  Country : string;
  City : string;
  Latitude : float;
  Longitude : float;
  IPAddress : string
}.
End Location.

Module DeviceInfo.
Record t := {
  DeviceID : string;
  UserAgent : string;
  Platform : string;
  Fingerprint : string
}.
End DeviceInfo.

Module TransactionRequest.
Record t := {
  ID : string;
  Amount : float;
  Currency : string;
  MerchantID : string;
  CustomerID : string;
  PaymentMethod : string;
  Location : Location.t;
  DeviceInfo : DeviceInfo.t;
  Timestamp : time.Time;
  Metadata : gmap string any
}.
End TransactionRequest.
Abbreviation TransactionRequest := TransactionRequest.t.

(** A nil map reads as an empty one. *)
Module FraudResponse.
Record t := {
  TransactionID : string;
  RiskScore : float;
  Decision : string;  (* APPROVE, DECLINE, REVIEW *)
  Reasons : list string;
  Confidence : float;
  ProcessingTime : string;
  Metadata : gmap string any
}.
End FraudResponse.
Abbreviation FraudResponse := FraudResponse.t.

Record BatchRequest := {
  Transactions : list TransactionRequest
}.

Module BatchSummary.
Record t := {
  Total : Z;
  Approved : Z;
  Declined : Z;
  RequireReview : Z;
  AvgRiskScore : float;
  ProcessingTime : string
}.
End BatchSummary.
Abbreviation BatchSummary := BatchSummary.t.

Record BatchResponse := {
  Results : list FraudResponse;
  Summary : BatchSummary
}.

(** [Server]: pointers to the detector's interface and to the engine. *)
Record Server := {
  fraudDetector : FraudDetector;
  mlEngine : ml.MLEngine
}.

(** What a handler runs on: the server, and the draws made from the source
    of [math/rand]. *)
Record World := {
  server : Server;
  drawn : nat
}.

(** What a handler is given: the method of the request, and what decoding
    the body as JSON into a value of type [A] gives, [None] when the decoder
    returns an error. *)
Record Request (A : Type) := {
  Method : string;
  Body : option A
}.
Arguments Method {A} _.
Arguments Body {A} _.

(** What a handler answers: [http.Error(w, msg, code)], or a value encoded
    as JSON with status 200; [Panic] is a panic (a nil pointer dereference,
    or a panic of the analysis), which ends the handler with no answer. *)
Inductive Response (A : Type) :=
| Error (msg : string) (code : Z)
| JSON (body : A)
| Panic.
Arguments Error {A} _ _.
Arguments JSON {A} _.
Arguments Panic {A}.

Definition StatusBadRequest : Z := 400.
Definition StatusMethodNotAllowed : Z := 405.
Definition StatusInternalServerError : Z := 500.

Section Handlers.
Context {lib : GoLib} {clock : WallClock} {rand : RandSource} {fmt : GoFmt}.

Local Open Scope eff_scope.
Local Open Scope float_scope.

(** The methods of the detector's interface and of the engine run on the
    objects the server points to. *)
Definition onFraudDetector {A : Type} (m : Eff FraudDetector A) : Eff World A :=
  zoom (fun w => fraudDetector (server w))
       (fun fd w => {| server := {| fraudDetector := fd; mlEngine := mlEngine (server w) |};
                       drawn := drawn w |}) m.

Definition onEngine {A : Type} (m : Eff ml.World A) : Eff World A :=
  zoom (fun w => {| ml.engine := mlEngine (server w); ml.drawn := drawn w |})
       (fun e w => {| server := {| fraudDetector := fraudDetector (server w);
                                   mlEngine := ml.engine e |};
                      drawn := ml.drawn e |}) m.

(** Every rule of the server's detector has a condition. *)
Definition callableServer (w : World) : Prop :=
  callable (detector (fraudDetector (server w))).

(** [t.IsZero()]: the instant is January 1 of year 1, 00:00 UTC. *)
Definition IsZero (t : time.Time) : bool :=
  (time.unixNano t =? time.unixNano time.zero)%Z.

Definition convertToInternalTransaction {S : Type} (req : TransactionRequest) : Eff S Transaction :=
  let transaction :=
    {| Transaction.ID := TransactionRequest.ID req;
       Transaction.AccountID := TransactionRequest.CustomerID req;
       Transaction.Amount := TransactionRequest.Amount req;
       Transaction.Currency := TransactionRequest.Currency req;
       Transaction.MerchantID := TransactionRequest.MerchantID req;
       Transaction.Location :=
         {| Latitude := Location.Latitude (TransactionRequest.Location req);
            Longitude := Location.Longitude (TransactionRequest.Location req);
            Country := Location.Country (TransactionRequest.Location req);
            City := Location.City (TransactionRequest.Location req) |};
       Transaction.Timestamp := TransactionRequest.Timestamp req;
       Transaction.Type_ := TransactionRequest.PaymentMethod req;
       Transaction.DeviceID := DeviceInfo.DeviceID (TransactionRequest.DeviceInfo req);
       Transaction.IPAddress := Location.IPAddress (TransactionRequest.Location req) |} in
  (* Set timestamp if not provided *)
  if IsZero (Transaction.Timestamp transaction)
  then now <- Now ;; ret (setTimestamp now transaction)
  else ret transaction.

(** The decision both handlers take, as a function of the final score. *)
Definition decisionOf (finalScore : float) : string :=
  if F64.ge finalScore 0.8 then "DECLINE"
  else if F64.ge finalScore 0.5 then "REVIEW"
  else "APPROVE".

Definition healthHandler : Eff World (Response (gmap string any)) :=
  isReady <- onEngine ml.IsReady ;;
  now <- Now ;;
  ret (JSON (<["status" := AnyString "healthy"]>
            (<["ml_engine_ready" := AnyBool isReady]>
            (<["detector_active" := AnyBool true]>
            (<["timestamp" := AnyTime now]> ∅))))).

Definition analyzeTransactionHandler (r : Request TransactionRequest)
  : Eff World (Response FraudResponse) :=
  if negb (String.eqb (Method r) "POST")
  then ret (Error "Method not allowed" StatusMethodNotAllowed)
  else
  match Body r with
  | None => ret (Error "Invalid JSON" StatusBadRequest)
  | Some req =>
  if String.eqb (TransactionRequest.ID req) ""
  then ret (Error "transaction ID is required" StatusBadRequest)
  else
  if TransactionRequest.Amount req <=? 0
  then ret (Error "amount must be positive" StatusBadRequest)
  else
    start <- Now ;;
    (* Convert to internal transaction format *)
    transaction <- convertToInternalTransaction req ;;
    (* Analyze transaction for fraud *)
    analysis <- onFraudDetector (AnalyzeTransaction (Some transaction)) ;;
    match analysis with
    | Panics => ret Panic
    | Returns (_, Some err) => ret (Error err StatusInternalServerError)
    | Returns (None, None) => ret Panic
    | Returns (Some result, None) =>
        (* Get ML prediction *)
        prediction <- onEngine (ml.PredictFraud transaction) ;;
        let mlScore := match snd prediction with
                       | Some _ => Score result (* Fallback to rule-based score *)
                       | None => fst (fst prediction)
                       end in
        let confidence := match snd prediction with
                          | Some _ => 0.5
                          | None => snd (fst prediction)
                          end in
        (* Combine rule-based and ML scores *)
        let finalScore := (Score result + mlScore) / 2 in
        (* Determine decision based on final score *)
        let decision := if F64.ge finalScore 0.8 then "DECLINE"
                        else if F64.ge finalScore 0.5 then "REVIEW"
                        else "APPROVE" in
        elapsed <- Since start ;;
        ret (JSON {| FraudResponse.TransactionID := TransactionRequest.ID req;
                     FraudResponse.RiskScore := finalScore;
                     FraudResponse.Decision := decision;
                     FraudResponse.Reasons := Reasons result;
                     FraudResponse.Confidence := confidence;
                     FraudResponse.ProcessingTime := DurationString elapsed;
                     FraudResponse.Metadata :=
                       <["rule_score" := AnyFloat (Score result)]>
                       (<["ml_score" := AnyFloat mlScore]>
                       (<["version" := AnyString "v1.0.0"]> ∅)) |})
    end
  end.

(** Assignments to the fields of the summary. *)
Definition incApproved (s : BatchSummary) : BatchSummary :=
  {| BatchSummary.Total := BatchSummary.Total s;
     BatchSummary.Approved := BatchSummary.Approved s + 1;
     BatchSummary.Declined := BatchSummary.Declined s;
     BatchSummary.RequireReview := BatchSummary.RequireReview s;
     BatchSummary.AvgRiskScore := BatchSummary.AvgRiskScore s;
     BatchSummary.ProcessingTime := BatchSummary.ProcessingTime s |}%Z.

Definition incDeclined (s : BatchSummary) : BatchSummary :=
  {| BatchSummary.Total := BatchSummary.Total s;
     BatchSummary.Approved := BatchSummary.Approved s;
     BatchSummary.Declined := BatchSummary.Declined s + 1;
     BatchSummary.RequireReview := BatchSummary.RequireReview s;
     BatchSummary.AvgRiskScore := BatchSummary.AvgRiskScore s;
     BatchSummary.ProcessingTime := BatchSummary.ProcessingTime s |}%Z.

Definition incRequireReview (s : BatchSummary) : BatchSummary :=
  {| BatchSummary.Total := BatchSummary.Total s;
     BatchSummary.Approved := BatchSummary.Approved s;
     BatchSummary.Declined := BatchSummary.Declined s;
     BatchSummary.RequireReview := BatchSummary.RequireReview s + 1;
     BatchSummary.AvgRiskScore := BatchSummary.AvgRiskScore s;
     BatchSummary.ProcessingTime := BatchSummary.ProcessingTime s |}%Z.

Definition setAvgRiskScore (v : float) (s : BatchSummary) : BatchSummary :=
  {| BatchSummary.Total := BatchSummary.Total s;
     BatchSummary.Approved := BatchSummary.Approved s;
     BatchSummary.Declined := BatchSummary.Declined s;
     BatchSummary.RequireReview := BatchSummary.RequireReview s;
     BatchSummary.AvgRiskScore := v;
     BatchSummary.ProcessingTime := BatchSummary.ProcessingTime s |}.

Definition setTotal (v : Z) (s : BatchSummary) : BatchSummary :=
  {| BatchSummary.Total := v;
     BatchSummary.Approved := BatchSummary.Approved s;
     BatchSummary.Declined := BatchSummary.Declined s;
     BatchSummary.RequireReview := BatchSummary.RequireReview s;
     BatchSummary.AvgRiskScore := BatchSummary.AvgRiskScore s;
     BatchSummary.ProcessingTime := BatchSummary.ProcessingTime s |}.

Definition setProcessingTime (v : string) (s : BatchSummary) : BatchSummary :=
  {| BatchSummary.Total := BatchSummary.Total s;
     BatchSummary.Approved := BatchSummary.Approved s;
     BatchSummary.Declined := BatchSummary.Declined s;
     BatchSummary.RequireReview := BatchSummary.RequireReview s;
     BatchSummary.AvgRiskScore := BatchSummary.AvgRiskScore s;
     BatchSummary.ProcessingTime := v |}.

(** [BatchSummary{}]. *)
Definition emptySummary : BatchSummary :=
  {| BatchSummary.Total := 0; BatchSummary.Approved := 0; BatchSummary.Declined := 0;
     BatchSummary.RequireReview := 0; BatchSummary.AvgRiskScore := 0;
     BatchSummary.ProcessingTime := "" |}.

(** The loop of [batchAnalysisHandler] over the transactions that are left,
    on the results filled so far (the loop fills [results] in the order of
    the batch) and the summary so far. It ends early, with the answer given,
    when an analysis fails. *)
Fixpoint batchLoop (txns : list TransactionRequest)
    (results : list FraudResponse) (summary : BatchSummary)
  : Eff World (Response BatchResponse + list FraudResponse * BatchSummary) :=
  match txns with
  | [] => ret (inr (results, summary))
  | txn :: rest =>
      (* Convert to internal format *)
      transaction <- convertToInternalTransaction txn ;;
      (* Analyze transaction *)
      analysis <- onFraudDetector (AnalyzeTransaction (Some transaction)) ;;
      match analysis with
      | Panics => ret (inl Panic)
      | Returns (_, Some err) =>
          ret (inl (Error ("Transaction " +:+ TransactionRequest.ID txn
                             +:+ " analysis failed: " +:+ err)
                          StatusInternalServerError))
      | Returns (None, None) => ret (inl Panic)
      | Returns (Some result, None) =>
          (* Get ML prediction *)
          prediction <- onEngine (ml.PredictFraud transaction) ;;
          let mlScore := fst (fst prediction) in
          let confidence := snd (fst prediction) in
          let finalScore := (Score result + mlScore) / 2 in
          (* Determine decision *)
          let decided :=
            if F64.ge finalScore 0.8 then ("DECLINE", incDeclined summary)
            else if F64.ge finalScore 0.5 then ("REVIEW", incRequireReview summary)
            else ("APPROVE", incApproved summary) in
          let response :=
            {| FraudResponse.TransactionID := TransactionRequest.ID txn;
               FraudResponse.RiskScore := finalScore;
               FraudResponse.Decision := fst decided;
               FraudResponse.Reasons := Reasons result;
               FraudResponse.Confidence := confidence;
               FraudResponse.ProcessingTime := "batch";
               FraudResponse.Metadata := ∅ |} in
          let summary := snd decided in
          let summary := setAvgRiskScore (BatchSummary.AvgRiskScore summary + finalScore) summary in
          batchLoop rest (results ++ [response]) summary
      end
  end.

Definition batchAnalysisHandler (r : Request BatchRequest)
  : Eff World (Response BatchResponse) :=
  if negb (String.eqb (Method r) "POST")
  then ret (Error "Method not allowed" StatusMethodNotAllowed)
  else
  match Body r with
  | None => ret (Error "Invalid JSON" StatusBadRequest)
  | Some req =>
  if (length (Transactions req) =? 0)%nat
  then ret (Error "transactions array cannot be empty" StatusBadRequest)
  else
  if (1000 <? length (Transactions req))%nat
  then ret (Error "maximum 1000 transactions per batch" StatusBadRequest)
  else
    start <- Now ;;
    looped <- batchLoop (Transactions req) [] emptySummary ;;
    match looped with
    | inl answer => ret answer
    | inr (results, summary) =>
        let summary := setTotal (Z.of_nat (length (Transactions req))) summary in
        let summary :=
          setAvgRiskScore (BatchSummary.AvgRiskScore summary
                           / F64.of_int (BatchSummary.Total summary)) summary in
        elapsed <- Since start ;;
        let summary := setProcessingTime (DurationString elapsed) summary in
        ret (JSON {| Results := results; Summary := summary |})
    end
  end.

Definition trainModelHandler (method : string) : Eff World (Response (gmap string any)) :=
  if negb (String.eqb method "POST")
  then ret (Error "Method not allowed" StatusMethodNotAllowed)
  else
    (* Trigger ML model retraining *)
    err <- onEngine ml.TrainModel ;;
    match err with
    | Some err => ret (Error err StatusInternalServerError)
    | None =>
        now <- Now ;;
        ret (JSON (<["status" := AnyString "training_started"]>
                  (<["timestamp" := AnyTime now]> ∅)))
    end.

Definition statisticsHandler (method : string) : Eff World (Response (gmap string any)) :=
  if negb (String.eqb method "GET")
  then ret (Error "Method not allowed" StatusMethodNotAllowed)
  else
    stats <- onFraudDetector GetStatistics ;;
    ret (JSON stats).

Definition rulesHandler (method : string) : Eff World (Response (gmap string any)) :=
  if String.eqb method "GET" then
    (* Return rule summary without function pointers *)
    active <- onFraudDetector GetActiveRules ;;
    ret (JSON (<["total_rules" := AnyInt (Z.of_nat (length active))]>
              (<["status" := AnyString "active"]> ∅)))
  else if String.eqb method "POST" then
    (* Add new rule (implementation would depend on rule structure) *)
    ret (JSON (<["status" := AnyString "rule_added"]> ∅))
  else ret (Error "Method not allowed" StatusMethodNotAllowed).

(** [getEnv], on the environment of the process; [os.Getenv] gives the empty
    string for a variable that is not set. *)
Definition getEnv (environ : gmap string string) (key defaultValue : string) : string :=
  let value := default "" (environ !! key) in
  if negb (String.eqb value "") then value else defaultValue.

End Handlers.
End main.

(* ===================================================================== *)
(** ** Shapes the statements below are written with                       *)
(* ===================================================================== *)

(** A weight added, and a reason appended, when a condition holds: the shape
    of every stage of the pipeline. *)
Definition addIf (b : bool) (w : float) (s : float) : float :=
  if b then (s + w)%float else s.

Definition appendIf (b : bool) (r : string) (rs : list string) : list string :=
  if b then rs ++ [r] else rs.

(** The sign bit of a number is clear, and the number is not NaN. *)
Definition plus_signed (x : float) : Prop := F64.sf_signed false (Prim2SF x).

(* ===================================================================== *)
(** ** A library and a clock to run the embedding on examples             *)
(* ===================================================================== *)

Module Examples.
Local Open Scope float_scope.

(** [math.Floor] on binary64, through the nearest integer [(|x| + 2^52) - 2^52]. *)
Definition refFloor (x : float) : float :=
  if abs x <? 0x1p52 then
    let r := (abs x + 0x1p52) - 0x1p52 in
    if x <? 0 then (if r <? abs x then - (r + 1) else - r)
    else if x =? 0 then x
    else (if abs x <? r then r - 1 else r)
  else x.

(** The integer nearest to [m * 2^e], ties to even. *)
Definition roundHalfEven (m : positive) (e : Z) : Z :=
  if (0 <=? e)%Z then (Z.pos m * 2 ^ e)%Z
  else
    let d := (2 ^ (- e))%Z in
    let q := (Z.pos m / d)%Z in
    match (2 * (Z.pos m mod d) ?= d)%Z with
    | Lt => q
    | Gt => (q + 1)%Z
    | Eq => if Z.even q then q else (q + 1)%Z
    end.

(** The verb [%.0f]. *)
Definition refFormatF0 (x : float) : string :=
  match Prim2SF x with
  | S754_nan => "NaN"
  | S754_infinity s => if s then "-Inf" else "+Inf"
  | S754_zero s => if s then "-0" else "0"
  | S754_finite s m e => (if s then "-" else "") +:+ FormatInt (roundHalfEven m e)
  end.

(** The trigonometric functions by their small-angle approximations
    ([sin x] as [x], [cos x] as [1], [atan2(y, x)] as [y / x]): enough to run
    the pipeline on points that are close to each other and to the equator.
    The theorems below hold for every [GoLib]; this one only runs examples. *)
#[local] Instance smallAngle : GoLib := {|
  Sin := fun x => x;
  Cos := fun _ => 1;
  Atan2 := fun y x => y / x;
  Floor := refFloor;
  FormatF0 := refFormatF0
|}.

(** A clock that starts on 2025-06-15 15:06:40 UTC and advances by one
    microsecond per reading. *)
#[local] Instance microClock : WallClock := {|
  wallclock := fun n =>
    {| time.unixNano := (1750000000 * time.Second + Z.of_nat n * 1000)%Z;
       time.zoneOffset := 0 |}
|}.

Definition exampleConfig : Config :=
  {| MaxVelocity := 2; VelocityWindow := time.Minute;
     HighRiskThreshold := 0.6; BlockThreshold := 0.8; MLEnabled := true |}.

Definition quito : Location :=
  {| Latitude := -0.1807; Longitude := -78.4678; Country := "EC"; City := "Quito" |}.

Definition guayaquil : Location :=
  {| Latitude := -2.1710; Longitude := -79.9224; Country := "EC"; City := "Guayaquil" |}.

(** A wire transfer of 15000 from Quito, stamped with the clock's first
    reading. *)
Definition wire : Transaction :=
  {| Transaction.ID := "TXN-1"; Transaction.AccountID := "ACC-1";
     Transaction.Amount := 15000; Transaction.Currency := "USD";
     Transaction.MerchantID := "M-1"; Transaction.Location := quito;
     Transaction.Timestamp := wallclock 0%nat;
     Transaction.Type_ := "WIRE_TRANSFER";
     Transaction.DeviceID := "DEVICE-1"; Transaction.IPAddress := "" |}.

(** A purchase by the same account from Guayaquil, stamped like [wire]. *)
Definition purchase : Transaction :=
  {| Transaction.ID := "TXN-2"; Transaction.AccountID := "ACC-1";
     Transaction.Amount := 500; Transaction.Currency := "USD";
     Transaction.MerchantID := "M-1"; Transaction.Location := guayaquil;
     Transaction.Timestamp := wallclock 0%nat;
     Transaction.Type_ := "PURCHASE";
     Transaction.DeviceID := "DEVICE-1"; Transaction.IPAddress := "10.0.0.1" |}.

(** A purchase stamped 2024-01-01 03:00:00 UTC, as the transactions of the
    repository's tests are: long before the window of a clock that reads June
    2025. *)
Definition stale : Transaction :=
  {| Transaction.ID := "TXN-3"; Transaction.AccountID := "ACC-2";
     Transaction.Amount := 500; Transaction.Currency := "USD";
     Transaction.MerchantID := "M-1"; Transaction.Location := quito;
     Transaction.Timestamp :=
     {| time.unixNano := (1704078000 * time.Second)%Z; time.zoneOffset := 0 |};
     Transaction.Type_ := "PURCHASE";
     Transaction.DeviceID := "DEVICE-1"; Transaction.IPAddress := "10.0.0.1" |}.

(** A fresh detector, and the same after [wire] was analysed. *)
Definition fresh : Detector := NewDetector exampleConfig.

Definition afterWire := Analyze (Some wire) fresh 0%nat.

(** Two rules that share an identifier. *)
Definition dupRule : Rule :=
  {| Rule.ID := "DUP"; Rule.Name := "Duplicate"; Rule.Description := "Added twice";
     Rule.Condition := Some (fun _ => false); Rule.Score := 0.1; Rule.Action := "FLAG" |}.

Definition withDuplicates : Detector :=
  state (AddRule dupRule (state (AddRule dupRule fresh 0%nat)) 0%nat).

(** A rule built with an identifier, a name and a weight, and nothing else,
    as the rules the tests of the repository add: its [Condition] is nil. *)
Definition bareRule : Rule :=
  {| Rule.ID := "RULE1"; Rule.Name := "Rule 1"; Rule.Description := "";
     Rule.Condition := None; Rule.Score := 0.1; Rule.Action := "" |}.

Definition withBareRule : Detector := state (AddRule bareRule fresh 0%nat).

(** The arc tangent as the magnitude of the quotient, with the sine and the
    cosine of [smallAngle]: it is NaN or non-negative, as [math.Atan2] is on
    a first argument that is not negative. *)
#[local] Instance magnitude : GoLib := {|
  Sin := fun x => x;
  Cos := fun _ => 1;
  Atan2 := fun y x => abs (y / x);
  Floor := refFloor;
  FormatF0 := refFormatF0
|}.

(** A source of [math/rand] that draws one half every time. *)
#[local] Instance halfSource : RandSource := {|
  randFloat64 := fun _ => 0.5
|}.

(** [wire] analysed a second time, right after the first. *)
Definition afterWires := Analyze (Some wire) (state afterWire) (ticks afterWire).

(** A transfer of 75000 by the same account from Guayaquil, stamped like
    [wire]. *)
Definition heist : Transaction :=
  {| Transaction.ID := "TXN-4"; Transaction.AccountID := "ACC-1";
     Transaction.Amount := 75000; Transaction.Currency := "USD";
     Transaction.MerchantID := "M-1"; Transaction.Location := guayaquil;
     Transaction.Timestamp := wallclock 0%nat;
     Transaction.Type_ := "WIRE_TRANSFER";
     Transaction.DeviceID := "DEVICE-1"; Transaction.IPAddress := "10.0.0.1" |}.

(** The engine of a service that starts at the clock's first reading, with
    no number drawn yet. *)
Definition newEngine : ml.World :=
  {| ml.engine := result (ml.NewMLEngine tt 0%nat); ml.drawn := 0 |}.

End Examples.

(* ===================================================================== *)
(** ** Facts on binary64                                                  *)
(* ===================================================================== *)

Module F64Facts.
Import F64.
Local Open Scope float_scope.

(** *** The order of [SFcompare] *)

Lemma SFcompare_swap (x y : spec_float) :
  SFcompare y x = option_map CompOpp (SFcompare x y).
Proof.
  destruct x as [[]|[]| |[] mx ex], y as [[]|[]| |[] my ey]; simpl; try reflexivity.
  all: rewrite (Z.compare_antisym ex ey), !Pos.compare_cont_spec; simpl;
    rewrite (Pos.compare_antisym mx my);
    destruct (ex ?= ey)%Z, (mx ?= my)%positive; reflexivity.
Qed.

Lemma SFltb_false_leb (x y : spec_float) :
  x <> S754_nan -> y <> S754_nan -> SFltb x y = false -> SFleb y x = true.
Proof.
  unfold SFltb, SFleb. rewrite (SFcompare_swap x y).
  destruct x, y; try congruence; intros _ _;
    destruct (SFcompare _ _) as [[]|] eqn:E; simpl; try congruence;
    simpl in E; try discriminate.
Qed.

Lemma SFleb_false_ltb (x y : spec_float) :
  x <> S754_nan -> y <> S754_nan -> SFleb x y = false -> SFltb y x = true.
Proof.
  unfold SFltb, SFleb. rewrite (SFcompare_swap x y).
  destruct x, y; try congruence; intros _ _;
    destruct (SFcompare _ _) as [[]|] eqn:E; simpl; try congruence;
    simpl in E; try discriminate.
Qed.

Lemma SFltb_leb_excl (x y : spec_float) :
  SFltb x y = true -> SFleb y x = false.
Proof.
  unfold SFltb, SFleb. rewrite (SFcompare_swap x y).
  destruct (SFcompare x y) as [[]|]; simpl; congruence.
Qed.

Lemma SFleb_trans (x y z : spec_float) :
  SFleb x y = true -> SFleb y z = true -> SFleb x z = true.
Proof.
  unfold SFleb.
  destruct x as [[]|[]| |[] mx ex], y as [[]|[]| |[] my ey], z as [[]|[]| |[] mz ez];
    simpl; try congruence; rewrite !Pos.compare_cont_spec; simpl;
    destruct (Z.compare_spec ex ey), (Z.compare_spec ey ez), (Z.compare_spec ex ez);
    try congruence; try lia;
    destruct (Pos.compare_spec mx my), (Pos.compare_spec my mz), (Pos.compare_spec mx mz);
    simpl; try congruence; try lia.
Qed.

(** *** Rounding keeps the sign: sums and quotients of non-negative numbers *)

Lemma iter_pos_preserves {A : Type} (P : A -> Prop) (f : A -> A) :
  (forall a, P a -> P (f a)) -> forall n a, P a -> P (SpecFloat.iter_pos f n a).
Proof.
  intros Hf. induction n as [n IH|n IH|]; simpl; intros a Ha; auto.
Qed.

Lemma shr_1_nonneg (mrs : shr_record) :
  (0 <= shr_m mrs)%Z -> (0 <= shr_m (shr_1 mrs))%Z.
Proof.
  destruct mrs as [m r s]. simpl.
  destruct m as [|[p|p|]|[p|p|]]; simpl; lia.
Qed.

Lemma shr_fexp_nonneg (m e : Z) (l : SpecFloat.location) :
  (0 <= m)%Z -> (0 <= shr_m (fst (shr_fexp prec emax m e l)))%Z.
Proof.
  intros Hm. unfold shr_fexp, shr.
  assert (H0 : (0 <= shr_m (shr_record_of_loc m l))%Z)
    by (destruct l as [|[]]; exact Hm).
  destruct (_ - e)%Z as [|p|p]; simpl; auto.
  apply (iter_pos_preserves (fun r => (0 <= shr_m r)%Z)); auto using shr_1_nonneg.
Qed.

Lemma round_nearest_even_nonneg (m : Z) (l : SpecFloat.location) :
  (0 <= m)%Z -> (0 <= round_nearest_even m l)%Z.
Proof.
  intros Hm. destruct l as [|[]]; simpl; try lia.
  destruct (Z.even m); lia.
Qed.

Lemma binary_round_aux_signed (s : bool) (m e : Z) (l : SpecFloat.location) :
  (0 <= m)%Z -> sf_signed s (binary_round_aux prec emax s m e l).
Proof.
  intros Hm. unfold binary_round_aux.
  pose proof (shr_fexp_nonneg m e l Hm) as H1.
  destruct (shr_fexp prec emax m e l) as [mrs' e']. simpl in H1.
  pose proof (round_nearest_even_nonneg _ (loc_of_shr_record mrs') H1) as H2.
  pose proof (shr_fexp_nonneg _ e' loc_Exact H2) as H3.
  destruct (shr_fexp prec emax _ e' loc_Exact) as [mrs'' e'']. simpl in H3.
  destruct (shr_m mrs'') as [|p|p]; simpl; try reflexivity; try lia.
  destruct (e'' <=? emax - prec)%Z; reflexivity.
Qed.

Lemma sf_nonneg_signed (x : spec_float) : sf_signed false x -> sf_nonneg x = true.
Proof.
  destruct x as [s|s| |s m e]; simpl; intros H; subst; unfold sf_nonneg, SFleb; easy.
Qed.

Lemma SFadd_nonneg (x y : spec_float) :
  sf_nonneg x = true -> sf_nonneg y = true -> sf_nonneg (SF64add x y) = true.
Proof.
  destruct x as [[]|[]| |[] mx ex], y as [[]|[]| |[] my ey]; try discriminate;
    intros _ _; try reflexivity.
  unfold SF64add, SFadd, binary_normalize, cond_Zopp.
  destruct (Z.pos _ + Z.pos _)%Z as [|p|p] eqn:E; try lia; try reflexivity.
  apply sf_nonneg_signed. unfold binary_round.
  destruct (shl_align p _ _) as [mz ez].
  apply binary_round_aux_signed. lia.
Qed.

Lemma SFdiv_nonneg (x : spec_float) (my : positive) (ey : Z) :
  sf_nonneg x = true -> sf_nonneg (SF64div x (S754_finite false my ey)) = true.
Proof.
  destruct x as [[]|[]| |[] mx ex]; try discriminate; intros _; try reflexivity.
  unfold SF64div, SFdiv, SFdiv_core_binary.
  set (m' := match (ex - ey - _)%Z with Z0 => _ | Zpos _ => _ | Zneg _ => _ end).
  assert (Hm' : (0 <= m')%Z).
  { subst m'. destruct (ex - ey - _)%Z; try lia. apply Z.shiftl_nonneg. lia. }
  pose proof (Z.div_pos m' (Z.pos my) Hm' ltac:(lia)) as Hq.
  unfold Z.div in Hq. destruct (Z.div_eucl m' (Z.pos my)) as [q r].
  apply sf_nonneg_signed, binary_round_aux_signed. exact Hq.
Qed.

(** *** The same facts on primitive floats *)

Lemma Prim2SF_nan (x : float) : IsNaN x = false <-> Prim2SF x <> S754_nan.
Proof.
  unfold IsNaN. rewrite FloatAxioms.eqb_spec. unfold SFeqb.
  destruct (Prim2SF x) as [[]|[]| |[] m e]; simpl;
    rewrite ?Pos.compare_cont_spec, ?Z.compare_refl, ?Pos.compare_refl; simpl;
    split; congruence.
Qed.

Lemma nonneg_sf (x : float) : nonneg x <-> sf_nonneg (Prim2SF x) = true.
Proof. unfold nonneg. rewrite FloatAxioms.leb_spec. reflexivity. Qed.

Lemma nonneg_not_nan (x : float) : nonneg x -> IsNaN x = false.
Proof.
  rewrite nonneg_sf, Prim2SF_nan.
  destruct (Prim2SF x); unfold sf_nonneg, SFleb; simpl; congruence.
Qed.

Lemma leb_not_nan_r (x y : float) : (x <=? y) = true -> IsNaN y = false.
Proof.
  rewrite FloatAxioms.leb_spec, Prim2SF_nan. unfold SFleb.
  destruct (Prim2SF x), (Prim2SF y); simpl; congruence.
Qed.

Lemma leb_trans (x y z : float) :
  (x <=? y) = true -> (y <=? z) = true -> (x <=? z) = true.
Proof. rewrite !FloatAxioms.leb_spec. apply SFleb_trans. Qed.

Lemma ltb_false_leb (x y : float) :
  IsNaN x = false -> IsNaN y = false -> (x <? y) = false -> (y <=? x) = true.
Proof. rewrite !Prim2SF_nan, FloatAxioms.ltb_spec, FloatAxioms.leb_spec. apply SFltb_false_leb. Qed.

Lemma leb_false_ltb (x y : float) :
  IsNaN x = false -> IsNaN y = false -> (x <=? y) = false -> (y <? x) = true.
Proof. rewrite !Prim2SF_nan, FloatAxioms.ltb_spec, FloatAxioms.leb_spec. apply SFleb_false_ltb. Qed.

Lemma ltb_leb_excl (x y : float) : (x <? y) = true -> (y <=? x) = false.
Proof. rewrite FloatAxioms.ltb_spec, FloatAxioms.leb_spec. apply SFltb_leb_excl. Qed.

Lemma add_nonneg (x y : float) : nonneg x -> nonneg y -> nonneg (x + y).
Proof.
  rewrite !nonneg_sf, FloatAxioms.add_spec. apply SFadd_nonneg.
Qed.

Lemma half_nonneg (x : float) : nonneg x -> nonneg (x / 2).
Proof.
  rewrite !nonneg_sf, FloatAxioms.div_spec. apply SFdiv_nonneg.
Qed.

Lemma Max0_nonneg (x : float) : IsNaN x = false -> nonneg (Max 0 x).
Proof.
  intros Hx. unfold Max, nonneg.
  destruct (IsInf 0 1 || IsInf x 1); [reflexivity|].
  rewrite Hx. change (IsNaN 0) with false. simpl.
  change (Signbit 0) with false. change (0 =? 0) with true. simpl.
  destruct (0 =? x); [reflexivity|].
  unfold gt. destruct (x <? 0) eqn:E; [reflexivity|].
  apply ltb_false_leb; auto.
Qed.

Lemma Min1_between (r : float) : nonneg r -> between 0 1 (Min 1 r).
Proof.
  intros Hr. pose proof (nonneg_not_nan r Hr) as Hn.
  unfold Min, between.
  assert (Hinf : IsInf r (-1) = false).
  { assert (E : (r <? - MaxFloat64) = false).
    { destruct (r <? - MaxFloat64) eqn:E; [|reflexivity].
      apply ltb_leb_excl in E.
      rewrite (leb_trans (- MaxFloat64) 0 r) in E; [discriminate|reflexivity|exact Hr]. }
    unfold IsInf. rewrite E. reflexivity. }
  rewrite Hinf. change (IsInf 1 (-1)) with false. change (IsNaN 1) with false.
  rewrite Hn. change (1 =? 0) with false. simpl.
  destruct (1 <? r) eqn:E; [split; reflexivity|].
  split; [exact Hr|]. apply ltb_false_leb; auto.
Qed.

Lemma clamp01_between (x : float) : IsNaN x = false -> between 0 1 (clamp01 x).
Proof. intros Hx. apply Min1_between, Max0_nonneg, Hx. Qed.

(** A NaN goes through the clamp unchanged. *)
Lemma clamp01_nan : clamp01 nan = nan.
Proof. reflexivity. Qed.

(** There is one NaN. *)
Lemma IsNaN_nan (x : float) : IsNaN x = true -> x = nan.
Proof.
  intros H. apply Prim2SF_inj. change (Prim2SF nan) with S754_nan.
  destruct (Prim2SF x) eqn:E; try reflexivity;
    assert (Hn : IsNaN x = false) by (apply Prim2SF_nan; rewrite E; discriminate);
    congruence.
Qed.

(** The clamp lands in [0, 1] exactly on numbers. *)
Lemma clamp01_between_iff (x : float) : between 0 1 (clamp01 x) <-> IsNaN x = false.
Proof.
  split; [|apply clamp01_between].
  intros [H _]. destruct (IsNaN x) eqn:E; [|reflexivity].
  rewrite (IsNaN_nan x E) in H. discriminate.
Qed.

(** [x == x] unless [x] is NaN. *)
Lemma eqb_refl (x : float) : IsNaN x = false -> (x =? x) = true.
Proof. unfold IsNaN. destruct (x =? x); simpl; congruence. Qed.

Lemma between_not_nan (lo hi x : float) : between lo hi x -> IsNaN x = false.
Proof. intros [H _]. exact (leb_not_nan_r _ _ H). Qed.

(** *** Signs: what changes when an operand changes its sign *)

Lemma binary_round_aux_opp (s : bool) (m e : Z) (l : SpecFloat.location) :
  binary_round_aux prec emax (negb s) m e l = SFopp (binary_round_aux prec emax s m e l).
Proof.
  unfold binary_round_aux.
  destruct (shr_fexp prec emax m e l) as [mrs' e'].
  destruct (shr_fexp prec emax _ e' loc_Exact) as [mrs'' e''].
  destruct (shr_m mrs'') as [|p|p]; try reflexivity.
  destruct (e'' <=? emax - prec)%Z; reflexivity.
Qed.

Lemma SFabs_opp (x : spec_float) : SFabs (SFopp x) = SFabs x.
Proof. destruct x; reflexivity. Qed.

Lemma SFopp_involutive (x : spec_float) : SFopp (SFopp x) = x.
Proof. destruct x as [s|s| |s m e]; cbn; rewrite ?negb_involutive; reflexivity. Qed.

Lemma SFabs_eq_cases (x y : spec_float) : SFabs x = SFabs y -> x = y \/ x = SFopp y.
Proof.
  destruct x as [[]|[]| |[] mx ex], y as [[]|[]| |[] my ey]; cbn; intros H;
    try discriminate; inversion H; subst; auto.
Qed.

Lemma SFmul_opp_l (x y : spec_float) : SF64mul (SFopp x) y = SFopp (SF64mul x y).
Proof.
  destruct x as [sx|sx| |sx mx ex], y as [sy|sy| |sy my ey]; cbn;
    try reflexivity; try (destruct sx, sy; reflexivity).
  replace (xorb (negb sx) sy) with (negb (xorb sx sy)) by (destruct sx, sy; reflexivity).
  apply binary_round_aux_opp.
Qed.

Lemma SFmul_comm (x y : spec_float) : SF64mul x y = SF64mul y x.
Proof.
  destruct x as [sx|sx| |sx mx ex], y as [sy|sy| |sy my ey]; cbn;
    try reflexivity; try (destruct sx, sy; reflexivity).
  rewrite (xorb_comm sx sy), (Pos.mul_comm mx my), (Z.add_comm ex ey). reflexivity.
Qed.

Lemma SFdiv_opp_l (x y : spec_float) : SF64div (SFopp x) y = SFopp (SF64div x y).
Proof.
  destruct x as [sx|sx| |sx mx ex], y as [sy|sy| |sy my ey]; cbn;
    try reflexivity; try (destruct sx, sy; reflexivity).
  replace (xorb (negb sx) sy) with (negb (xorb sx sy)) by (destruct sx, sy; reflexivity).
  destruct (SFdiv_core_binary prec emax (Z.pos mx) ex (Z.pos my) ey) as [[mz ez] lz].
  apply binary_round_aux_opp.
Qed.

Lemma binary_round_abs (s : bool) (m : positive) (e : Z) :
  SFabs (binary_round prec emax s m e) = SFabs (binary_round prec emax false m e).
Proof.
  unfold binary_round. destruct (shl_align m e _) as [mz ez].
  destruct s; [|reflexivity].
  change true with (negb false). rewrite binary_round_aux_opp. apply SFabs_opp.
Qed.

Lemma binary_normalize_opp_abs (m e : Z) :
  SFabs (binary_normalize prec emax (- m) e false) = SFabs (binary_normalize prec emax m e false).
Proof.
  destruct m as [|p|p]; cbn; [reflexivity| |symmetry]; apply binary_round_abs.
Qed.

Lemma SFsub_swap_abs (x y : spec_float) : SFabs (SF64sub y x) = SFabs (SF64sub x y).
Proof.
  destruct x as [sx|sx| |sx mx ex], y as [sy|sy| |sy my ey]; cbn;
    try reflexivity; try (destruct sx, sy; reflexivity).
  rewrite (Z.min_comm ey ex), <- binary_normalize_opp_abs. f_equal. f_equal. lia.
Qed.

Lemma SFsub_diag (x : spec_float) : sf_finite x -> SF64sub x x = S754_zero false.
Proof.
  destruct x as [[]|s| |s m e]; cbn; intros H; try contradiction; try reflexivity.
  rewrite Z.sub_diag. reflexivity.
Qed.

Lemma finite_sf (x : float) : finite x <-> sf_finite (Prim2SF x).
Proof.
  unfold finite, is_finite, is_nan, is_infinity.
  rewrite !FloatAxioms.eqb_spec, FloatAxioms.abs_spec. unfold SFeqb.
  destruct (Prim2SF x) as [[]|[]| |[] m e]; cbn;
    rewrite ?Pos.compare_cont_spec, ?Z.compare_refl, ?Pos.compare_refl; cbn;
    split; intros H; try exact I; try reflexivity; try discriminate; try contradiction.
Qed.

Lemma abs_opp (x : float) : abs (- x) = abs x.
Proof.
  apply Prim2SF_inj. rewrite !FloatAxioms.abs_spec, FloatAxioms.opp_spec. apply SFabs_opp.
Qed.

Lemma abs_eq_cases (x y : float) : abs x = abs y -> x = y \/ x = - y.
Proof.
  intros H. apply (f_equal Prim2SF) in H. rewrite !FloatAxioms.abs_spec in H.
  destruct (SFabs_eq_cases _ _ H) as [E|E]; [left|right]; apply Prim2SF_inj.
  - exact E.
  - rewrite FloatAxioms.opp_spec. exact E.
Qed.

Lemma mul_comm (x y : float) : x * y = y * x.
Proof. apply Prim2SF_inj. rewrite !FloatAxioms.mul_spec. apply SFmul_comm. Qed.

Lemma mul_opp_l (x y : float) : (- x) * y = - (x * y).
Proof.
  apply Prim2SF_inj.
  rewrite FloatAxioms.mul_spec, !FloatAxioms.opp_spec, FloatAxioms.mul_spec. apply SFmul_opp_l.
Qed.

Lemma mul_opp_r (x y : float) : x * (- y) = - (x * y).
Proof. rewrite (mul_comm x (- y)), mul_opp_l, (mul_comm y x). reflexivity. Qed.

Lemma opp_involutive (x : float) : - (- x) = x.
Proof. apply Prim2SF_inj. rewrite !FloatAxioms.opp_spec. apply SFopp_involutive. Qed.

Lemma div_opp_l (x y : float) : (- x) / y = - (x / y).
Proof.
  apply Prim2SF_inj.
  rewrite FloatAxioms.div_spec, !FloatAxioms.opp_spec, FloatAxioms.div_spec. apply SFdiv_opp_l.
Qed.

Lemma sub_swap_abs (x y : float) : abs (y - x) = abs (x - y).
Proof.
  apply Prim2SF_inj. rewrite !FloatAxioms.abs_spec, !FloatAxioms.sub_spec. apply SFsub_swap_abs.
Qed.

Lemma sub_diag (x : float) : finite x -> x - x = 0.
Proof.
  intros H. apply Prim2SF_inj. rewrite FloatAxioms.sub_spec.
  apply SFsub_diag, finite_sf, H.
Qed.

Lemma mul_abs_l (x y c : float) : abs x = abs y -> abs (x * c) = abs (y * c).
Proof.
  intros H. destruct (abs_eq_cases x y H) as [->| ->]; [reflexivity|].
  rewrite mul_opp_l. apply abs_opp.
Qed.

Lemma div_abs_l (x y c : float) : abs x = abs y -> abs (x / c) = abs (y / c).
Proof.
  intros H. destruct (abs_eq_cases x y H) as [->| ->]; [reflexivity|].
  rewrite div_opp_l. apply abs_opp.
Qed.

(** [c * s * s] does not see the sign of [s]. *)
Lemma mul_mul_abs (c s s' : float) : abs s = abs s' -> c * s * s = c * s' * s'.
Proof.
  intros H. destruct (abs_eq_cases s s' H) as [->| ->]; [reflexivity|].
  rewrite !mul_opp_r, mul_opp_l, opp_involutive. reflexivity.
Qed.

Lemma square_abs (s s' : float) : abs s = abs s' -> s * s = s' * s'.
Proof.
  intros H. destruct (abs_eq_cases s s' H) as [->| ->]; [reflexivity|].
  rewrite mul_opp_r, mul_opp_l, opp_involutive. reflexivity.
Qed.

(** A finite number times zero, times zero, added to zero, is zero. *)
Lemma zero_plus_finite_zero_zero (c : float) : finite c -> 0 + c * 0 * 0 = 0.
Proof.
  intros H. apply finite_sf in H. apply Prim2SF_inj.
  rewrite FloatAxioms.add_spec, !FloatAxioms.mul_spec.
  destruct (Prim2SF c) as [[]|s| |[] m e]; try contradiction; reflexivity.
Qed.

(** *** Magnitudes: the product of two numbers of [-1, 1] does not overflow *)

Lemma digits2_pos_gt (p : positive) : (Z.pos p < 2 ^ Z.pos (digits2_pos p))%Z.
Proof.
  induction p as [p IH|p IH|]; cbn [digits2_pos];
    rewrite ?Pos2Z.inj_succ, ?Z.pow_succ_r by lia; lia.
Qed.

Lemma shr_1_le (B : Z) (mrs : shr_record) :
  (0 <= shr_m mrs <= B)%Z -> (0 <= shr_m (shr_1 mrs) <= B)%Z.
Proof.
  destruct mrs as [m r s]. cbn.
  destruct m as [|[p|p|]|[p|p|]]; cbn; lia.
Qed.

Lemma shr_fexp_bounds (m e : Z) (l : SpecFloat.location) :
  (0 <= m)%Z ->
  (0 <= shr_m (fst (shr_fexp prec emax m e l)) <= m)%Z /\
  snd (shr_fexp prec emax m e l) = Z.max e (fexp prec emax (Zdigits2 m + e)).
Proof.
  intros Hm. unfold shr_fexp, shr.
  assert (H0 : (0 <= shr_m (shr_record_of_loc m l) <= m)%Z)
    by (destruct l as [|[]]; cbn; lia).
  destruct (fexp prec emax (Zdigits2 m + e) - e)%Z as [|p|p] eqn:E; cbn [fst snd].
  - split; [exact H0|lia].
  - split; [|lia].
    apply (iter_pos_preserves (fun r => (0 <= shr_m r <= m)%Z)); auto using shr_1_le.
  - split; [exact H0|lia].
Qed.

Lemma round_nearest_even_le (m : Z) (l : SpecFloat.location) :
  (0 <= m)%Z -> (0 <= round_nearest_even m l <= m + 1)%Z.
Proof.
  intros Hm. destruct l as [|[]]; cbn; try lia. destruct (Z.even m); lia.
Qed.

Lemma digits2_pos_le (p : positive) :
  forall k, (0 <= k)%Z -> (Z.pos p < 2 ^ k)%Z -> (Z.pos (digits2_pos p) <= k)%Z.
Proof.
  induction p as [p IH|p IH|]; intros k Hk Hp; cbn [digits2_pos];
    rewrite ?Pos2Z.inj_succ.
  - assert (k <> 0)%Z by (intros ->; cbn in Hp; lia).
    replace k with (Z.succ (k - 1))%Z in Hp by lia. rewrite Z.pow_succ_r in Hp by lia.
    specialize (IH (k - 1)%Z). lia.
  - assert (k <> 0)%Z by (intros ->; cbn in Hp; lia).
    replace k with (Z.succ (k - 1))%Z in Hp by lia. rewrite Z.pow_succ_r in Hp by lia.
    specialize (IH (k - 1)%Z). lia.
  - assert (k <> 0)%Z by (intros ->; cbn in Hp; lia). lia.
Qed.

Lemma Zdigits2_le (m k : Z) :
  (0 <= k)%Z -> (0 <= m < 2 ^ k)%Z -> (Zdigits2 m <= k)%Z.
Proof.
  intros Hk [H0 Hm]. destruct m as [|p|p]; cbn; try lia.
  apply digits2_pos_le; assumption.
Qed.

Lemma fexp_le (k : Z) : (k <= 160)%Z -> (fexp prec emax k <= 107)%Z.
Proof. unfold fexp, SpecFloat.emin, prec, emax. lia. Qed.

Lemma binary_round_aux_finite (s : bool) (M E : Z) (l : SpecFloat.location) :
  (0 <= M < 2 ^ 106)%Z -> (E <= 0)%Z ->
  sf_finite (binary_round_aux prec emax s M E l).
Proof.
  intros [HM0 HM] HE. unfold binary_round_aux.
  destruct (shr_fexp_bounds M E l HM0) as [[Ha Hb] He].
  destruct (shr_fexp prec emax M E l) as [mrs' e']. cbn [fst snd] in *.
  pose proof (round_nearest_even_le _ (loc_of_shr_record mrs') Ha) as [Hr0 Hr].
  destruct (shr_fexp_bounds _ e' loc_Exact Hr0) as [[Hc Hd] He'].
  destruct (shr_fexp prec emax _ e' loc_Exact) as [mrs'' e'']. cbn [fst snd] in *.
  assert (Hd1 : (Zdigits2 M <= 106)%Z) by (apply Zdigits2_le; lia).
  assert (He1 : (e' <= 53)%Z).
  { rewrite He. unfold fexp, SpecFloat.emin, prec, emax. lia. }
  assert (Hd2 : (Zdigits2 (round_nearest_even (shr_m mrs') (loc_of_shr_record mrs')) <= 107)%Z).
  { apply Zdigits2_le; [lia|]. split; [lia|].
    replace 107%Z with (Z.succ 106) by lia. rewrite Z.pow_succ_r by lia. lia. }
  assert (He2 : (e'' <= 107)%Z).
  { rewrite He'. pose proof (fexp_le (Zdigits2 (round_nearest_even (shr_m mrs')
      (loc_of_shr_record mrs')) + e')%Z ltac:(lia)). lia. }
  assert (Hle : (e'' <=? 971)%Z = true) by (apply Z.leb_le; lia).
  change (emax - prec)%Z with 971%Z.
  destruct (shr_m mrs'') as [|p|p]; cbn; rewrite ?Hle; try exact I; lia.
Qed.

Lemma valid_mantissa_lt (m : positive) (e : Z) :
  valid_binary (S754_finite false m e) = true -> (Z.pos m < 2 ^ 53)%Z.
Proof.
  cbn. unfold bounded, canonical_mantissa. intros H.
  apply andb_true_iff in H as [H _]. apply Z.eqb_eq in H.
  pose proof (digits2_pos_gt m) as Hd.
  assert (Z.pos (digits2_pos m) <= 53)%Z.
  { unfold fexp, SpecFloat.emin, prec, emax in H. lia. }
  assert (Hp : (2 ^ Z.pos (digits2_pos m) <= 2 ^ 53)%Z) by (apply Z.pow_le_mono_r; lia).
  lia.
Qed.

Lemma SFmul_finite_small (x y : spec_float) :
  valid_binary x = true -> valid_binary y = true ->
  sf_small x -> sf_small y -> sf_finite (SF64mul x y).
Proof.
  destruct x as [sx|sx| |sx mx ex], y as [sy|sy| |sy my ey]; cbn [SF64mul SFmul];
    unfold sf_small; intros Vx Vy Hx Hy; try contradiction; try exact I.
  apply binary_round_aux_finite; [|lia].
  pose proof (valid_mantissa_lt mx ex Vx). pose proof (valid_mantissa_lt my ey Vy).
  rewrite Pos2Z.inj_mul. change (2 ^ 106)%Z with (2 ^ 53 * 2 ^ 53)%Z. nia.
Qed.

Lemma between_unit_sf (x : float) :
  between (-1) 1 x -> sf_small (Prim2SF x).
Proof.
  intros [Hlo Hhi]. rewrite FloatAxioms.leb_spec in Hlo, Hhi.
  change (Prim2SF (-1)) with (S754_finite true 4503599627370496 (-52)) in Hlo.
  change (Prim2SF 1) with (S754_finite false 4503599627370496 (-52)) in Hhi.
  unfold SFleb, sf_small in *.
  destruct (Prim2SF x) as [[]|[]| |[] m e]; cbn [SFcompare] in *;
    try exact I; try discriminate.
  - destruct (Z.compare_spec (-52) e); try lia; discriminate.
  - destruct (Z.compare_spec e (-52)); try lia; discriminate.
Qed.

Lemma mul_finite_unit (x y : float) :
  between (-1) 1 x -> between (-1) 1 y -> finite (x * y).
Proof.
  intros Hx Hy. apply finite_sf. rewrite FloatAxioms.mul_spec.
  apply SFmul_finite_small; auto using Prim2SF_valid, between_unit_sf.
Qed.

(** *** Products with a positive number *)

Lemma SFmul_nonneg_finite (x : spec_float) (my : positive) (ey : Z) :
  sf_nonneg x = true -> sf_nonneg (SF64mul x (S754_finite false my ey)) = true.
Proof.
  destruct x as [[]|[]| |[] mx ex]; try discriminate; intros _; try reflexivity.
  unfold SF64mul, SFmul. cbn [xorb].
  apply sf_nonneg_signed, binary_round_aux_signed. lia.
Qed.

Lemma mul_nonneg_finite (x c : float) (m : positive) (e : Z) :
  Prim2SF c = S754_finite false m e -> nonneg x -> nonneg (x * c).
Proof.
  intros Hc. rewrite !nonneg_sf, FloatAxioms.mul_spec, Hc. apply SFmul_nonneg_finite.
Qed.

(** The clamp of a score by two comparisons, as [calculateMLScore] writes it. *)
Lemma clamp_by_comparisons (s : float) :
  nonneg s -> between 0 1 (let s := if gt s 1 then 1 else s in if s <? 0 then 0 else s).
Proof.
  intros Hs. cbn zeta. unfold gt.
  pose proof (nonneg_not_nan s Hs) as Hn.
  destruct (1 <? s) eqn:E1.
  - change (1 <? 0) with false. cbn. split; reflexivity.
  - destruct (s <? 0) eqn:E0.
    + apply ltb_leb_excl in E0. unfold nonneg in Hs. congruence.
    + split; [exact Hs|]. apply ltb_false_leb; [reflexivity|exact Hn|exact E1].
Qed.

(** *** Results that do not vanish, and the sign of a square root *)

Lemma digits2_pos_lower (p : positive) :
  (2 ^ (Z.pos (digits2_pos p) - 1) <= Z.pos p)%Z.
Proof.
  induction p as [p IH|p IH|]; cbn [digits2_pos].
  - rewrite Pos2Z.inj_succ. replace (Z.succ (Z.pos (digits2_pos p)) - 1)%Z
      with (Z.succ (Z.pos (digits2_pos p) - 1))%Z by lia.
    rewrite Z.pow_succ_r by lia. lia.
  - rewrite Pos2Z.inj_succ. replace (Z.succ (Z.pos (digits2_pos p)) - 1)%Z
      with (Z.succ (Z.pos (digits2_pos p) - 1))%Z by lia.
    rewrite Z.pow_succ_r by lia. lia.
  - cbn. lia.
Qed.

Lemma shr_1_lower (k : Z) (mrs : shr_record) :
  (0 <= k)%Z -> (2 ^ (k + 1) <= shr_m mrs)%Z -> (2 ^ k <= shr_m (shr_1 mrs))%Z.
Proof.
  intros Hk. rewrite Z.pow_add_r by lia. change (2 ^ 1)%Z with 2%Z.
  assert (0 < 2 ^ k)%Z by (apply Z.pow_pos_nonneg; lia).
  destruct mrs as [[|[p|p|]|p] r s]; cbn; lia.
Qed.

Lemma iter_shr_1_lower (p : positive) :
  forall (k : Z) (mrs : shr_record),
    (0 <= k)%Z -> (2 ^ (k + Z.pos p) <= shr_m mrs)%Z ->
    (2 ^ k <= shr_m (SpecFloat.iter_pos shr_1 p mrs))%Z.
Proof.
  induction p as [p IH|p IH|]; intros k mrs Hk H; cbn [SpecFloat.iter_pos].
  - apply IH; [lia|]. apply IH; [lia|]. apply shr_1_lower; [lia|].
    replace (k + Z.pos p + Z.pos p + 1)%Z with (k + Z.pos p~1)%Z by lia. exact H.
  - apply IH; [lia|]. apply IH; [lia|].
    replace (k + Z.pos p + Z.pos p)%Z with (k + Z.pos p~0)%Z by lia. exact H.
  - apply shr_1_lower; assumption.
Qed.

Lemma shr_fexp_pos (m : positive) (e : Z) (l : SpecFloat.location) :
  (-1074 <= e)%Z ->
  (0 < shr_m (fst (shr_fexp prec emax (Z.pos m) e l)))%Z /\
  (-1074 <= snd (shr_fexp prec emax (Z.pos m) e l))%Z.
Proof.
  intros He. unfold shr_fexp, shr.
  assert (Hm : shr_m (shr_record_of_loc (Z.pos m) l) = Z.pos m)
    by (destruct l as [|[]]; reflexivity).
  destruct (fexp prec emax (Zdigits2 (Z.pos m) + e) - e)%Z as [|p|p] eqn:E;
    cbn [fst snd]; try (rewrite Hm; split; lia).
  unfold fexp in E. cbn [Zdigits2] in E.
  assert (Hp : Z.pos p = (Z.pos (digits2_pos m) - prec)%Z)
    by (unfold SpecFloat.emin, emax, prec in *; lia).
  split; [|lia].
  apply Z.lt_le_trans with (2 ^ 52)%Z; [reflexivity|].
  apply iter_shr_1_lower; [lia|]. rewrite Hm, Hp.
  replace (52 + (Z.pos (digits2_pos m) - prec))%Z with (Z.pos (digits2_pos m) - 1)%Z
    by (unfold prec; lia).
  apply digits2_pos_lower.
Qed.

Lemma round_nearest_even_lower (m : Z) (l : SpecFloat.location) :
  (m <= round_nearest_even m l)%Z.
Proof. destruct l as [|[]]; cbn; try lia. destruct (Z.even m); lia. Qed.

Lemma binary_round_aux_nonzero (s s' : bool) (m : positive) (e : Z) (l : SpecFloat.location) :
  (-1074 <= e)%Z -> binary_round_aux prec emax s (Z.pos m) e l <> S754_zero s'.
Proof.
  intros He. unfold binary_round_aux.
  destruct (shr_fexp_pos m e l He) as [H1 H1'].
  destruct (shr_fexp prec emax (Z.pos m) e l) as [mrs' e']. cbn [fst snd] in H1, H1'.
  pose proof (round_nearest_even_lower (shr_m mrs') (loc_of_shr_record mrs')) as H2.
  destruct (round_nearest_even (shr_m mrs') (loc_of_shr_record mrs')) as [|q|q]; try lia.
  destruct (shr_fexp_pos q e' loc_Exact H1') as [H3 _].
  destruct (shr_fexp prec emax (Z.pos q) e' loc_Exact) as [mrs'' e'']. cbn [fst] in H3.
  destruct (shr_m mrs'') as [|r|r]; try lia.
  destruct (e'' <=? emax - prec)%Z; discriminate.
Qed.

Lemma binary_round_nonzero (s s' : bool) (m : positive) (e : Z) :
  (-1074 <= e)%Z -> binary_round prec emax s m e <> S754_zero s'.
Proof.
  intros He. unfold binary_round, shl_align.
  destruct (fexp prec emax (Z.pos (digits2_pos m) + e) - e)%Z eqn:E;
    apply binary_round_aux_nonzero; try assumption.
  unfold fexp, SpecFloat.emin, emax, prec in *. lia.
Qed.

Lemma valid_exponent (s : bool) (m : positive) (e : Z) :
  valid_binary (S754_finite s m e) = true -> (-1074 <= e)%Z.
Proof.
  unfold valid_binary, bounded, canonical_mantissa. intros H.
  apply andb_prop in H as [H _]. apply Z.eqb_eq in H.
  unfold fexp, SpecFloat.emin, emax, prec in *. lia.
Qed.

(** A sum whose first term has its sign bit clear is not the negative zero. *)
Lemma SFadd_not_negative_zero (x y : spec_float) :
  valid_binary x = true -> valid_binary y = true ->
  sf_signed false x -> SF64add x y <> S754_zero true.
Proof.
  intros Vx Vy Hx.
  destruct x as [sx|sx| |sx mx ex]; cbn in Hx; try contradiction; subst sx;
    destruct y as [sy|sy| |sy my ey]; cbn; try discriminate.
  - destruct sy; discriminate.
  - destruct sy; discriminate.
  - unfold binary_normalize.
    pose proof (valid_exponent _ _ _ Vx). pose proof (valid_exponent _ _ _ Vy).
    destruct (_ + _)%Z; [discriminate| |]; apply binary_round_nonzero; lia.
Qed.

(** The square root of what is not the negative zero is NaN, or has its sign
    bit clear. *)
Lemma SFsqrt_signed (x : spec_float) :
  x <> S754_zero true -> SF64sqrt x = S754_nan \/ sf_signed false (SF64sqrt x).
Proof.
  intros Hx. destruct x as [[]|[]| |[] mx ex]; cbn; auto; try congruence.
  right. unfold SFsqrt_core_binary.
  set (m' := match (ex - 2 * _)%Z with Z0 => _ | Zpos _ => _ | Zneg _ => _ end).
  assert (Hm' : (0 <= m')%Z).
  { subst m'. destruct (ex - 2 * _)%Z; try lia. apply Z.shiftl_nonneg. lia. }
  pose proof (Z.sqrtrem_spec m' Hm') as Hs.
  destruct (Z.sqrtrem m') as [q r]. destruct Hs as [_ Hs].
  apply binary_round_aux_signed. lia.
Qed.

Lemma SFmul_nonneg_finite_l (y : spec_float) (mx : positive) (ex : Z) :
  sf_nonneg y = true -> sf_nonneg (SF64mul (S754_finite false mx ex) y) = true.
Proof. rewrite SFmul_comm. apply SFmul_nonneg_finite. Qed.

(** *** Numbers whose sign bit is clear *)

Lemma plus_signed_nonneg (x : float) : plus_signed x -> nonneg x.
Proof. intros H. apply nonneg_sf, sf_nonneg_signed, H. Qed.

Lemma square_plus_signed (x : float) : IsNaN (x * x) = true \/ plus_signed (x * x).
Proof.
  destruct (IsNaN (x * x)) eqn:E; [left; reflexivity|right].
  apply Prim2SF_nan in E. unfold plus_signed. rewrite FloatAxioms.mul_spec in *.
  destruct (Prim2SF x) as [[]|[]| |[] m e]; cbn in *; try congruence;
    apply binary_round_aux_signed; lia.
Qed.

Lemma sqrt_sum_plus_signed (p q : float) :
  plus_signed p -> IsNaN (PrimFloat.sqrt (p + q)) = true \/ plus_signed (PrimFloat.sqrt (p + q)).
Proof.
  intros Hp.
  destruct (IsNaN (PrimFloat.sqrt (p + q))) eqn:E; [left; reflexivity|right].
  apply Prim2SF_nan in E. unfold plus_signed in *.
  rewrite FloatAxioms.sqrt_spec, FloatAxioms.add_spec in *.
  destruct (SFsqrt_signed (SF64add (Prim2SF p) (Prim2SF q))) as [H|H]; [|congruence|exact H].
  apply SFadd_not_negative_zero; [apply Prim2SF_valid|apply Prim2SF_valid|exact Hp].
Qed.

Lemma sqrt_nan (x : float) : IsNaN x = true -> PrimFloat.sqrt x = nan.
Proof. intros H. apply IsNaN_nan in H. subst x. reflexivity. Qed.

Lemma nan_add_l (x : float) : nan + x = nan.
Proof.
  apply Prim2SF_inj. rewrite FloatAxioms.add_spec. reflexivity.
Qed.

Lemma mul_nonneg_finite_l (c x : float) (m : positive) (e : Z) :
  Prim2SF c = S754_finite false m e -> nonneg x -> nonneg (c * x).
Proof.
  intros Hc. rewrite !nonneg_sf, FloatAxioms.mul_spec, Hc. apply SFmul_nonneg_finite_l.
Qed.

Lemma mul_nan_r (c : float) : c * nan = nan.
Proof. apply Prim2SF_inj. rewrite FloatAxioms.mul_spec. cbn. destruct (Prim2SF c); reflexivity. Qed.

Lemma abs_nonneg_or_nan (z : float) : IsNaN (abs z) = true \/ nonneg (abs z).
Proof.
  destruct (IsNaN (abs z)) eqn:E; [left; reflexivity|right].
  apply Prim2SF_nan in E. apply nonneg_sf. rewrite FloatAxioms.abs_spec in *.
  destruct (Prim2SF z) as [s|s| |s m e]; cbn in *; try congruence; reflexivity.
Qed.

Lemma nan_div_l (x : float) : nan / x = nan.
Proof. apply Prim2SF_inj. rewrite FloatAxioms.div_spec. reflexivity. Qed.

End F64Facts.

(* ===================================================================== *)
(** ** Properties of the pipeline                                         *)
(* ===================================================================== *)

Section Properties.
Context {lib : GoLib} {clock : WallClock}.
Import F64 F64Facts.
Local Open Scope float_scope.

(** Cases on the condition of the first [if] of the goal. *)
Ltac case_if :=
  match goal with
  | |- context [if ?b then _ else _] => destruct b eqn:?
  end.

(** *** The negation of a window *)

(** The negation is the opposite, but for the least duration, which it gives
    back. *)
Lemma Neg_opp (w : time.Duration) :
  (time.minDuration < w <= time.maxDuration)%Z -> time.Neg w = (- w)%Z.
Proof.
  unfold time.Neg, time.wrap64, time.minDuration, time.maxDuration. intros H.
  rewrite Z.mod_small by lia. lia.
Qed.

Lemma Neg_minDuration : time.Neg time.minDuration = time.minDuration.
Proof. reflexivity. Qed.

(** *** The loop of the rules *)

Lemma applyRules_fold_Panics (tx : Transaction) (rs : list Rule) :
  fold_left (applyRules_step tx) rs Panics = Panics.
Proof. induction rs as [|r rs IH]; [reflexivity|exact IH]. Qed.

(** With a condition in every rule the loop returns: the sum of the weights
    of the rules whose condition holds, and their descriptions. *)
Lemma applyRules_fold (tx : Transaction) (rs : list Rule) (acc : float * list string) :
  Forall (fun r => is_Some (Rule.Condition r)) rs ->
  fold_left (applyRules_step tx) rs (Returns acc) =
    Returns (fold_left (fun s r => s + Rule.Score r)
               (List.filter (fun r => holds r tx) rs) (fst acc),
             snd acc ++ map Rule.Description (List.filter (fun r => holds r tx) rs)).
Proof.
  intros HF. revert acc. induction HF as [|r rs [c Hc] HF IH]; intros acc.
  - cbn. rewrite app_nil_r. destruct acc; reflexivity.
  - assert (E : applyRules_step tx (Returns acc) r =
                 Returns (if c tx
                          then (fst acc + Rule.Score r, snd acc ++ [Rule.Description r])
                          else acc))
      by (unfold applyRules_step; rewrite Hc; destruct (c tx); reflexivity).
    assert (Eh : holds r tx = c tx) by (unfold holds; rewrite Hc; reflexivity).
    cbn [fold_left List.filter]. rewrite E, IH, Eh.
    destruct (c tx); cbn; [rewrite <- app_assoc|]; reflexivity.
Qed.

(** With a rule that has no condition the loop panics. *)
Lemma applyRules_fold_nil (tx : Transaction) (rs : list Rule) (acc : float * list string) :
  ~ Forall (fun r => is_Some (Rule.Condition r)) rs ->
  fold_left (applyRules_step tx) rs (Returns acc) = Panics.
Proof.
  revert acc. induction rs as [|r rs IH]; intros acc H.
  - destruct H. constructor.
  - cbn [fold_left]. unfold applyRules_step at 2.
    destruct (Rule.Condition r) as [c|] eqn:Hc; [|apply applyRules_fold_Panics].
    assert (H' : ~ Forall (fun r => is_Some (Rule.Condition r)) rs).
    { intros HF. apply H. constructor; [rewrite Hc; eexists; reflexivity|exact HF]. }
    destruct (c tx); apply IH; exact H'.
Qed.

(** [applyRules] reads the rules, and nothing else. *)
Lemma applyRules_run (tx : Transaction) (d : Detector) (n : nat) :
  applyRules tx d n = (fold_left (applyRules_step tx) (rules d) (Returns (0, [])), d, n).
Proof. reflexivity. Qed.

Lemma afterRules_callable (tx : Transaction) (d : Detector) :
  callable d ->
  afterRules tx d =
    (0 + fold_left (fun s r => s + Rule.Score r)
           (List.filter (fun r => holds r tx) (rules d)) 0,
     [] ++ map Rule.Description (List.filter (fun r => holds r tx) (rules d))).
Proof.
  intros Hc. unfold afterRules. rewrite applyRules_run. unfold result. cbn [fst].
  rewrite (applyRules_fold tx (rules d) (0, []) Hc). reflexivity.
Qed.

(** *** What the stages leave of the detector *)

(** [Track] then [GetCount], in full: the account's list after [Track], and the
    count read from it. *)
Lemma checkVelocity_run (tx : Transaction) (d : Detector) (n : nat) :
  let id := Transaction.AccountID tx in
  let w := window (velocityTracker d) in
  let prior := default [] (accounts (velocityTracker d) !! id) in
  let kept := List.filter (fun t => time.After t (time.Add (wallclock n) (time.Neg w))) prior in
  let tracked := kept ++ [Transaction.Timestamp tx] in
  let count := Z.of_nat (length (List.filter
                 (fun t => time.After t (time.Add (wallclock (S n)) (time.Neg w))) tracked)) in
  observedCount tx d n = count /\
  state (checkVelocity tx d n) =
    withVelocityTracker
      {| window := w; accounts := <[id := tracked]> (accounts (velocityTracker d)) |} d /\
  ticks (checkVelocity tx d n) = S (S n) /\
  result (checkVelocity tx d n) =
    if (MaxVelocity (config d) <? count)%Z
    then (0.3, "High transaction velocity: " +:+ FormatInt count +:+ " transactions in window")
    else (0, "").
Proof.
  destruct d as [rs [w accs] g pm ml cfg]. cbn.
  unfold observedCount, checkVelocity, onVelocity, zoom, bind, GetCount, Track, bind, get, put,
    Now, ret, result, state, ticks; cbn.
  destruct (accs !! Transaction.AccountID tx) as [prior|] eqn:E; cbn.
  all: rewrite ?lookup_insert_eq, ?E; cbn.
  all: rewrite ?insert_insert_eq.
  all: repeat split; try reflexivity.
  all: destruct (_ <? _)%Z; reflexivity.
Qed.

(** The three ways through [analyzeGeography]. *)
Lemma analyzeGeography_run (tx : Transaction) (d : Detector) (n : nat) :
  let id := Transaction.AccountID tx in
  let here := Transaction.Location tx in
  let g := lastLocations (geoAnalyzer d) in
  match g !! id with
  | None =>
      analyzeGeography tx d n =
        ((0, ""%string),
         withGeoAnalyzer {| lastLocations := <[id := {| location := here; seen := wallclock n |}]> g |} d,
         S n)
  | Some data =>
      let distance := CalculateDistance (location data) here in
      let hours := time.Hours (time.Sub (wallclock n) (seen data)) in
      if gt distance (hours * 900)
      then analyzeGeography tx d n =
             ((0.5, "Impossible travel detected: " +:+ FormatF0 distance +:+ " km in "
                      +:+ FormatF0 hours +:+ " hours"),
              withGeoAnalyzer (geoAnalyzer d) d, S n)
      else analyzeGeography tx d n =
             ((0, ""%string),
              withGeoAnalyzer
                {| lastLocations := <[id := {| location := here; seen := wallclock (S n) |}]> g |} d,
              S (S n))
  end.
Proof.
  destruct d as [rs v [g] pm ml cfg]. cbn.
  unfold analyzeGeography, onGeo, zoom, bind, GetLastLocation, GetLastTime, UpdateLocation,
    Since, bind, get, put, Now, ret, result, state, ticks; cbn.
  destruct (g !! Transaction.AccountID tx) as [data|] eqn:E; cbn; [|reflexivity].
  rewrite E; cbn.
  case_if; reflexivity.
Qed.

(** Only the analyzer changes in [analyzeGeography], only the tracker in
    [checkVelocity]. *)
Lemma analyzeGeography_frame (tx : Transaction) (d : Detector) (n : nat) :
  exists g, state (analyzeGeography tx d n) = withGeoAnalyzer g d.
Proof.
  pose proof (analyzeGeography_run tx d n) as H. cbn zeta in H.
  destruct (lastLocations (geoAnalyzer d) !! Transaction.AccountID tx) as [data|].
  - revert H. case_if; intros H; rewrite H; eexists; reflexivity.
  - rewrite H; eexists; reflexivity.
Qed.

Lemma checkVelocity_frame (tx : Transaction) (d : Detector) (n : nat) :
  exists v, state (checkVelocity tx d n) = withVelocityTracker v d.
Proof.
  destruct (checkVelocity_run tx d n) as (_ & H & _). rewrite H. eexists; reflexivity.
Qed.

(** [Analyze] on a transaction whose rules all have a condition, by its
    stages. *)
Lemma Analyze_Some (tx : Transaction) (d : Detector) (n : nat) :
  callable d ->
  Analyze (Some tx) d n =
    (Returns
       (Some {| Score := clamp01 (fst (blended tx d n));
                Risk := determineRiskLevel (clamp01 (fst (blended tx d n)));
                Reasons := snd (afterPatterns tx d n);
                Confidence := snd (blended tx d n);
                ShouldBlock := ge (clamp01 (fst (blended tx d n))) (BlockThreshold (config d));
                Timestamp := wallclock n |},
        None),
     state (geoRun tx d n), ticks (geoRun tx d n)).
Proof.
  intros Hc.
  pose proof (applyRules_fold tx (rules d) (0, []) Hc) as Hfold.
  unfold blended, afterPatterns, afterGeo, afterVelocity, afterRules, geoRun, velocityRun.
  destruct (checkVelocity_frame tx d (S n)) as [v Hv].
  destruct (analyzeGeography_frame tx (state (checkVelocity tx d (S n)))
              (ticks (checkVelocity tx d (S n)))) as [g Hg].
  unfold Analyze, matchPatterns, applyRules, bind, get, ret, Now, result, state, ticks in *.
  cbn beta iota zeta delta [fst snd] in *. rewrite !Hfold. cbn in *. rewrite Hg, Hv. cbn.
  destruct (MLEnabled (config d)); reflexivity.
Qed.

(** [Analyze] on a transaction, with a rule that has no condition: the panic
    of [applyRules], after the clock reading of the result's timestamp and
    before anything is recorded. *)
Lemma Analyze_Panics (tx : Transaction) (d : Detector) (n : nat) :
  ~ callable d -> Analyze (Some tx) d n = (Panics, d, S n).
Proof.
  intros Hc.
  pose proof (applyRules_fold_nil tx (rules d) (0, []) Hc) as Hfold.
  unfold Analyze, applyRules, bind, get, ret, Now, result, state, ticks.
  cbn beta iota zeta delta [fst snd]. rewrite Hfold. reflexivity.
Qed.

(** A detector has a condition in every rule, or it has not. *)
Lemma callable_dec (d : Detector) : callable d \/ ~ callable d.
Proof.
  unfold callable. induction (rules d) as [|r rs IH]; [left; constructor|].
  destruct (Rule.Condition r) as [c|] eqn:Hc.
  - destruct IH as [IH|IH].
    + left. constructor; [rewrite Hc; eexists; reflexivity|exact IH].
    + right. intros H. inversion H; subst. contradiction.
  - right. intros H. inversion H as [|? ? [c Hc'] ?]; subst. congruence.
Qed.

(** *** Failure *)

(** C8, which the code does not do for every detector. On nil [Analyze]
    returns no result and the error "transaction is nil", and leaves the
    detector (so the velocity and geo state) and the clock as they were. On a
    transaction it returns no error and a result with every field set (the
    clamped score, its tier, the reasons of the four stages, the confidence,
    the block decision, the clock reading made on entry) when every rule of
    the detector has a condition. With a rule whose [Condition] is nil, which
    [AddRule] accepts as any other, it returns neither a result nor an error:
    [applyRules] calls the nil function and [Analyze] panics, after the clock
    reading made on entry and before anything is recorded. *)
Theorem Analyze_panics_on_nil_Condition (tx : option Transaction) (d : Detector) (n : nat) :
  match tx with
  | None => Analyze tx d n = (Returns (None, Some "transaction is nil"%string), d, n)
  | Some t =>
      (callable d ->
       result (Analyze tx d n) =
         Returns
           (Some {| Score := clamp01 (fst (blended t d n));
                    Risk := determineRiskLevel (clamp01 (fst (blended t d n)));
                    Reasons := snd (afterPatterns t d n);
                    Confidence := snd (blended t d n);
                    ShouldBlock := ge (clamp01 (fst (blended t d n)))
                                      (BlockThreshold (config d));
                    Timestamp := wallclock n |},
            None)) /\
      (~ callable d -> Analyze tx d n = (Panics, d, S n)) /\
      (forall rule m,
         Rule.Condition rule = None ->
         Analyze tx (state (AddRule rule d m)) n = (Panics, state (AddRule rule d m), S n))
  end /\
  (result (Analyze tx d n) = Panics <-> tx <> None /\ ~ callable d) /\
  ((exists err, result (Analyze tx d n) = Returns (None, Some err)) <-> tx = None).
Proof.
  destruct tx as [t|].
  - assert (Hadd : forall rule m, Rule.Condition rule = None ->
                     ~ callable (state (AddRule rule d m))).
    { intros rule m Hnil Hc. unfold callable in Hc. cbn in Hc.
      apply Forall_app in Hc as [_ Hc]. inversion Hc as [|? ? [c E] ?]; subst. congruence. }
    split; [split; [|split]|split].
    + intros Hc. rewrite (Analyze_Some t d n Hc). reflexivity.
    + apply Analyze_Panics.
    + intros rule m Hnil. apply Analyze_Panics, Hadd, Hnil.
    + destruct (callable_dec d) as [Hc|Hc].
      * rewrite (Analyze_Some t d n Hc). cbn. split; [discriminate|]. intros [_ H]. contradiction.
      * rewrite (Analyze_Panics t d n Hc). cbn. split; [|reflexivity].
        intros _. split; [discriminate|exact Hc].
    + destruct (callable_dec d) as [Hc|Hc].
      * rewrite (Analyze_Some t d n Hc). cbn. split; [|discriminate].
        intros [err H]. discriminate.
      * rewrite (Analyze_Panics t d n Hc). cbn. split; [|discriminate].
        intros [err H]. discriminate.
  - split; [reflexivity|]. cbn. split.
    + split; [discriminate|]. intros [H _]. contradiction.
    + split; [reflexivity|]. intros _. eexists. reflexivity.
Qed.

(** *** Velocity *)

(** C2, as the code has it. [checkVelocity] writes before it reads: [Track]
    appends the transaction's timestamp to what it kept of the account's list,
    and [GetCount] then counts in that list. The count is the number of kept
    timestamps that are still after the read's cutoff, plus one exactly when
    the transaction's own timestamp is after that cutoff: a transaction
    stamped at or before the cutoff is recorded and not counted. The cutoff
    is the second clock reading plus the window negated as a 64-bit integer:
    the reading minus the window, but for the least window, whose negation
    is itself. *)
Theorem checkVelocity_counts_after_track (tx : Transaction) (d : Detector) (n : nat) :
  let id := Transaction.AccountID tx in
  let w := window (velocityTracker d) in
  let prior := default [] (accounts (velocityTracker d) !! id) in
  let kept := List.filter (fun t => time.After t (time.Add (wallclock n) (time.Neg w))) prior in
  let cutoff := time.Add (wallclock (S n)) (time.Neg w) in
  accounts (velocityTracker (state (checkVelocity tx d n))) !! id
    = Some (kept ++ [Transaction.Timestamp tx]) /\
  observedCount tx d n =
    (Z.of_nat (length (List.filter (fun t => time.After t cutoff) kept))
     + (if time.After (Transaction.Timestamp tx) cutoff then 1 else 0))%Z /\
  result (checkVelocity tx d n) =
    (if (MaxVelocity (config d) <? observedCount tx d n)%Z
     then (0.3, "High transaction velocity: " +:+ FormatInt (observedCount tx d n)
                  +:+ " transactions in window")
     else (0, ""%string)) /\
  ((time.minDuration < w <= time.maxDuration)%Z ->
   time.unixNano cutoff = (time.unixNano (wallclock (S n)) - w)%Z) /\
  (w = time.minDuration ->
   time.unixNano cutoff = (time.unixNano (wallclock (S n)) + time.minDuration)%Z).
Proof.
  cbn zeta. destruct (checkVelocity_run tx d n) as (Hc & Hs & _ & Hr).
  rewrite Hs, Hr, Hc. cbn [velocityTracker withVelocityTracker accounts].
  rewrite lookup_insert_eq.
  split; [reflexivity|]. split; [|split; [reflexivity|split]].
  - rewrite List.filter_app, length_app. cbn [List.filter].
    destruct (time.After (Transaction.Timestamp tx) _); cbn [length]; lia.
  - intros Hw. cbn [time.Add time.unixNano]. rewrite (Neg_opp _ Hw). lia.
  - intros ->. reflexivity.
Qed.


(** *** Blending *)

(** C3. On a detector whose rules all have a condition: with predictive
    scoring enabled, the score of the result is the clamp of the average of
    the running score (rules, velocity, geography, patterns) and the model's
    score, and its confidence is the model's; with predictive scoring
    disabled the score is the clamp of the running score and the confidence
    is zero. *)
Theorem Analyze_blends_by_average (tx : Transaction) (d : Detector) (n : nat) :
  callable d ->
  exists fs,
    result (Analyze (Some tx) d n) = Returns (Some fs, None) /\
    if MLEnabled (config d)
    then Score fs = clamp01 ((fst (afterPatterns tx d n) + fst (Predict (mlModel d) tx)) / 2) /\
         Confidence fs = snd (Predict (mlModel d) tx)
    else Score fs = clamp01 (fst (afterPatterns tx d n)) /\ Confidence fs = 0.
Proof.
  intros Hcall. rewrite (Analyze_Some tx d n Hcall). eexists. split; [reflexivity|]. cbn.
  unfold blended. destruct (MLEnabled (config d)); cbn; split; reflexivity.
Qed.

(** *** The clamp *)

Lemma ltb_negb_leb (x y : float) :
  IsNaN x = false -> IsNaN y = false -> (x <? y) = negb (y <=? x).
Proof.
  intros Hx Hy. destruct (y <=? x) eqn:E; cbn.
  - destruct (x <? y) eqn:E'; [|reflexivity].
    apply ltb_leb_excl in E'. congruence.
  - apply leb_false_ltb; assumption.
Qed.

Lemma applyRules_fold_nonneg (tx : Transaction) (rs : list Rule) (s : float) :
  Forall (fun r => nonneg (Rule.Score r)) rs -> nonneg s ->
  nonneg (fold_left (fun s r => s + Rule.Score r) (List.filter (fun r => holds r tx) rs) s).
Proof.
  revert s. induction rs as [|r rs IH]; intros s HF Hs; cbn; [exact Hs|].
  inversion HF; subst. destruct (holds r tx); cbn; [|apply IH; assumption].
  apply IH; [assumption|]. apply add_nonneg; assumption.
Qed.

Lemma Match_fold_nonneg (tx : Transaction) (ps : list Pattern) (acc : float * list string) :
  Forall (fun p => nonneg (Pattern.Score p)) ps -> nonneg (fst acc) ->
  nonneg (fst (fold_left (Match_step tx) ps acc)).
Proof.
  revert acc. induction ps as [|p ps IH]; intros acc HF Hacc; cbn; [exact Hacc|].
  inversion HF; subst. apply IH; [assumption|].
  unfold Match_step. destruct (Pattern.Matcher p tx); cbn; auto using add_nonneg.
Qed.

Lemma checkVelocity_nonneg (tx : Transaction) (d : Detector) (n : nat) :
  nonneg (fst (result (checkVelocity tx d n))).
Proof.
  destruct (checkVelocity_run tx d n) as (_ & _ & _ & Hr). rewrite Hr.
  destruct (_ <? _)%Z; reflexivity.
Qed.

Lemma analyzeGeography_nonneg (tx : Transaction) (d : Detector) (n : nat) :
  nonneg (fst (result (analyzeGeography tx d n))).
Proof.
  pose proof (analyzeGeography_run tx d n) as H. cbn zeta in H.
  destruct (lastLocations (geoAnalyzer d) !! Transaction.AccountID tx) as [data|].
  - revert H. case_if; intros H; rewrite H; reflexivity.
  - rewrite H; reflexivity.
Qed.

(** The running score is a non-negative number after each stage. *)
Lemma afterPatterns_nonneg (tx : Transaction) (d : Detector) (n : nat) :
  callable d -> weights_nonneg d -> nonneg (fst (afterPatterns tx d n)).
Proof.
  intros Hcall [Hr Hp].
  assert (H1 : nonneg (fst (afterRules tx d))).
  { rewrite (afterRules_callable tx d Hcall). cbn [fst].
    apply add_nonneg; [reflexivity|]. apply applyRules_fold_nonneg; [assumption|reflexivity]. }
  assert (H2 : nonneg (fst (afterVelocity tx d n))).
  { unfold afterVelocity. case_if; cbn; [|assumption].
    apply add_nonneg; [assumption|]. apply checkVelocity_nonneg. }
  assert (H3 : nonneg (fst (afterGeo tx d n))).
  { unfold afterGeo. case_if; cbn; [|assumption].
    apply add_nonneg; [assumption|]. apply analyzeGeography_nonneg. }
  unfold afterPatterns; cbn. apply add_nonneg; [assumption|].
  apply Match_fold_nonneg; [assumption|reflexivity].
Qed.

Lemma blended_nonneg (tx : Transaction) (d : Detector) (n : nat) :
  callable d -> weights_nonneg d -> model_score_nonneg d tx -> nonneg (fst (blended tx d n)).
Proof.
  intros Hc Hw Hm. pose proof (afterPatterns_nonneg tx d n Hc Hw) as H.
  unfold blended. destruct (MLEnabled (config d)) eqn:E; cbn; [|assumption].
  apply half_nonneg, add_nonneg; [assumption|]. apply Hm. exact E.
Qed.

(** What [Analyze] returns on a transaction, for the theorems on the score. *)
Lemma Analyze_score_facts (tx : Transaction) (d : Detector) (n : nat) :
  callable d -> weights_nonneg d -> model_score_nonneg d tx ->
  exists fs,
    result (Analyze (Some tx) d n) = Returns (Some fs, None) /\ between 0 1 (Score fs) /\
    Risk fs = determineRiskLevel (Score fs) /\
    ShouldBlock fs = ge (Score fs) (BlockThreshold (config d)).
Proof.
  intros Hc Hw Hm. rewrite (Analyze_Some tx d n Hc). eexists. split; [reflexivity|]. cbn.
  split; [|split; reflexivity].
  apply clamp01_between, nonneg_not_nan, blended_nonneg; assumption.
Qed.

(** The score [Analyze] returns lies in [0, 1] exactly when the score before
    the clamp is a number: the clamp passes a NaN through. *)
Lemma Analyze_score_between_iff (tx : Transaction) (d : Detector) (n : nat) :
  callable d ->
  exists fs,
    result (Analyze (Some tx) d n) = Returns (Some fs, None) /\
    (between 0 1 (Score fs) <-> IsNaN (fst (blended tx d n)) = false).
Proof.
  intros Hc. rewrite (Analyze_Some tx d n Hc). eexists. split; [reflexivity|]. cbn.
  apply clamp01_between_iff.
Qed.

(** C4. For a detector whose rules all have a condition, whose rules and
    patterns have non-negative weights, and a transaction the model scores
    with a non-negative number, the score [Analyze] returns lies in [0, 1],
    whatever the transaction, the configuration, the clock and the recorded
    state are, and however many weights and penalties add up before the
    clamp. *)
Theorem Analyze_score_in_unit_interval (tx : Transaction) (d : Detector) (n : nat) :
  callable d -> weights_nonneg d -> model_score_nonneg d tx ->
  exists fs, result (Analyze (Some tx) d n) = Returns (Some fs, None) /\ between 0 1 (Score fs).
Proof.
  intros Hc Hw Hm.
  destruct (Analyze_score_facts tx d n Hc Hw Hm) as (fs & Hfs & Hb & _).
  exists fs. split; assumption.
Qed.

(** Non-negative weights are what a new detector has, and what the
    operations keep; a rule that is added must have a non-negative weight. *)
Lemma SimpleMLModel_score_between (tx : Transaction) :
  between 0 1 (fst (SimpleMLModel_Predict tx)).
Proof.
  unfold SimpleMLModel_Predict.
  repeat case_if; vm_compute; split; reflexivity.
Qed.

Lemma NewDetector_well_formed (cfg : Config) :
  weights_nonneg (NewDetector cfg) /\ forall tx, model_score_nonneg (NewDetector cfg) tx.
Proof.
  split; [split|].
  - cbn. repeat constructor.
  - cbn. repeat constructor.
  - intros tx _. exact (proj1 (SimpleMLModel_score_between tx)).
Qed.

Lemma AddRule_weights_nonneg (rule : Rule) (d : Detector) (n : nat) :
  nonneg (Rule.Score rule) -> weights_nonneg d -> weights_nonneg (state (AddRule rule d n)).
Proof.
  intros Hr [H1 H2]. split; cbn; [|assumption].
  apply Forall_app. split; [assumption|]. constructor; [assumption|constructor].
Qed.

(** [Analyze] changes the tracker and the analyzer, and nothing else. *)
Lemma Analyze_changes (tx : option Transaction) (d : Detector) (n : nat) :
  exists v g, state (Analyze tx d n) = withGeoAnalyzer g (withVelocityTracker v d).
Proof.
  assert (Hd : d = withGeoAnalyzer (geoAnalyzer d) (withVelocityTracker (velocityTracker d) d))
    by (destruct d; reflexivity).
  destruct tx as [t|]; [|exists (velocityTracker d), (geoAnalyzer d); exact Hd].
  destruct (callable_dec d) as [Hc|Hc].
  - rewrite (Analyze_Some t d n Hc). unfold state at 1. cbn [fst snd].
    unfold geoRun, velocityRun.
    destruct (checkVelocity_frame t d (S n)) as [v Hv].
    destruct (analyzeGeography_frame t (state (checkVelocity t d (S n)))
                (ticks (checkVelocity t d (S n)))) as [g Hg].
    rewrite Hg, Hv. exists v, g. reflexivity.
  - rewrite (Analyze_Panics t d n Hc). exists (velocityTracker d), (geoAnalyzer d). exact Hd.
Qed.

Lemma Analyze_weights_nonneg (tx : option Transaction) (d : Detector) (n : nat) :
  weights_nonneg d -> weights_nonneg (state (Analyze tx d n)).
Proof.
  intros Hw. destruct (Analyze_changes tx d n) as (v & g & ->). exact Hw.
Qed.

(** A condition in every rule is what a new detector has, and what the
    operations keep; a rule that is added must have one. *)
Lemma NewDetector_callable (cfg : Config) : callable (NewDetector cfg).
Proof. unfold callable. cbn. repeat constructor; eexists; reflexivity. Qed.

Lemma AddRule_callable (rule : Rule) (d : Detector) (n : nat) :
  is_Some (Rule.Condition rule) -> callable d -> callable (state (AddRule rule d n)).
Proof.
  intros Hr Hc. unfold callable. cbn.
  apply Forall_app. split; [exact Hc|]. constructor; [exact Hr|constructor].
Qed.

Lemma Analyze_callable (tx : option Transaction) (d : Detector) (n : nat) :
  callable d -> callable (state (Analyze tx d n)).
Proof.
  intros Hc. destruct (Analyze_changes tx d n) as (v & g & ->). exact Hc.
Qed.

(** *** Tiers and the block decision *)

(** The thresholds pass from a score to a larger one. *)
Lemma threshold_mono (c s1 s2 : float) :
  (s1 <=? s2) = true -> ge s1 c = true -> ge s2 c = true.
Proof. unfold ge. intros H12 H1. exact (leb_trans c s1 s2 H1 H12). Qed.

Lemma determineRiskLevel_thresholds (s : float) :
  IsNaN s = false ->
  (determineRiskLevel s = "CRITICAL"%string <-> ge s 0.8 = true) /\
  (determineRiskLevel s = "HIGH"%string <-> ge s 0.6 = true /\ (s <? 0.8) = true) /\
  (determineRiskLevel s = "MEDIUM"%string <-> ge s 0.4 = true /\ (s <? 0.6) = true) /\
  (determineRiskLevel s = "LOW"%string <-> ge s 0.2 = true /\ (s <? 0.4) = true) /\
  (determineRiskLevel s = "MINIMAL"%string <-> (s <? 0.2) = true).
Proof.
  intros Hs.
  rewrite !(ltb_negb_leb s) by (assumption || reflexivity).
  pose proof (threshold_mono 0.6 0.8 s) as H68.
  pose proof (threshold_mono 0.4 0.6 s) as H46.
  pose proof (threshold_mono 0.2 0.4 s) as H24.
  unfold determineRiskLevel, ge in *.
  destruct (0.8 <=? s) eqn:E8; [specialize (H68 eq_refl eq_refl)|clear H68];
  (destruct (0.6 <=? s) eqn:E6; [specialize (H46 eq_refl eq_refl)|clear H46]);
  (destruct (0.4 <=? s) eqn:E4; [specialize (H24 eq_refl eq_refl)|clear H24]);
  destruct (0.2 <=? s) eqn:E2; try discriminate; cbn;
  repeat split; intros; try discriminate; try reflexivity;
  repeat match goal with H : _ /\ _ |- _ => destruct H end; discriminate.
Qed.

Lemma determineRiskLevel_monotone (s1 s2 : float) :
  (s1 <=? s2) = true ->
  (tierRank (determineRiskLevel s1) <= tierRank (determineRiskLevel s2))%nat.
Proof.
  intros H.
  pose proof (threshold_mono 0.8 s1 s2 H) as H8.
  pose proof (threshold_mono 0.6 s1 s2 H) as H6.
  pose proof (threshold_mono 0.4 s1 s2 H) as H4.
  pose proof (threshold_mono 0.2 s1 s2 H) as H2.
  unfold determineRiskLevel.
  destruct (ge s1 0.8); [rewrite (H8 eq_refl); cbn; lia|clear H8].
  destruct (ge s1 0.6); [rewrite (H6 eq_refl); destruct (ge s2 0.8); cbn; lia|clear H6].
  destruct (ge s1 0.4);
    [rewrite (H4 eq_refl); destruct (ge s2 0.8), (ge s2 0.6); cbn; lia|clear H4].
  destruct (ge s1 0.2);
    [rewrite (H2 eq_refl); destruct (ge s2 0.8), (ge s2 0.6), (ge s2 0.4); cbn; lia|].
  cbn. lia.
Qed.

(** C6. For a detector whose rules all have a condition, whose rules and
    patterns have non-negative weights, and a transaction the model scores
    with a non-negative number (so that the clamped score is a number), the
    tier of the result is read off its
    clamped score by the fixed thresholds, each lower bound included:
    CRITICAL from 0.8 on, HIGH from 0.6 and below 0.8, MEDIUM from 0.4 and
    below 0.6, LOW from 0.2 and below 0.4, MINIMAL below 0.2; the block
    decision is [score >= BlockThreshold]; and the tier never decreases when
    the score increases. *)
Theorem Analyze_risk_tier (tx : Transaction) (d : Detector) (n : nat) :
  callable d -> weights_nonneg d -> model_score_nonneg d tx ->
  exists fs,
    result (Analyze (Some tx) d n) = Returns (Some fs, None) /\
    Risk fs = determineRiskLevel (Score fs) /\
    (Risk fs = "CRITICAL"%string <-> ge (Score fs) 0.8 = true) /\
    (Risk fs = "HIGH"%string <-> ge (Score fs) 0.6 = true /\ (Score fs <? 0.8) = true) /\
    (Risk fs = "MEDIUM"%string <-> ge (Score fs) 0.4 = true /\ (Score fs <? 0.6) = true) /\
    (Risk fs = "LOW"%string <-> ge (Score fs) 0.2 = true /\ (Score fs <? 0.4) = true) /\
    (Risk fs = "MINIMAL"%string <-> (Score fs <? 0.2) = true) /\
    ShouldBlock fs = ge (Score fs) (BlockThreshold (config d)) /\
    forall s1 s2 : float,
      (s1 <=? s2) = true ->
      (tierRank (determineRiskLevel s1) <= tierRank (determineRiskLevel s2))%nat.
Proof.
  intros Hc Hw Hm.
  destruct (Analyze_score_facts tx d n Hc Hw Hm) as (fs & Hfs & Hb & Hrisk & Hblock).
  exists fs. split; [exact Hfs|]. split; [exact Hrisk|].
  rewrite Hrisk.
  destruct (determineRiskLevel_thresholds (Score fs) (between_not_nan _ _ _ Hb))
    as (T1 & T2 & T3 & T4 & T5).
  repeat (split; [assumption|]).
  exact determineRiskLevel_monotone.
Qed.

(** *** The bundled model *)

Lemma SimpleMLModel_confidence_between (tx : Transaction) :
  between 0.65 0.85 (snd (SimpleMLModel_Predict tx)).
Proof.
  unfold SimpleMLModel_Predict.
  repeat case_if; vm_compute; split; reflexivity.
Qed.

(** C10. The bundled model returns a score in [0, 1] and a confidence in
    [0.65, 0.85]: 0.85, less 0.1 when the device identifier is empty, less 0.1
    when the network address is empty. So when the detector runs that model
    with predictive scoring enabled, and its rules all have a condition, the
    confidence [Analyze] reports, which it does not clamp, is the model's and
    lies in [0, 1]. *)
Theorem SimpleMLModel_Predict_bounds (tx : Transaction) :
  between 0 1 (fst (Predict SimpleMLModel tx)) /\
  between 0.65 0.85 (snd (Predict SimpleMLModel tx)) /\
  snd (Predict SimpleMLModel tx) =
    (let c := if String.eqb (Transaction.DeviceID tx) "" then 0.85 - 0.1 else 0.85 in
     if String.eqb (Transaction.IPAddress tx) "" then c - 0.1 else c) /\
  forall (d : Detector) (n : nat),
    callable d -> mlModel d = SimpleMLModel -> MLEnabled (config d) = true ->
    exists fs,
      result (Analyze (Some tx) d n) = Returns (Some fs, None) /\
      Confidence fs = snd (Predict SimpleMLModel tx) /\
      between 0 1 (Confidence fs).
Proof.
  pose proof (SimpleMLModel_confidence_between tx) as [Hlo Hhi].
  split; [exact (SimpleMLModel_score_between tx)|].
  split; [split; assumption|].
  split; [reflexivity|].
  intros d n Hc Hml Hen. rewrite (Analyze_Some tx d n Hc). eexists. split; [reflexivity|]. cbn.
  unfold blended. rewrite Hen, Hml. cbn. split; [reflexivity|]. split.
  - exact (leb_trans 0 0.65 _ eq_refl Hlo).
  - exact (leb_trans _ 0.85 1 Hhi eq_refl).
Qed.

(** *** Rules *)

Lemma findRule_None (ruleID : string) (rs : list Rule) (i : nat) :
  Forall (fun r => Rule.ID r <> ruleID) rs -> findRule ruleID rs i = None.
Proof.
  revert i. induction rs as [|r rs IH]; intros i HF; cbn; [reflexivity|].
  inversion HF; subst.
  destruct (String.eqb_spec (Rule.ID r) ruleID); [contradiction|]. apply IH. assumption.
Qed.

Lemma findRule_first (ruleID : string) (pre post : list Rule) (r : Rule) (i : nat) :
  Forall (fun x => Rule.ID x <> ruleID) pre -> Rule.ID r = ruleID ->
  findRule ruleID (pre ++ r :: post) i = Some (i + length pre)%nat.
Proof.
  revert i. induction pre as [|x pre IH]; intros i HF Hr; cbn.
  - rewrite <- Hr, String.eqb_refl. f_equal. lia.
  - inversion HF; subst.
    destruct (String.eqb_spec (Rule.ID x) (Rule.ID r)); [contradiction|].
    rewrite IH by (assumption || reflexivity). f_equal. lia.
Qed.

Lemma remove_at_middle (pre post : list Rule) (r : Rule) :
  take (length pre) (pre ++ r :: post) ++ drop (S (length pre)) (pre ++ r :: post) = pre ++ post.
Proof.
  induction pre as [|x pre IH]; cbn; [reflexivity|]. f_equal. exact IH.
Qed.

(** [RemoveRule] on the first rule that carries the identifier. *)
Lemma RemoveRule_first (ruleID : string) (pre post : list Rule) (r : Rule)
    (d : Detector) (n : nat) :
  rules d = pre ++ r :: post ->
  Forall (fun x => Rule.ID x <> ruleID) pre -> Rule.ID r = ruleID ->
  RemoveRule ruleID d n = (None, withRules (pre ++ post) d, n).
Proof.
  intros Hd Hpre Hr. unfold RemoveRule, bind, get, put, ret, result, state, ticks. cbn.
  rewrite Hd, (findRule_first ruleID pre post r 0 Hpre Hr). cbn.
  rewrite remove_at_middle. reflexivity.
Qed.

Lemma RemoveRule_absent (ruleID : string) (d : Detector) (n : nat) :
  Forall (fun x => Rule.ID x <> ruleID) (rules d) ->
  RemoveRule ruleID d n = (Some ("rule not found: " +:+ ruleID), d, n).
Proof.
  intros H. unfold RemoveRule, bind, get, put, ret, result, state, ticks. cbn.
  rewrite (findRule_None ruleID (rules d) 0 H). reflexivity.
Qed.

(** Every list splits at its first rule with the identifier, if it has one. *)
Lemma first_match_split (ruleID : string) (rs : list Rule) :
  Forall (fun x => Rule.ID x <> ruleID) rs \/
  exists pre r post,
    rs = pre ++ r :: post /\ Forall (fun x => Rule.ID x <> ruleID) pre /\ Rule.ID r = ruleID.
Proof.
  induction rs as [|x rs IH]; [left; constructor|].
  destruct (String.eqb_spec (Rule.ID x) ruleID) as [E|E].
  - right. exists [], x, rs. repeat split; [constructor|assumption].
  - destruct IH as [IH|(pre & r & post & -> & Hpre & Hr)].
    + left. constructor; assumption.
    + right. exists (x :: pre), r, post. repeat split; [constructor; assumption|assumption].
Qed.

(** C7, as the code has it. [RemoveRule] with an identifier no rule carries
    returns the error "rule not found: <id>" and leaves the detector as it
    was. With an identifier some rule carries it returns no error and removes
    the first such rule, the others keeping their order; a second
    [RemoveRule] with the same identifier then fails when no other rule
    carries that identifier, that is, when the identifier was unique. After
    [AddRule] and [RemoveRule] of the added rule's identifier the number of
    rules is what it was before the add. *)
Theorem RemoveRule_first_match (ruleID : string) (d : Detector) (n : nat) :
  (Forall (fun x => Rule.ID x <> ruleID) (rules d) ->
   RemoveRule ruleID d n = (Some ("rule not found: " +:+ ruleID), d, n)) /\
  (forall pre r post,
     rules d = pre ++ r :: post ->
     Forall (fun x => Rule.ID x <> ruleID) pre -> Rule.ID r = ruleID ->
     RemoveRule ruleID d n = (None, withRules (pre ++ post) d, n) /\
     (Forall (fun x => Rule.ID x <> ruleID) post ->
      forall m, RemoveRule ruleID (withRules (pre ++ post) d) m
                = (Some ("rule not found: " +:+ ruleID), withRules (pre ++ post) d, m))) /\
  (forall rule m,
     result (RemoveRule (Rule.ID rule) (state (AddRule rule d n)) m) = None /\
     total_rules (state (RemoveRule (Rule.ID rule) (state (AddRule rule d n)) m))
       = total_rules d).
Proof.
  split; [apply RemoveRule_absent|]. split.
  - intros pre r post Hd Hpre Hr. split; [exact (RemoveRule_first _ _ _ _ _ _ Hd Hpre Hr)|].
    intros Hpost m. apply RemoveRule_absent. cbn. apply Forall_app. split; assumption.
  - intros rule m.
    assert (Hrules : rules (state (AddRule rule d n)) = rules d ++ [rule]) by reflexivity.
    destruct (first_match_split (Rule.ID rule) (rules d)) as [Habs|(pre & r & post & Hd & Hpre & Hr)].
    + rewrite (RemoveRule_first (Rule.ID rule) (rules d) [] rule _ m Hrules Habs eq_refl).
      cbn. split; [reflexivity|]. unfold total_rules. cbn. rewrite app_nil_r. reflexivity.
    + assert (Hrules' : rules (state (AddRule rule d n)) = pre ++ r :: (post ++ [rule])).
      { rewrite Hrules, Hd, <- app_assoc. reflexivity. }
      rewrite (RemoveRule_first (Rule.ID rule) pre (post ++ [rule]) r _ m Hrules' Hpre Hr).
      cbn. split; [reflexivity|]. unfold total_rules. cbn. rewrite Hd.
      repeat (rewrite ?length_app; cbn [length]). lia.
Qed.

(** [RemoveRule] keeps the weights non-negative. *)
Lemma RemoveRule_weights_nonneg (ruleID : string) (d : Detector) (n : nat) :
  weights_nonneg d -> weights_nonneg (state (RemoveRule ruleID d n)).
Proof.
  intros [H1 H2].
  destruct (first_match_split ruleID (rules d)) as [Habs|(pre & r & post & Hd & Hpre & Hr)].
  - rewrite (RemoveRule_absent ruleID d n Habs). split; assumption.
  - rewrite (RemoveRule_first ruleID pre post r d n Hd Hpre Hr). split; cbn; [|assumption].
    rewrite Hd in H1. apply Forall_app in H1 as [Ha Hb]. inversion Hb; subst.
    apply Forall_app. split; assumption.
Qed.

(** *** Geography *)

(** The haversine argument [a] of [CalculateDistance]. *)
Lemma CalculateDistance_unfold (loc1 loc2 : Location) :
  CalculateDistance loc1 loc2 =
    let u := (Latitude loc2 - Latitude loc1) * Pi / 180 / 2 in
    let v := (Longitude loc2 - Longitude loc1) * Pi / 180 / 2 in
    let a := Sin u * Sin u
             + Cos (Latitude loc1 * Pi / 180) * Cos (Latitude loc2 * Pi / 180) * Sin v * Sin v in
    6371 * (2 * Atan2 (PrimFloat.sqrt a) (PrimFloat.sqrt (1 - a))).
Proof. reflexivity. Qed.

Lemma half_angle_swap (x y : float) :
  abs ((y - x) * Pi / 180 / 2) = abs ((x - y) * Pi / 180 / 2).
Proof. apply div_abs_l, div_abs_l, mul_abs_l, sub_swap_abs. Qed.

Lemma Sin_abs (x y : float) :
  (forall z, Sin (- z) = - Sin z) -> abs x = abs y -> abs (Sin x) = abs (Sin y).
Proof.
  intros Hodd H. destruct (abs_eq_cases x y H) as [->| ->]; [reflexivity|].
  rewrite Hodd. apply abs_opp.
Qed.

(** C9. Provided [math.Sin] is odd, the distance is symmetric: the two calls
    return the same number (and [==] holds between them whenever that number
    is not NaN). Provided [math.Sin(0)] is 0 and [math.Atan2(0, 1)] is 0, as
    Go documents, the distance from a location to itself is 0 when its
    coordinates are finite numbers and the cosine of its latitude lies in
    [-1, 1], as the cosine of a number does. *)
Theorem CalculateDistance_reflexive_symmetric :
  Sin 0 = 0 -> Atan2 0 1 = 0 -> (forall z, Sin (- z) = - Sin z) ->
  (forall loc,
     finite (Latitude loc) -> finite (Longitude loc) ->
     between (-1) 1 (Cos (Latitude loc * Pi / 180)) ->
     CalculateDistance loc loc = 0 /\ (CalculateDistance loc loc =? 0) = true) /\
  (forall a b,
     CalculateDistance a b = CalculateDistance b a /\
     (IsNaN (CalculateDistance a b) = false ->
      (CalculateDistance a b =? CalculateDistance b a) = true)).
Proof.
  intros Hsin0 Hatan0 Hodd. split.
  - intros loc Hlat Hlon Hcos.
    assert (E : CalculateDistance loc loc = 0); [|rewrite E; split; reflexivity].
    rewrite CalculateDistance_unfold. cbn zeta.
    rewrite (sub_diag _ Hlat), (sub_diag _ Hlon).
    change (0 * Pi / 180 / 2) with 0. rewrite Hsin0.
    change (0 * 0) with 0.
    rewrite (zero_plus_finite_zero_zero _ (mul_finite_unit _ _ Hcos Hcos)).
    change (PrimFloat.sqrt 0) with 0. change (PrimFloat.sqrt (1 - 0)) with 1.
    rewrite Hatan0. reflexivity.
  - intros a b.
    assert (E : CalculateDistance a b = CalculateDistance b a).
    { rewrite !CalculateDistance_unfold. cbn zeta.
      rewrite (square_abs _ _ (Sin_abs _ _ Hodd (half_angle_swap (Latitude a) (Latitude b)))).
      rewrite (mul_mul_abs _ _ _
                 (Sin_abs _ _ Hodd (half_angle_swap (Longitude a) (Longitude b)))).
      rewrite (mul_comm (Cos (Latitude a * Pi / 180))). reflexivity. }
    split; [exact E|]. intros Hn. rewrite <- E. apply eqb_refl, Hn.
Qed.

(** The geography stage of [Analyze] starts after three clock readings (the
    result's timestamp, [Track], [GetCount]), on the analyzer as it was. *)
Lemma geoRun_unfold (tx : Transaction) (d : Detector) (n : nat) :
  exists v,
    geoRun tx d n = analyzeGeography tx (withVelocityTracker v d) (S (S (S n))).
Proof.
  unfold geoRun, velocityRun.
  destruct (checkVelocity_run tx d (S n)) as (_ & Hs & Ht & _).
  rewrite Hs, Ht. eexists; reflexivity.
Qed.

(** [GetLastLocation] through the detector reads the analyzer's record. *)
Lemma onGeo_GetLastLocation (accountID : string) (d : Detector) (m : nat) :
  result (onGeo (GetLastLocation accountID) d m)
    = option_map location (lastLocations (geoAnalyzer d) !! accountID).
Proof.
  unfold onGeo, zoom, GetLastLocation, bind, get, ret, result, state; cbn.
  destruct (lastLocations (geoAnalyzer d) !! accountID); reflexivity.
Qed.

(** The two paths of [analyzeGeography] that record the transaction's
    location: an account with no recorded location, and a travel that is
    possible. *)
Lemma Analyze_records_location (tx : Transaction) (d : Detector) (n : nat) :
  callable d ->
  let id := Transaction.AccountID tx in
  match lastLocations (geoAnalyzer d) !! id with
  | None => True
  | Some data =>
      gt (CalculateDistance (location data) (Transaction.Location tx))
         (time.Hours (time.Sub (wallclock (S (S (S n)))) (seen data)) * 900) = false
  end ->
  forall m,
    result (onGeo (GetLastLocation id) (state (Analyze (Some tx) d n)) m)
      = Some (Transaction.Location tx).
Proof.
  intros Hc. cbn zeta. intros H m. rewrite (Analyze_Some tx d n Hc). cbn.
  destruct (geoRun_unfold tx d n) as [v ->].
  pose proof (analyzeGeography_run tx (withVelocityTracker v d) (S (S (S n)))) as R.
  cbn zeta in R. change (geoAnalyzer (withVelocityTracker v d)) with (geoAnalyzer d) in R.
  destruct (lastLocations (geoAnalyzer d) !! Transaction.AccountID tx) as [data|].
  - rewrite H in R. rewrite R.
    unfold onGeo, zoom, GetLastLocation, bind, get, ret, result, state; cbn.
    rewrite lookup_insert_eq. reflexivity.
  - rewrite R.
    unfold onGeo, zoom, GetLastLocation, bind, get, ret, result, state; cbn.
    rewrite lookup_insert_eq. reflexivity.
Qed.

(** C1, which the code does not do. When the account has a
    recorded location and the impossible-travel penalty fires, the geography
    stage gives the reason and [Analyze] leaves the analyzer's record of the
    account as it was: [GetLastLocation] still returns the previous location,
    not the transaction's, and the time of the record is not refreshed
    either. *)
Theorem Analyze_penalty_keeps_last_location
    (tx : Transaction) (d : Detector) (n : nat) (data : locationData) :
  lastLocations (geoAnalyzer d) !! Transaction.AccountID tx = Some data ->
  gt (CalculateDistance (location data) (Transaction.Location tx))
     (time.Hours (time.Sub (wallclock (S (S (S n)))) (seen data)) * 900) = true ->
  result (geoRun tx d n) =
    (0.5, "Impossible travel detected: "
            +:+ FormatF0 (CalculateDistance (location data) (Transaction.Location tx))
            +:+ " km in "
            +:+ FormatF0 (time.Hours (time.Sub (wallclock (S (S (S n)))) (seen data)))
            +:+ " hours") /\
  lastLocations (geoAnalyzer (state (Analyze (Some tx) d n))) !! Transaction.AccountID tx
    = Some data /\
  forall m,
    result (onGeo (GetLastLocation (Transaction.AccountID tx))
              (state (Analyze (Some tx) d n)) m)
      = Some (location data).
Proof.
  intros Hlast Hfar.
  assert (Hgeo : geoRun tx d n =
            ((0.5, "Impossible travel detected: "
                     +:+ FormatF0 (CalculateDistance (location data) (Transaction.Location tx))
                     +:+ " km in "
                     +:+ FormatF0 (time.Hours (time.Sub (wallclock (S (S (S n)))) (seen data)))
                     +:+ " hours"),
             withGeoAnalyzer (geoAnalyzer d) (state (velocityRun tx d n)), S (S (S (S n))))).
  { unfold geoRun, velocityRun.
    destruct (checkVelocity_run tx d (S n)) as (_ & Hs & Ht & _). rewrite Hs, Ht.
    set (v := {| window := _; accounts := _ |}).
    pose proof (analyzeGeography_run tx (withVelocityTracker v d) (S (S (S n)))) as R.
    cbn zeta in R. change (geoAnalyzer (withVelocityTracker v d)) with (geoAnalyzer d) in R.
    rewrite Hlast in R. rewrite Hfar in R. exact R. }
  split; [rewrite Hgeo; reflexivity|].
  assert (Hkept : lastLocations (geoAnalyzer (state (Analyze (Some tx) d n)))
                    !! Transaction.AccountID tx = Some data).
  { destruct (callable_dec d) as [Hc|Hc].
    - rewrite (Analyze_Some tx d n Hc), Hgeo. cbn. exact Hlast.
    - rewrite (Analyze_Panics tx d n Hc). exact Hlast. }
  split; [exact Hkept|].
  intros m. rewrite onGeo_GetLastLocation, Hkept. reflexivity.
Qed.

(** *** The velocity tracker on its own *)

(** [Track] in full. *)
Lemma Track_run (tx : Transaction) (v : VelocityTracker) (n : nat) :
  let id := Transaction.AccountID tx in
  let prior := default [] (accounts v !! id) in
  let kept := List.filter (fun t => time.After t (time.Add (wallclock n) (time.Neg (window v)))) prior in
  Track tx v n =
    (tt, {| window := window v;
            accounts := <[id := kept ++ [Transaction.Timestamp tx]]> (accounts v) |}, S n).
Proof.
  destruct v as [w accs]. cbn.
  unfold Track, bind, get, put, Now, ret, result, state, ticks; cbn.
  destruct (accs !! Transaction.AccountID tx) as [prior|] eqn:E; cbn.
  - rewrite E. reflexivity.
  - rewrite lookup_insert_eq, insert_insert_eq. reflexivity.
Qed.

(** [GetCount] in full. *)
Lemma GetCount_run (accountID : string) (v : VelocityTracker) (n : nat) :
  GetCount accountID v n =
    match accounts v !! accountID with
    | None => (0%Z, v, n)
    | Some acc =>
        (Z.of_nat (length (List.filter
           (fun t => time.After t (time.Add (wallclock n) (time.Neg (window v)))) acc)), v, S n)
    end.
Proof.
  unfold GetCount, bind, get, Now, ret, result, state, ticks; cbn.
  destruct (accounts v !! accountID); reflexivity.
Qed.

(** A filter that lets through less than another absorbs it. *)
Lemma filter_filter_implied {A : Type} (p q : A -> bool) (l : list A) :
  (forall x, q x = true -> p x = true) ->
  List.filter q (List.filter p l) = List.filter q l.
Proof.
  intros H. induction l as [|x l IH]; cbn; [reflexivity|].
  destruct (p x) eqn:Ep; cbn.
  - rewrite IH. reflexivity.
  - destruct (q x) eqn:Eq; [|exact IH]. apply H in Eq. congruence.
Qed.

Lemma After_cutoff_mono (t now1 now2 : time.Time) (w : time.Duration) :
  (time.unixNano now1 <= time.unixNano now2)%Z ->
  time.After t (time.Add now2 (time.Neg w)) = true -> time.After t (time.Add now1 (time.Neg w)) = true.
Proof.
  unfold time.After, time.Add; cbn. intros H H2.
  apply Z.ltb_lt in H2. apply Z.ltb_lt. lia.
Qed.

Lemma Track_keeps_what_counts (tx : Transaction) (v : VelocityTracker) (n m : nat) :
  (time.unixNano (wallclock n) <= time.unixNano (wallclock m))%Z ->
  let id := Transaction.AccountID tx in
  result (GetCount id (state (Track tx v n)) m) =
    (result (GetCount id v m)
     + (if time.After (Transaction.Timestamp tx) (time.Add (wallclock m) (time.Neg (window v)))
        then 1 else 0))%Z.
Proof.
  intros Hmono. cbn zeta. rewrite Track_run. cbn zeta. unfold state; cbn [fst snd].
  rewrite !GetCount_run. cbn [accounts window]. rewrite lookup_insert_eq.
  destruct (accounts v !! Transaction.AccountID tx) as [prior|] eqn:E; cbn [default result fst].
  - rewrite List.filter_app, length_app.
    rewrite filter_filter_implied by (intros t; apply After_cutoff_mono; exact Hmono).
    cbn. destruct (time.After (Transaction.Timestamp tx) _); cbn; lia.
  - cbn. destruct (time.After (Transaction.Timestamp tx) _); reflexivity.
Qed.

(** A run of [Track] over a list of transactions, one call after the other. *)
Lemma Track_sequence_step (tx : Transaction) (txs : list Transaction)
    (v : VelocityTracker) (n : nat) :
  fold_left (fun r t => Track t (state r) (ticks r)) (tx :: txs) (tt, v, n)
  = fold_left (fun r t => Track t (state r) (ticks r)) txs (tt, state (Track tx v n), S n).
Proof.
  cbn [fold_left]. change (state (tt, v, n)) with v. change (ticks (tt, v, n)) with n.
  rewrite (Track_run tx v n) at 1. f_equal. rewrite Track_run. reflexivity.
Qed.

(** X1. On a clock that never runs backwards, a run of [Track] over
    transactions of one account reads the clock once per transaction, and
    the count read afterwards is the count read before plus the number of
    tracked timestamps that lie after the cutoff of the reading (the reading
    plus the window negated as a 64-bit integer): tracking drops nothing that
    a later reading would count. For an account the tracker did not know,
    with every timestamp after that cutoff, the count is the number of
    transactions tracked. *)
Theorem Track_sequence_counts (accountID : string) (txs : list Transaction)
    (v : VelocityTracker) (n m : nat) :
  (forall i j, (i <= j)%nat -> (time.unixNano (wallclock i) <= time.unixNano (wallclock j))%Z) ->
  Forall (fun tx => Transaction.AccountID tx = accountID) txs ->
  (n + length txs <= m)%nat ->
  let r := fold_left (fun r tx => Track tx (state r) (ticks r)) txs (tt, v, n) in
  let cutoff := time.Add (wallclock m) (time.Neg (window v)) in
  ticks r = (n + length txs)%nat /\
  result (GetCount accountID (state r) m) =
    (result (GetCount accountID v m)
     + Z.of_nat (length (List.filter (fun t => time.After t cutoff)
                           (map Transaction.Timestamp txs))))%Z /\
  (accounts v !! accountID = None ->
   Forall (fun tx => time.After (Transaction.Timestamp tx) cutoff = true) txs ->
   result (GetCount accountID (state r) m) = Z.of_nat (length txs)).
Proof.
  intros Hmono Hall Hm. cbn zeta.
  assert (Main :
    ticks (fold_left (fun r tx => Track tx (state r) (ticks r)) txs (tt, v, n))
      = (n + length txs)%nat /\
    result (GetCount accountID
              (state (fold_left (fun r tx => Track tx (state r) (ticks r)) txs (tt, v, n))) m) =
      (result (GetCount accountID v m)
       + Z.of_nat (length (List.filter
                     (fun t => time.After t (time.Add (wallclock m) (time.Neg (window v))))
                     (map Transaction.Timestamp txs))))%Z).
  { revert v n Hm. induction Hall as [|tx txs Htx Hall IH]; intros v n Hm.
    - cbn. split; [unfold ticks; cbn; lia|]. lia.
    - rewrite Track_sequence_step. cbn [length] in Hm.
      destruct (IH (state (Track tx v n)) (S n)) as [IH1 IH2]; [lia|].
      split; [rewrite IH1; cbn [length]; lia|].
      rewrite IH2. subst accountID.
      rewrite (Track_keeps_what_counts tx v n m) by (apply Hmono; lia).
      assert (Hw : window (state (Track tx v n)) = window v) by (rewrite Track_run; reflexivity).
      rewrite Hw. cbn [map List.filter].
      destruct (time.After (Transaction.Timestamp tx) _); cbn [length]; lia. }
  destruct Main as [M1 M2]. split; [exact M1|]. split; [exact M2|].
  intros Hnew Hin. rewrite M2, GetCount_run, Hnew. cbn [result fst].
  rewrite Z.add_0_l. f_equal.
  clear -Hin. induction Hin as [|tx txs Htx Hin IH]; cbn; [reflexivity|].
  rewrite Htx. cbn. f_equal. exact IH.
Qed.

(** X2. [Track] keeps the window, reads the clock once, and leaves for the
    account of the transaction what it kept of the account's timestamps (a
    sublist, each after the cutoff: the reading plus the window negated as a
    64-bit integer) followed by the timestamp of the transaction; the timestamps and the counts of every
    other account are as they were. *)
Theorem Track_frame (tx : Transaction) (v : VelocityTracker) (n : nat) :
  window (state (Track tx v n)) = window v /\
  ticks (Track tx v n) = S n /\
  (exists kept,
     accounts (state (Track tx v n)) !! Transaction.AccountID tx
       = Some (kept ++ [Transaction.Timestamp tx]) /\
     sublist kept (default [] (accounts v !! Transaction.AccountID tx)) /\
     Forall (fun t => time.After t (time.Add (wallclock n) (time.Neg (window v))) = true) kept) /\
  forall accountID,
    accountID <> Transaction.AccountID tx ->
    accounts (state (Track tx v n)) !! accountID = accounts v !! accountID /\
    forall m, result (GetCount accountID (state (Track tx v n)) m) = result (GetCount accountID v m).
Proof.
  rewrite Track_run. cbn zeta. unfold state, ticks; cbn [fst snd window accounts].
  split; [reflexivity|]. split; [reflexivity|]. split.
  - eexists. rewrite lookup_insert_eq. split; [reflexivity|]. split.
    + clear. induction (default [] _) as [|x l IH]; cbn; [constructor|].
      destruct (time.After x _); [apply sublist_skip|apply sublist_cons]; exact IH.
    + apply List.Forall_forall. intros t Ht. apply List.filter_In in Ht. apply Ht.
  - intros accountID Hne.
    assert (E : <[Transaction.AccountID tx :=
                   List.filter (fun t => time.After t (time.Add (wallclock n) (time.Neg (window v))))
                     (default [] (accounts v !! Transaction.AccountID tx))
                   ++ [Transaction.Timestamp tx]]> (accounts v) !! accountID
                = accounts v !! accountID)
      by (apply lookup_insert_ne; congruence).
    split; [exact E|]. intros m. rewrite !GetCount_run. cbn [accounts window].
    rewrite E. destruct (accounts v !! accountID); reflexivity.
Qed.

(** X3. [GetCount] leaves the tracker as it was; the count lies between
    zero and the number of timestamps held for the account; for an account
    the tracker does not know it is zero and the clock is not read, as on a
    new tracker. *)
Theorem GetCount_reads_only (accountID : string) (v : VelocityTracker) (n : nat) :
  state (GetCount accountID v n) = v /\
  (0 <= result (GetCount accountID v n)
     <= Z.of_nat (length (default [] (accounts v !! accountID))))%Z /\
  (accounts v !! accountID = None -> GetCount accountID v n = (0%Z, v, n)) /\
  (forall m, result (GetCount accountID (NewVelocityTracker (window v)) m) = 0%Z).
Proof.
  rewrite !GetCount_run.
  split; [destruct (accounts v !! accountID); reflexivity|]. split; [|split].
  - destruct (accounts v !! accountID) as [acc|]; cbn; [|lia].
    split; [lia|]. apply inj_le. apply List.filter_length_le.
  - intros ->. reflexivity.
  - intros m. rewrite GetCount_run. reflexivity.
Qed.

(** *** The geo analyzer on its own *)

(** X4. After [UpdateLocation], [GetLastLocation] gives the location back
    and [GetLastTime] the reading of the clock at the update, neither
    changing the analyzer nor reading the clock; other accounts read as
    before; on a new analyzer no location is known and the time is the zero
    instant. *)
Theorem UpdateLocation_round_trip (accountID : string) (loc : Location)
    (g : GeoAnalyzer) (n : nat) :
  let g' := state (UpdateLocation accountID loc g n) in
  ticks (UpdateLocation accountID loc g n) = S n /\
  (forall m, GetLastLocation accountID g' m = (Some loc, g', m)) /\
  (forall m, GetLastTime accountID g' m = (wallclock n, g', m)) /\
  (forall other m,
     other <> accountID ->
     result (GetLastLocation other g' m) = result (GetLastLocation other g m) /\
     result (GetLastTime other g' m) = result (GetLastTime other g m)) /\
  (forall m, GetLastLocation accountID NewGeoAnalyzer m = (None, NewGeoAnalyzer, m) /\
             GetLastTime accountID NewGeoAnalyzer m = (time.zero, NewGeoAnalyzer, m)).
Proof.
  cbn zeta.
  unfold UpdateLocation, GetLastLocation, GetLastTime, bind, get, put, Now, ret,
    result, state, ticks; cbn.
  split; [reflexivity|].
  split; [intros m; rewrite lookup_insert_eq; reflexivity|].
  split; [intros m; rewrite lookup_insert_eq; reflexivity|].
  split.
  - intros other m Hne. rewrite lookup_insert_ne by congruence.
    destruct (lastLocations g !! other); split; reflexivity.
  - intros m. split; reflexivity.
Qed.

(** *** Rules and patterns *)

(** X6. [applyRules] leaves the detector and the clock as they were. With a
    condition in every rule it returns: the score is the sum, from zero and
    in the order of the rules, of the weights of the rules whose condition
    holds, and the reasons are their descriptions in that order: a reason is
    reported exactly when it is the description of a rule whose condition
    holds, and with no such rule the result is zero and no reason. With a
    rule that has no condition it panics. *)
Theorem applyRules_reports_matching_rules (tx : Transaction) (d : Detector) (n : nat) :
  let fired := List.filter (fun r => holds r tx) (rules d) in
  state (applyRules tx d n) = d /\ ticks (applyRules tx d n) = n /\
  (callable d ->
   result (applyRules tx d n) =
     Returns (fold_left (fun s r => s + Rule.Score r) fired 0, map Rule.Description fired) /\
   (forall reason,
      In reason (map Rule.Description fired) <->
      exists r condition,
        In r (rules d) /\ Rule.Condition r = Some condition /\ condition tx = true /\
        Rule.Description r = reason) /\
   (Forall (fun r => holds r tx = false) (rules d) ->
    result (applyRules tx d n) = Returns (0, []))) /\
  (~ callable d -> result (applyRules tx d n) = Panics).
Proof.
  cbn zeta. rewrite applyRules_run. unfold result, state, ticks. cbn [fst snd].
  split; [reflexivity|]. split; [reflexivity|]. split.
  - intros Hc. rewrite (applyRules_fold tx (rules d) (0, []) Hc). cbn [fst snd app].
    split; [reflexivity|]. split.
    + intros reason. rewrite in_map_iff. split.
      * intros (r & Hr & Hin). apply List.filter_In in Hin as [Hin Hh].
        unfold holds in Hh. destruct (Rule.Condition r) as [c|] eqn:E; [|discriminate].
        exists r, c. tauto.
      * intros (r & c & Hin & E & Hh & Hr). exists r. split; [exact Hr|].
        apply List.filter_In. split; [exact Hin|]. unfold holds. rewrite E. exact Hh.
    + intros Hnone.
      assert (E : List.filter (fun r => holds r tx) (rules d) = []).
      { clear Hc. induction Hnone as [|r rs Hr Hnone IH]; cbn; [reflexivity|].
        rewrite Hr. exact IH. }
      rewrite E. reflexivity.
  - intros Hc. apply applyRules_fold_nil. exact Hc.
Qed.

Lemma Match_fold (tx : Transaction) (ps : list Pattern) (acc : float * list string) :
  fold_left (Match_step tx) ps acc =
    (fold_left (fun s p => s + Pattern.Score p)
       (List.filter (fun p => Pattern.Matcher p tx) ps) (fst acc),
     snd acc ++ map Pattern.Description (List.filter (fun p => Pattern.Matcher p tx) ps)).
Proof.
  revert acc. induction ps as [|p ps IH]; intros acc; cbn.
  - rewrite app_nil_r. destruct acc; reflexivity.
  - rewrite IH. unfold Match_step.
    destruct (Pattern.Matcher p tx); cbn; [|reflexivity].
    rewrite <- app_assoc. reflexivity.
Qed.

(** X7. [Match] sums the weights of the patterns whose matcher holds and
    lists their descriptions in order. With the default patterns the
    result is 0.1 and one reason for a whole amount above 1000, zero and no
    reason otherwise: the rapid-succession pattern is never reported. *)
Theorem Match_reports_matching_patterns (p : PatternMatcher) (tx : Transaction) :
  let matched := List.filter (fun q => Pattern.Matcher q tx) (patterns p) in
  Match p tx =
    (fold_left (fun s q => s + Pattern.Score q) matched 0, map Pattern.Description matched) /\
  Match NewPatternMatcher tx =
    (if (Transaction.Amount tx =? Floor (Transaction.Amount tx))
        && gt (Transaction.Amount tx) 1000
     then (0.1, ["Suspicious round amount"%string]) else (0, [])) /\
  ~ In "Multiple transactions in rapid succession"%string (snd (Match NewPatternMatcher tx)).
Proof.
  cbn zeta. split; [unfold Match; rewrite Match_fold; reflexivity|].
  assert (E : Match NewPatternMatcher tx =
    (if (Transaction.Amount tx =? Floor (Transaction.Amount tx))
        && gt (Transaction.Amount tx) 1000
     then (0.1, ["Suspicious round amount"%string]) else (0, []))).
  { unfold Match, NewPatternMatcher, DefaultPatterns, Match_step; cbn.
    case_if; reflexivity. }
  split; [exact E|]. rewrite E. case_if; cbn; [|tauto].
  intros [H|[]]. discriminate.
Qed.

(** X8. [AddRule] appends the rule and reads no clock: the detector holds
    one rule more, and applying the rules afterwards is applying them before
    and then the new rule: when the rules returned before, the new rule adds
    its weight and its description, which comes last among the reasons, if
    its condition holds, changes nothing if its condition does not hold, and
    makes [applyRules] panic if it has no condition. *)
Theorem AddRule_appends (rule : Rule) (tx : Transaction) (d : Detector) (n m : nat) :
  let d' := state (AddRule rule d n) in
  AddRule rule d n = (tt, withRules (rules d ++ [rule]) d, n) /\
  total_rules d' = S (total_rules d) /\
  result (applyRules tx d' m) = applyRules_step tx (result (applyRules tx d m)) rule /\
  (forall s rs,
     result (applyRules tx d m) = Returns (s, rs) ->
     result (applyRules tx d' m) =
       match Rule.Condition rule with
       | Some condition =>
           if condition tx
           then Returns (s + Rule.Score rule, rs ++ [Rule.Description rule])
           else Returns (s, rs)
       | None => Panics
       end) /\
  (result (applyRules tx d m) = Panics -> result (applyRules tx d' m) = Panics).
Proof.
  cbn zeta.
  assert (E : result (applyRules tx (state (AddRule rule d n)) m)
              = applyRules_step tx (result (applyRules tx d m)) rule).
  { unfold applyRules, AddRule, bind, get, put, ret, result, state, ticks; cbn.
    rewrite fold_left_app. reflexivity. }
  split; [reflexivity|]. split.
  - unfold total_rules; cbn. rewrite length_app; cbn. lia.
  - split; [exact E|]. rewrite E. split.
    + intros s rs ->. unfold applyRules_step.
      destruct (Rule.Condition rule) as [c|]; [|reflexivity]. destruct (c tx); reflexivity.
    + intros ->. reflexivity.
Qed.

(** *** The sign of the distance *)

(** X5. With an arc tangent that is NaN or non-negative on a first argument
    whose sign bit is clear, and NaN on NaN, the distance between two
    locations is NaN or non-negative, whatever the sine and the cosine give:
    it never compares below zero. *)
Theorem CalculateDistance_never_negative :
  (forall y x, plus_signed y -> IsNaN (Atan2 y x) = true \/ nonneg (Atan2 y x)) ->
  (forall x, IsNaN (Atan2 nan x) = true) ->
  forall loc1 loc2,
    (IsNaN (CalculateDistance loc1 loc2) = true \/ nonneg (CalculateDistance loc1 loc2)) /\
    (CalculateDistance loc1 loc2 <? 0) = false.
Proof.
  intros Hpos Hnan loc1 loc2.
  assert (Main : IsNaN (CalculateDistance loc1 loc2) = true \/
                 nonneg (CalculateDistance loc1 loc2)).
  { rewrite CalculateDistance_unfold. cbn zeta.
    set (su := Sin ((Latitude loc2 - Latitude loc1) * Pi / 180 / 2)).
    set (q := Cos _ * Cos _ * Sin _ * Sin _).
    assert (Hn : forall x, 6371 * (2 * Atan2 nan x) = nan).
    { intros x. rewrite (IsNaN_nan _ (Hnan x)), !mul_nan_r. reflexivity. }
    destruct (square_plus_signed su) as [Hs|Hs].
    - left. rewrite (IsNaN_nan _ Hs), nan_add_l.
      change (PrimFloat.sqrt nan) with nan. rewrite Hn. reflexivity.
    - destruct (sqrt_sum_plus_signed (su * su) q Hs) as [Hr|Hr].
      + left. rewrite (IsNaN_nan _ Hr), Hn. reflexivity.
      + destruct (Hpos (PrimFloat.sqrt (su * su + q)) (PrimFloat.sqrt (1 - (su * su + q))) Hr)
          as [Ha|Ha].
        * left. rewrite (IsNaN_nan _ Ha), !mul_nan_r. reflexivity.
        * right. apply (mul_nonneg_finite_l 6371 _ _ _ eq_refl).
          apply (mul_nonneg_finite_l 2 _ _ _ eq_refl). exact Ha. }
  split; [exact Main|].
  destruct Main as [H|H].
  - rewrite (IsNaN_nan _ H). reflexivity.
  - destruct (CalculateDistance loc1 loc2 <? 0) eqn:E; [|reflexivity].
    apply ltb_leb_excl in E. unfold nonneg in H. congruence.
Qed.

(** *** What [Analyze] leaves of the detector *)

(** The detector after [Analyze] has returned, in full. *)
Lemma Analyze_state (tx : Transaction) (d : Detector) (n : nat) :
  callable d ->
  exists kept g,
    state (Analyze (Some tx) d n) =
      withGeoAnalyzer g
        (withVelocityTracker
           {| window := window (velocityTracker d);
              accounts := <[Transaction.AccountID tx := kept ++ [Transaction.Timestamp tx]]>
                            (accounts (velocityTracker d)) |} d) /\
    (g = geoAnalyzer d \/
     exists seen,
       g = {| lastLocations :=
                <[Transaction.AccountID tx :=
                    {| location := Transaction.Location tx; seen := seen |}]>
                  (lastLocations (geoAnalyzer d)) |}) /\
    (ticks (Analyze (Some tx) d n) = n + 4 \/ ticks (Analyze (Some tx) d n) = n + 5)%nat.
Proof.
  intros Hc. rewrite (Analyze_Some tx d n Hc). unfold state, ticks; cbn [fst snd].
  unfold geoRun, velocityRun.
  destruct (checkVelocity_run tx d (S n)) as (_ & Hs & Ht & _).
  rewrite Hs, Ht.
  set (v := {| window := _; accounts := _ |}).
  pose proof (analyzeGeography_run tx (withVelocityTracker v d) (S (S (S n)))) as R.
  cbn zeta in R. change (geoAnalyzer (withVelocityTracker v d)) with (geoAnalyzer d) in R.
  destruct (lastLocations (geoAnalyzer d) !! Transaction.AccountID tx) as [data|].
  - revert R. case_if; intros R; rewrite R; cbn [fst snd].
    + eexists _, _. split; [reflexivity|]. split; [left; reflexivity|left; lia].
    + eexists _, _. split; [reflexivity|]. split; [right; eexists; reflexivity|right; lia].
  - rewrite R; cbn [fst snd].
    eexists _, _. split; [reflexivity|]. split; [right; eexists; reflexivity|left; lia].
Qed.

(** X9. [Analyze] on a transaction leaves the rules, the patterns, the
    model, the configuration, the metrics and the window as they were, and
    touches the timestamps and the last location of no account other than
    the transaction's. When it returns (every rule has a condition) it has
    read the clock four or five times; when it panics it has read the clock
    once and changed nothing. *)
Theorem Analyze_frame (tx : Transaction) (d : Detector) (n : nat) :
  let d' := state (Analyze (Some tx) d n) in
  rules d' = rules d /\ patternMatcher d' = patternMatcher d /\
  mlModel d' = mlModel d /\ config d' = config d /\
  GetMetrics d' = GetMetrics d /\
  window (velocityTracker d') = window (velocityTracker d) /\
  (callable d ->
   (ticks (Analyze (Some tx) d n) = n + 4 \/ ticks (Analyze (Some tx) d n) = n + 5)%nat) /\
  (~ callable d -> d' = d /\ ticks (Analyze (Some tx) d n) = S n) /\
  forall accountID,
    accountID <> Transaction.AccountID tx ->
    accounts (velocityTracker d') !! accountID = accounts (velocityTracker d) !! accountID /\
    lastLocations (geoAnalyzer d') !! accountID = lastLocations (geoAnalyzer d) !! accountID.
Proof.
  cbn zeta. destruct (callable_dec d) as [Hc|Hc].
  - destruct (Analyze_state tx d n Hc) as (kept & g & -> & Hg & Ht). cbn.
    repeat (split; [reflexivity|]). split; [intros _; exact Ht|].
    split; [intros H; contradiction|].
    intros accountID Hne. split; [apply lookup_insert_ne; congruence|].
    destruct Hg as [->|[seen ->]]; [reflexivity|]. cbn. apply lookup_insert_ne; congruence.
  - rewrite (Analyze_Panics tx d n Hc). unfold state, ticks. cbn [fst snd].
    repeat (split; [reflexivity|]). split; [intros H; contradiction|].
    split; [intros _; split; reflexivity|]. intros accountID _. split; reflexivity.
Qed.

(** What [Analyze] returns, by its fields. *)
Lemma Analyze_fields (tx : Transaction) (d : Detector) (n : nat) (fs : FraudScore) :
  result (Analyze (Some tx) d n) = Returns (Some fs, None) ->
  Confidence fs = snd (blended tx d n) /\ Reasons fs = snd (afterPatterns tx d n).
Proof.
  destruct (callable_dec d) as [Hc|Hc];
    [|rewrite (Analyze_Panics tx d n Hc); cbn; discriminate].
  rewrite (Analyze_Some tx d n Hc). unfold result. cbn [fst]. intros H.
  injection H as <-. split; reflexivity.
Qed.

(** The confidence with the bundled model: the model's, or zero when
    predictive scoring is disabled. *)
Lemma blended_confidence (tx : Transaction) (d : Detector) (n : nat) :
  mlModel d = SimpleMLModel ->
  snd (blended tx d n) = if MLEnabled (config d) then snd (SimpleMLModel_Predict tx) else 0.
Proof.
  intros H. unfold blended. rewrite H. destruct (MLEnabled (config d)); reflexivity.
Qed.

(** *** The detectors a program can hold *)

Lemma RemoveRule_frame (ruleID : string) (d : Detector) (n : nat) :
  exists rs, state (RemoveRule ruleID d n) = withRules rs d.
Proof.
  unfold RemoveRule, bind, get, put, ret, result, state, ticks. cbn.
  destruct (findRule ruleID (rules d) 0); cbn; eexists; [reflexivity|].
  instantiate (1 := rules d). destruct d; reflexivity.
Qed.

(** [RemoveRule] keeps a condition in every rule. *)
Lemma RemoveRule_callable (ruleID : string) (d : Detector) (n : nat) :
  callable d -> callable (state (RemoveRule ruleID d n)).
Proof.
  intros Hc.
  destruct (first_match_split ruleID (rules d)) as [Habs|(pre & r & post & Hd & Hpre & Hr)].
  - rewrite (RemoveRule_absent ruleID d n Habs). exact Hc.
  - rewrite (RemoveRule_first ruleID pre post r d n Hd Hpre Hr). unfold callable in *. cbn.
    rewrite Hd in Hc. apply Forall_app in Hc as [Ha Hb]. inversion Hb; subst.
    apply Forall_app. split; assumption.
Qed.

(** What holds of every detector a program can hold. *)
Lemma reachable_invariant (cfg : Config) (d : Detector) :
  reachable cfg d ->
  config d = cfg /\ window (velocityTracker d) = VelocityWindow cfg /\
  patternMatcher d = NewPatternMatcher /\ mlModel d = SimpleMLModel /\
  weights_nonneg d /\ callable d.
Proof.
  intros Hr. induction Hr as [|d tx n Hr IH|d rule n Hr IH Hcond Hrule|d ruleID n Hr IH].
  - repeat (split; [reflexivity|]). split; [apply NewDetector_well_formed|].
    apply NewDetector_callable.
  - destruct IH as (I1 & I2 & I3 & I4 & I5 & I6).
    destruct tx as [tx|]; [|repeat (split; [assumption|]); assumption].
    pose proof (Analyze_weights_nonneg (Some tx) d n I5) as Hw.
    pose proof (Analyze_callable (Some tx) d n I6) as Hc.
    destruct (Analyze_state tx d n I6) as (kept & g & E & _). rewrite E in *.
    repeat (split; [assumption|]). assumption.
  - destruct IH as (I1 & I2 & I3 & I4 & I5 & I6). repeat (split; [assumption|]).
    split; [apply AddRule_weights_nonneg; assumption|apply AddRule_callable; assumption].
  - destruct IH as (I1 & I2 & I3 & I4 & I5 & I6).
    pose proof (RemoveRule_weights_nonneg ruleID d n I5) as Hw.
    pose proof (RemoveRule_callable ruleID d n I6) as Hc.
    destruct (RemoveRule_frame ruleID d n) as [rs E]. rewrite E in *.
    repeat (split; [assumption|]). assumption.
Qed.

(** X10. Every detector a program can reach from [NewDetector] by [Analyze],
    [AddRule] with a rule that has a condition and a non-negative weight, and
    [RemoveRule] keeps its configuration, its window, the default patterns
    and the bundled model, holds only non-negative weights and rules with a
    condition, and answers every transaction with a score and a confidence
    between 0 and 1. *)
Theorem reachable_well_formed (cfg : Config) (d : Detector) :
  reachable cfg d ->
  config d = cfg /\
  window (velocityTracker d) = VelocityWindow cfg /\
  patternMatcher d = NewPatternMatcher /\
  mlModel d = SimpleMLModel /\
  weights_nonneg d /\
  callable d /\
  forall tx n,
    exists fs,
      result (Analyze (Some tx) d n) = Returns (Some fs, None) /\
      between 0 1 (Score fs) /\ between 0 1 (Confidence fs).
Proof.
  intros Hr.
  destruct (reachable_invariant cfg d Hr) as (I1 & I2 & I3 & I4 & I5 & I6).
  repeat (split; [assumption|]).
  intros tx n.
  assert (Hm : model_score_nonneg d tx).
  { intros _. rewrite I4. exact (proj1 (SimpleMLModel_score_between tx)). }
  destruct (Analyze_score_facts tx d n I6 I5 Hm) as (fs & Hfs & Hb & _).
  exists fs. split; [exact Hfs|]. split; [exact Hb|].
  destruct (Analyze_fields tx d n fs Hfs) as [-> _].
  rewrite (blended_confidence tx d n I4).
  destruct (MLEnabled (config d)); [|split; reflexivity].
  destruct (SimpleMLModel_confidence_between tx) as [Hlo Hhi]. split.
  - exact (leb_trans 0 0.65 _ eq_refl Hlo).
  - exact (leb_trans _ 0.85 1 Hhi eq_refl).
Qed.

(** *** The default rules, end to end *)

(** The running score and the reasons after the four stages: what the rules
    gave, then 0.3 and a reason when the velocity penalty fires, 0.5 and a
    reason when the travel penalty fires, then what the patterns give. *)
Lemma afterPatterns_shape (tx : Transaction) (d : Detector) (n : nat) :
  exists (fv fg : bool) (rv rg : string),
    (fv = (MaxVelocity (config d) <? observedCount tx d (S n))%Z) /\
    (fg = gt (fst (result (geoRun tx d n))) 0) /\
    afterPatterns tx d n =
      (addIf fg 0.5 (addIf fv 0.3 (fst (afterRules tx d))) + fst (Match (patternMatcher d) tx),
       appendIf fg rg (appendIf fv rv (snd (afterRules tx d)))
         ++ snd (Match (patternMatcher d) tx)).
Proof.
  unfold afterPatterns, afterGeo, afterVelocity, velocityRun.
  destruct (checkVelocity_run tx d (S n)) as (Hc & _ & _ & Hr).
  assert (Hg : result (geoRun tx d n) = (0, ""%string) \/
               exists s, result (geoRun tx d n) = (0.5, s)).
  { destruct (geoRun_unfold tx d n) as [v ->].
    pose proof (analyzeGeography_run tx (withVelocityTracker v d) (S (S (S n)))) as R.
    cbn zeta in R.
    destruct (lastLocations (geoAnalyzer (withVelocityTracker v d)) !! Transaction.AccountID tx).
    - revert R. case_if; intros R; rewrite R.
      + right; eexists; reflexivity.
      + left; reflexivity.
    - rewrite R. left; reflexivity. }
  cbn zeta in Hc, Hr. rewrite <- Hc in Hr. rewrite Hr. clear Hr Hc.
  exists (MaxVelocity (config d) <? observedCount tx d (S n))%Z,
         (gt (fst (result (geoRun tx d n))) 0),
         ("High transaction velocity: " +:+ FormatInt (observedCount tx d (S n))
            +:+ " transactions in window")%string,
         (snd (result (geoRun tx d n))).
  split; [reflexivity|]. split; [reflexivity|].
  destruct Hg as [Hg|[s Hg]]; rewrite Hg; cbn [fst snd];
    destruct (MaxVelocity (config d) <? observedCount tx d (S n))%Z; reflexivity.
Qed.

(** The reasons of the rules are among the reasons after the four stages. *)
Lemma afterRules_in_afterPatterns (tx : Transaction) (d : Detector) (n : nat) (r : string) :
  In r (snd (afterRules tx d)) -> In r (snd (afterPatterns tx d n)).
Proof.
  intros H. destruct (afterPatterns_shape tx d n) as (fv & fg & rv & rg & _ & _ & ->).
  cbn [snd]. apply in_or_app. left. unfold appendIf.
  destruct fg, fv; repeat (first [exact H | (apply in_or_app; left)]).
Qed.

Lemma gt_trans_const (x : float) :
  gt x 50000 = true -> gt x 10000 = true.
Proof.
  unfold gt. intros H.
  assert (Hx : IsNaN x = false).
  { destruct (IsNaN x) eqn:E; [|reflexivity].
    apply IsNaN_nan in E. subst x. vm_compute in H. discriminate. }
  destruct (10000 <? x) eqn:E; [reflexivity|].
  apply ltb_false_leb in E; [|reflexivity|exact Hx].
  pose proof (leb_trans x 10000 50000 E eq_refl) as H'.
  apply ltb_leb_excl in H. congruence.
Qed.

Lemma Match_NewPatternMatcher (tx : Transaction) :
  Match NewPatternMatcher tx =
    (if (Transaction.Amount tx =? Floor (Transaction.Amount tx))
        && gt (Transaction.Amount tx) 1000
     then (0.1, ["Suspicious round amount"%string]) else (0, [])).
Proof.
  unfold Match, NewPatternMatcher, DefaultPatterns, Match_step; cbn.
  case_if; reflexivity.
Qed.

(** The default rules have a condition each. *)
Lemma DefaultRules_callable (d : Detector) : rules d = DefaultRules -> callable d.
Proof.
  intros H. unfold callable. rewrite H. repeat constructor; eexists; reflexivity.
Qed.

Lemma afterRules_DefaultRules (tx : Transaction) (d : Detector) :
  rules d = DefaultRules ->
  afterRules tx d =
    (let c1 := gt (Transaction.Amount tx) 10000 in
     let hr := (2 <=? time.HourOf (Transaction.Timestamp tx))%Z
               && (time.HourOf (Transaction.Timestamp tx) <=? 5)%Z in
     let mn := String.eqb (Transaction.MerchantID tx) "NEW" in
     (0 + addIf mn 0.1 (addIf hr 0.2 (addIf c1 0.3 0)),
      appendIf mn "First transaction with merchant"
        (appendIf hr "Transaction at unusual hours"
           (appendIf c1 "Transaction amount exceeds threshold" [])))).
Proof.
  intros Hrules.
  unfold afterRules, applyRules, bind, get, ret, result; cbn [fst snd].
  rewrite Hrules. unfold DefaultRules, applyRules_step; cbn.
  repeat case_if; reflexivity.
Qed.

Lemma SimpleMLModel_score (tx : Transaction) :
  fst (Predict SimpleMLModel tx) =
    Min 1 (addIf (String.eqb (Transaction.Type_ tx) "WIRE_TRANSFER") 0.15
             (addIf ((2 <=? time.HourOf (Transaction.Timestamp tx))%Z
                     && (time.HourOf (Transaction.Timestamp tx) <=? 5)%Z) 0.1
                (addIf (gt (Transaction.Amount tx) 50000) 0.3
                   (addIf (gt (Transaction.Amount tx) 10000) 0.2 0)))).
Proof. reflexivity. Qed.

(** The score and the reasons [Analyze] returns with the default rules, the
    default patterns and the bundled model, by the conditions that hold. *)
Lemma Analyze_default_shape (tx : Transaction) (d : Detector) (n : nat) :
  rules d = DefaultRules -> patternMatcher d = NewPatternMatcher -> mlModel d = SimpleMLModel ->
  exists (fv fg : bool) (rv rg : string) (fs : FraudScore),
    (fv = (MaxVelocity (config d) <? observedCount tx d (S n))%Z) /\
    (fg = gt (fst (result (geoRun tx d n))) 0) /\
    result (Analyze (Some tx) d n) = Returns (Some fs, None) /\
    Risk fs = determineRiskLevel (Score fs) /\
    ShouldBlock fs = ge (Score fs) (BlockThreshold (config d)) /\
    (let c1 := gt (Transaction.Amount tx) 10000 in
     let c5 := gt (Transaction.Amount tx) 50000 in
     let hr := (2 <=? time.HourOf (Transaction.Timestamp tx))%Z
               && (time.HourOf (Transaction.Timestamp tx) <=? 5)%Z in
     let mn := String.eqb (Transaction.MerchantID tx) "NEW" in
     let pt := (Transaction.Amount tx =? Floor (Transaction.Amount tx))
               && gt (Transaction.Amount tx) 1000 in
     let wt := String.eqb (Transaction.Type_ tx) "WIRE_TRANSFER" in
     let running :=
       addIf fg 0.5 (addIf fv 0.3 (0 + addIf mn 0.1 (addIf hr 0.2 (addIf c1 0.3 0))))
       + (if pt then 0.1 else 0) in
     Score fs =
       clamp01 (if MLEnabled (config d)
                then (running
                      + Min 1 (addIf wt 0.15 (addIf hr 0.1 (addIf c5 0.3 (addIf c1 0.2 0))))) / 2
                else running) /\
     Reasons fs =
       appendIf fg rg
         (appendIf fv rv
            (appendIf mn "First transaction with merchant"
               (appendIf hr "Transaction at unusual hours"
                  (appendIf c1 "Transaction amount exceeds threshold" []))))
       ++ (if pt then ["Suspicious round amount"%string] else [])).
Proof.
  intros Hrules Hpat Hml. rewrite (Analyze_Some tx d n (DefaultRules_callable d Hrules)).
  destruct (afterPatterns_shape tx d n) as (fv & fg & rv & rg & Hfv & Hfg & E).
  exists fv, fg, rv, rg. eexists. split; [exact Hfv|]. split; [exact Hfg|].
  split; [reflexivity|]. split; [reflexivity|]. split; [reflexivity|].
  cbn [Score Reasons]. unfold blended. rewrite E. clear E Hfv Hfg.
  rewrite (afterRules_DefaultRules tx d Hrules), Hpat, Match_NewPatternMatcher, Hml.
  rewrite SimpleMLModel_score. cbn zeta. cbn [fst snd].
  destruct ((Transaction.Amount tx =? Floor (Transaction.Amount tx))
            && gt (Transaction.Amount tx) 1000); cbn [fst snd];
    destruct (MLEnabled (config d)); split; reflexivity.
Qed.

(** X11. With the default rules, the default patterns and the bundled model,
    [Analyze] reports an amount above 10000 with its reason and a score
    above 0.2, a transaction between two and five in the morning with its
    reason and a score above 0.1, and a transaction with the merchant NEW
    with its reason, whatever the other stages add. *)
Theorem Analyze_default_rules_fire (tx : Transaction) (d : Detector) (n : nat) :
  rules d = DefaultRules -> patternMatcher d = NewPatternMatcher -> mlModel d = SimpleMLModel ->
  exists fs,
    result (Analyze (Some tx) d n) = Returns (Some fs, None) /\
    (gt (Transaction.Amount tx) 10000 = true ->
     In "Transaction amount exceeds threshold"%string (Reasons fs) /\ gt (Score fs) 0.2 = true) /\
    ((2 <=? time.HourOf (Transaction.Timestamp tx))%Z
       && (time.HourOf (Transaction.Timestamp tx) <=? 5)%Z = true ->
     In "Transaction at unusual hours"%string (Reasons fs) /\ gt (Score fs) 0.1 = true) /\
    (Transaction.MerchantID tx = "NEW"%string ->
     In "First transaction with merchant"%string (Reasons fs)).
Proof.
  intros Hrules Hpat Hml.
  destruct (Analyze_default_shape tx d n Hrules Hpat Hml)
    as (fv & fg & rv & rg & fs & _ & _ & Hfs & _ & _ & Hs & Hr).
  exists fs. split; [exact Hfs|]. rewrite Hs, Hr. clear Hfs Hs Hr.
  assert (H51 : gt (Transaction.Amount tx) 50000 = true -> gt (Transaction.Amount tx) 10000 = true)
    by apply gt_trans_const.
  assert (Hmn : Transaction.MerchantID tx = "NEW"%string ->
                String.eqb (Transaction.MerchantID tx) "NEW" = true)
    by (intros ->; reflexivity).
  revert H51 Hmn.
  generalize (gt (Transaction.Amount tx) 10000) as c1.
  generalize (gt (Transaction.Amount tx) 50000) as c5.
  generalize ((2 <=? time.HourOf (Transaction.Timestamp tx))%Z
              && (time.HourOf (Transaction.Timestamp tx) <=? 5)%Z) as hr.
  generalize ((Transaction.Amount tx =? Floor (Transaction.Amount tx))
              && gt (Transaction.Amount tx) 1000) as pt.
  generalize (String.eqb (Transaction.Type_ tx) "WIRE_TRANSFER") as wt.
  generalize (MLEnabled (config d)) as ml.
  generalize (String.eqb (Transaction.MerchantID tx) "NEW") as mn.
  generalize (Transaction.MerchantID tx = "NEW"%string) as M.
  intros M mn ml wt pt hr c5 c1 H51 Hmn.
  split; [|split].
  - intros ->. clear Hmn M. split.
    + destruct hr, mn, fv, fg; cbn; tauto.
    + clear rv rg. destruct c5, hr, mn, fv, fg, pt, wt, ml; vm_compute; reflexivity.
  - intros ->. clear Hmn M. split.
    + destruct c1, mn, fv, fg; cbn; tauto.
    + clear rv rg.
      destruct c5; [rewrite (H51 eq_refl)|destruct c1]; clear H51;
        destruct mn, fv, fg, pt, wt, ml; vm_compute; reflexivity.
  - intros HM. rewrite (Hmn HM). destruct c1, hr, fv, fg; cbn; tauto.
Qed.

(** X12. With the default rules, the default patterns and the bundled model,
    a transaction above 50000 for which both the velocity penalty and the
    travel penalty fire is scored at least 0.8 and rated CRITICAL, with
    predictive scoring enabled or not. *)
Theorem Analyze_stacked_indicators_critical (tx : Transaction) (d : Detector) (n : nat) :
  rules d = DefaultRules -> patternMatcher d = NewPatternMatcher -> mlModel d = SimpleMLModel ->
  gt (Transaction.Amount tx) 50000 = true ->
  (MaxVelocity (config d) <? observedCount tx d (S n))%Z = true ->
  gt (fst (result (geoRun tx d n))) 0 = true ->
  exists fs,
    result (Analyze (Some tx) d n) = Returns (Some fs, None) /\
    ge (Score fs) 0.8 = true /\ Risk fs = "CRITICAL"%string /\
    ShouldBlock fs = ge (Score fs) (BlockThreshold (config d)).
Proof.
  intros Hrules Hpat Hml H5 Hv Hg.
  destruct (Analyze_default_shape tx d n Hrules Hpat Hml)
    as (fv & fg & rv & rg & fs & Hfv & Hfg & Hfs & Hrisk & Hblock & Hs & _).
  exists fs. split; [exact Hfs|].
  rewrite Hv in Hfv. rewrite Hg in Hfg. subst fv fg.
  assert (Hge : ge (Score fs) 0.8 = true).
  { rewrite Hs. rewrite H5, (gt_trans_const _ H5). clear.
    destruct ((2 <=? time.HourOf (Transaction.Timestamp tx))%Z
              && (time.HourOf (Transaction.Timestamp tx) <=? 5)%Z),
      (String.eqb (Transaction.MerchantID tx) "NEW"),
      ((Transaction.Amount tx =? Floor (Transaction.Amount tx))
              && gt (Transaction.Amount tx) 1000),
      (String.eqb (Transaction.Type_ tx) "WIRE_TRANSFER"),
      (MLEnabled (config d)); vm_compute; reflexivity. }
  split; [exact Hge|]. split; [|exact Hblock].
  rewrite Hrisk. unfold determineRiskLevel. rewrite Hge. reflexivity.
Qed.

(** *** The detector behind its interface *)

(** A method of the detector, run through the interface. *)
Lemma onDetector_run {A : Type} (m : Eff Detector A) (fd : FraudDetector) (n : nat) :
  onDetector m fd n =
    (result (m (detector fd) n), {| detector := state (m (detector fd) n) |},
     ticks (m (detector fd) n)).
Proof. reflexivity. Qed.

Lemma onDetector_result {A : Type} (m : Eff Detector A) (fd : FraudDetector) (n : nat) :
  result (onDetector m fd n) = result (m (detector fd) n).
Proof. reflexivity. Qed.

Lemma onDetector_state {A : Type} (m : Eff Detector A) (fd : FraudDetector) (n : nat) :
  detector (state (onDetector m fd n)) = state (m (detector fd) n).
Proof. reflexivity. Qed.

(** [AnalyzeTransaction] is [Analyze] on the detector. *)
Lemma AnalyzeTransaction_result (tx : option Transaction) (fd : FraudDetector) (n : nat) :
  result (AnalyzeTransaction tx fd n) = result (Analyze tx (detector fd) n).
Proof. unfold AnalyzeTransaction. apply onDetector_result. Qed.

Lemma AnalyzeTransaction_state (tx : option Transaction) (fd : FraudDetector) (n : nat) :
  detector (state (AnalyzeTransaction tx fd n)) = state (Analyze tx (detector fd) n).
Proof. unfold AnalyzeTransaction. apply onDetector_state. Qed.

(** [AddCustomRule] in full. *)
Lemma AddCustomRule_run (rule : Rule) (fd : FraudDetector) (n : nat) :
  AddCustomRule rule fd n
    = (tt, {| detector := withRules (rules (detector fd) ++ [rule]) (detector fd) |}, n).
Proof. reflexivity. Qed.

Lemma AddCustomRule_state (rule : Rule) (fd : FraudDetector) (n : nat) :
  state (AddCustomRule rule fd n)
    = {| detector := withRules (rules (detector fd) ++ [rule]) (detector fd) |}.
Proof. reflexivity. Qed.

(** What [Analyze] returns on a transaction. *)
Lemma Analyze_reports (tx : Transaction) (d : Detector) (n : nat) :
  callable d ->
  exists fs,
    result (Analyze (Some tx) d n) = Returns (Some fs, None) /\
    Reasons fs = snd (afterPatterns tx d n).
Proof. intros Hc. rewrite (Analyze_Some tx d n Hc). eexists. split; reflexivity. Qed.

(** A rule that was appended and whose condition holds gives its reason. *)
Lemma appended_rule_reason (rule : Rule) (condition : Transaction -> bool)
    (tx : Transaction) (d : Detector) :
  callable d -> Rule.Condition rule = Some condition -> condition tx = true ->
  callable (withRules (rules d ++ [rule]) d) /\
  In (Rule.Description rule) (snd (afterRules tx (withRules (rules d ++ [rule]) d))).
Proof.
  intros Hc Hcond Hholds.
  assert (Hc' : callable (withRules (rules d ++ [rule]) d)).
  { unfold callable. cbn. apply Forall_app. split; [exact Hc|].
    constructor; [rewrite Hcond; eexists; reflexivity|constructor]. }
  split; [exact Hc'|].
  rewrite (afterRules_callable tx _ Hc'). cbn [snd rules withRules app].
  rewrite List.filter_app, map_app. apply in_or_app. right.
  cbn. unfold holds. rewrite Hcond, Hholds. left. reflexivity.
Qed.

(** A rule that was appended and has no condition makes [Analyze] panic. *)
Lemma appended_rule_panics (rule : Rule) (tx : Transaction) (d : Detector) (n : nat) :
  Rule.Condition rule = None ->
  Analyze (Some tx) (withRules (rules d ++ [rule]) d) n
    = (Panics, withRules (rules d ++ [rule]) d, S n).
Proof.
  intros Hnil. apply Analyze_Panics. intros Hc. unfold callable in Hc. cbn in Hc.
  apply Forall_app in Hc as [_ Hc]. inversion Hc as [|? ? [c E] ?]; subst. congruence.
Qed.

(** The configuration of the service. *)
Lemma NewFraudDetector_config :
  config (detector NewFraudDetector)
    = {| MaxVelocity := 5; VelocityWindow := time.Hour; HighRiskThreshold := 0.6;
         BlockThreshold := 0.8; MLEnabled := true |}.
Proof. reflexivity. Qed.

(** X13. After [AddCustomRule] the detector holds the rule, the statistics
    count it, and an analysis of a transaction that meets its condition
    reports its description (an analysis of any transaction panics when the
    rule has no condition); [GetActiveRules] still answers the default
    rules: three for a detector that counts four. *)
Theorem GetActiveRules_ignores_custom_rules (rule : Rule) (fd : FraudDetector) (n m : nat) :
  let fd' := state (AddCustomRule rule fd n) in
  GetActiveRules fd' m = (DefaultRules, fd', m) /\
  result (GetStatistics fd' m) !! "total_rules"
    = Some (AnyInt (Z.of_nat (total_rules (detector fd)) + 1)) /\
  rules (detector fd') = rules (detector fd) ++ [rule] /\
  (forall tx condition,
     callable (detector fd) -> Rule.Condition rule = Some condition -> condition tx = true ->
     exists fs,
       result (AnalyzeTransaction (Some tx) fd' m) = Returns (Some fs, None) /\
       In (Rule.Description rule) (Reasons fs)) /\
  (Rule.Condition rule = None ->
   forall tx, result (AnalyzeTransaction (Some tx) fd' m) = Panics) /\
  (rules (detector fd) = DefaultRules ->
   length (result (GetActiveRules fd' m)) = 3%nat /\
   result (GetStatistics fd' m) !! "total_rules" = Some (AnyInt 4)).
Proof.
  cbn zeta. rewrite AddCustomRule_state.
  assert (Hstat : result (GetStatistics
                    {| detector := withRules (rules (detector fd) ++ [rule]) (detector fd) |} m)
                  !! "total_rules"
                  = Some (AnyInt (Z.of_nat (total_rules (detector fd)) + 1))).
  { unfold GetStatistics, GetMetrics, bind, get, ret, result, state.
    cbn [fst snd detector rules withRules].
    rewrite lookup_insert_eq. f_equal. f_equal. unfold total_rules.
    rewrite length_app. cbn [length]. lia. }
  split; [reflexivity|]. split; [exact Hstat|]. split; [reflexivity|]. split.
  - intros tx condition Hc Hcond Hholds. rewrite AnalyzeTransaction_result. cbn [detector].
    destruct (appended_rule_reason rule condition tx (detector fd) Hc Hcond Hholds)
      as [Hc' Hin].
    destruct (Analyze_reports tx (withRules (rules (detector fd) ++ [rule]) (detector fd)) m
                Hc') as (fs & Hfs & Hr).
    exists fs. split; [exact Hfs|]. rewrite Hr.
    apply afterRules_in_afterPatterns, Hin.
  - split.
    { intros Hnil tx. rewrite AnalyzeTransaction_result. cbn [detector].
      rewrite (appended_rule_panics rule tx (detector fd) m Hnil). reflexivity. }
    intros Hd. split; [reflexivity|]. rewrite Hstat. unfold total_rules. rewrite Hd. reflexivity.
Qed.

(** X14. A detector reached from [NewFraudDetector] answers every
    transaction with a score between 0 and 1 and a confidence between 0.65
    and 0.85, and asks to block exactly when the tier is CRITICAL; the
    detector it leaves is reached from [NewFraudDetector] as well. *)
Theorem NewFraudDetector_service (fd : FraudDetector) :
  reachable (config (detector NewFraudDetector)) (detector fd) ->
  forall tx n,
    exists fs,
      result (AnalyzeTransaction (Some tx) fd n) = Returns (Some fs, None) /\
      between 0 1 (Score fs) /\
      between 0.65 0.85 (Confidence fs) /\
      (ShouldBlock fs = true <-> Risk fs = "CRITICAL"%string) /\
      reachable (config (detector NewFraudDetector))
        (detector (state (AnalyzeTransaction (Some tx) fd n))).
Proof.
  intros Hr tx n.
  destruct (reachable_invariant _ _ Hr) as (Hc & _ & _ & Hml & Hw & Hcall).
  assert (Hm : model_score_nonneg (detector fd) tx).
  { intros _. rewrite Hml. exact (proj1 (SimpleMLModel_score_between tx)). }
  destruct (Analyze_score_facts tx (detector fd) n Hcall Hw Hm)
    as (fs & Hfs & Hb & Hrisk & Hblock).
  exists fs. rewrite AnalyzeTransaction_result, AnalyzeTransaction_state.
  split; [exact Hfs|]. split; [exact Hb|]. split; [|split].
  - destruct (Analyze_fields tx (detector fd) n fs Hfs) as [-> _].
    rewrite (blended_confidence tx (detector fd) n Hml), Hc, NewFraudDetector_config.
    cbn [MLEnabled]. apply SimpleMLModel_confidence_between.
  - rewrite Hblock, Hrisk, Hc, NewFraudDetector_config. cbn [BlockThreshold].
    destruct (determineRiskLevel_thresholds (Score fs) (between_not_nan _ _ _ Hb)) as (T & _).
    symmetry. exact T.
  - apply reachable_Analyze. exact Hr.
Qed.

(** *** [UpdateTransaction] *)

(** The five entries [UpdateTransaction] writes to the caller's map. *)
Lemma UpdateTransaction_metadata (tx : Transaction)
    (customerID paymentMethod country city ipAddress deviceID userAgent : string)
    (metadata : option (gmap string any)) :
  snd (UpdateTransaction tx customerID paymentMethod country city ipAddress deviceID
         userAgent metadata) =
    match metadata with
    | None => None
    | Some m =>
        Some (<["user_agent" := AnyString userAgent]>
             (<["device_id" := AnyString deviceID]>
             (<["ip_address" := AnyString ipAddress]>
             (<["payment_method" := AnyString paymentMethod]>
             (<["customer_id" := AnyString customerID]> m)))))
    end.
Proof. reflexivity. Qed.

Lemma UpdateTransaction_written_twice (m : gmap string any) (a b c d e : any) :
  let written (m : gmap string any) :=
    <["user_agent" := e]> (<["device_id" := d]> (<["ip_address" := c]>
      (<["payment_method" := b]> (<["customer_id" := a]> m)))) in
  written (written m) = written m.
Proof.
  cbn zeta. apply map_eq. intros k.
  destruct (decide (k = "user_agent"%string)) as [->|N1];
    [rewrite !lookup_insert_eq; reflexivity|].
  rewrite !(lookup_insert_ne _ "user_agent"%string k) by congruence.
  destruct (decide (k = "device_id"%string)) as [->|N2];
    [rewrite !lookup_insert_eq; reflexivity|].
  rewrite !(lookup_insert_ne _ "device_id"%string k) by congruence.
  destruct (decide (k = "ip_address"%string)) as [->|N3];
    [rewrite !lookup_insert_eq; reflexivity|].
  rewrite !(lookup_insert_ne _ "ip_address"%string k) by congruence.
  destruct (decide (k = "payment_method"%string)) as [->|N4];
    [rewrite !lookup_insert_eq; reflexivity|].
  rewrite !(lookup_insert_ne _ "payment_method"%string k) by congruence.
  destruct (decide (k = "customer_id"%string)) as [->|N5];
    [rewrite !lookup_insert_eq; reflexivity|].
  rewrite !(lookup_insert_ne _ "customer_id"%string k) by congruence.
  rewrite !(lookup_insert_ne _ "user_agent"%string k) by congruence.
  rewrite !(lookup_insert_ne _ "device_id"%string k) by congruence.
  rewrite !(lookup_insert_ne _ "ip_address"%string k) by congruence.
  rewrite !(lookup_insert_ne _ "payment_method"%string k) by congruence.
  rewrite !(lookup_insert_ne _ "customer_id"%string k) by congruence.
  reflexivity.
Qed.

(** The transaction [UpdateTransaction] leaves, field by field. *)
Lemma UpdateTransaction_fields (tx : Transaction)
    (customerID paymentMethod country city ipAddress deviceID userAgent : string)
    (metadata : option (gmap string any)) :
  fst (UpdateTransaction tx customerID paymentMethod country city ipAddress deviceID
         userAgent metadata) =
    {| Transaction.ID := Transaction.ID tx;
       Transaction.AccountID :=
         if String.eqb (Transaction.AccountID tx) "" && negb (String.eqb customerID "")
         then customerID else Transaction.AccountID tx;
       Transaction.Amount := Transaction.Amount tx;
       Transaction.Currency := Transaction.Currency tx;
       Transaction.MerchantID := Transaction.MerchantID tx;
       Transaction.Location :=
         {| Latitude := Latitude (Transaction.Location tx);
            Longitude := Longitude (Transaction.Location tx);
            Country := if String.eqb country "" then Country (Transaction.Location tx)
                       else country;
            City := if String.eqb city "" then City (Transaction.Location tx) else city |};
       Transaction.Timestamp := Transaction.Timestamp tx;
       Transaction.Type_ := if String.eqb paymentMethod "" then Transaction.Type_ tx
                            else paymentMethod;
       Transaction.DeviceID := deviceID;
       Transaction.IPAddress := ipAddress |}.
Proof.
  destruct tx as [id acc amt cur mer [lat lon co ci] ts ty dev ip].
  unfold UpdateTransaction. cbn.
  destruct (String.eqb acc "" && negb (String.eqb customerID ""));
    destruct (String.eqb country ""), (String.eqb city ""), (String.eqb paymentMethod "");
    reflexivity.
Qed.

(** X15. [UpdateTransaction] never writes the identifier, the amount, the
    currency, the merchant, the timestamp or the coordinates; it writes the
    account only over an empty one, the country, the city and the type only
    with a value that is not empty, and the device and the network address
    always, an empty value included. A nil map stays nil for the caller; a
    map gets the five entries and keeps its others. A second call with the
    same arguments changes nothing. *)
Theorem UpdateTransaction_guards (tx : Transaction)
    (customerID paymentMethod country city ipAddress deviceID userAgent : string)
    (metadata : option (gmap string any)) :
  let r := UpdateTransaction tx customerID paymentMethod country city ipAddress deviceID
             userAgent metadata in
  let tx' := fst r in
  (* what is never written *)
  (Transaction.ID tx' = Transaction.ID tx /\
   Transaction.Amount tx' = Transaction.Amount tx /\
   Transaction.Currency tx' = Transaction.Currency tx /\
   Transaction.MerchantID tx' = Transaction.MerchantID tx /\
   Transaction.Timestamp tx' = Transaction.Timestamp tx /\
   Latitude (Transaction.Location tx') = Latitude (Transaction.Location tx) /\
   Longitude (Transaction.Location tx') = Longitude (Transaction.Location tx)) /\
  (* what is written only over an empty value, or only by a value that is not empty *)
  ((Transaction.AccountID tx <> ""%string ->
    Transaction.AccountID tx' = Transaction.AccountID tx) /\
   (Transaction.AccountID tx = ""%string -> Transaction.AccountID tx' = customerID) /\
   Country (Transaction.Location tx') =
     (if String.eqb country "" then Country (Transaction.Location tx) else country) /\
   City (Transaction.Location tx') =
     (if String.eqb city "" then City (Transaction.Location tx) else city) /\
   Transaction.Type_ tx' =
     (if String.eqb paymentMethod "" then Transaction.Type_ tx else paymentMethod)) /\
  (* what is always written, an empty value included *)
  (Transaction.DeviceID tx' = deviceID /\ Transaction.IPAddress tx' = ipAddress) /\
  (* the caller's map: nil stays nil; a map gets the five entries and keeps the others *)
  (metadata = None -> snd r = None) /\
  (forall m, metadata = Some m ->
     exists m', snd r = Some m' /\
       m' !! "customer_id" = Some (AnyString customerID) /\
       m' !! "payment_method" = Some (AnyString paymentMethod) /\
       m' !! "ip_address" = Some (AnyString ipAddress) /\
       m' !! "device_id" = Some (AnyString deviceID) /\
       m' !! "user_agent" = Some (AnyString userAgent) /\
       forall k,
         k <> "customer_id"%string -> k <> "payment_method"%string ->
         k <> "ip_address"%string -> k <> "device_id"%string -> k <> "user_agent"%string ->
         m' !! k = m !! k) /\
  (* a second call with the same arguments changes nothing *)
  UpdateTransaction tx' customerID paymentMethod country city ipAddress deviceID
    userAgent (snd r) = r.
Proof.
  cbn zeta.
  pose proof (UpdateTransaction_fields tx customerID paymentMethod country city ipAddress
                deviceID userAgent metadata) as Hf.
  pose proof (UpdateTransaction_metadata tx customerID paymentMethod country city ipAddress
                deviceID userAgent metadata) as Hm.
  split; [rewrite Hf; repeat split; reflexivity|].
  split.
  { rewrite Hf. cbn. split; [|split; [|split; [|split]]]; try reflexivity.
    - intros Hne. destruct (String.eqb_spec (Transaction.AccountID tx) ""); [contradiction|].
      reflexivity.
    - intros ->. cbn. destruct (String.eqb_spec customerID ""); [symmetry; assumption|].
      reflexivity. }
  split; [rewrite Hf; split; reflexivity|].
  split; [intros ->; reflexivity|].
  split.
  { intros m ->. rewrite Hm. eexists. split; [reflexivity|].
    do 5 (split; [repeat first [apply lookup_insert_eq
                                | rewrite lookup_insert_ne by discriminate]|]).
    intros k N1 N2 N3 N4 N5.
    rewrite !lookup_insert_ne by congruence. reflexivity. }
  apply injective_projections.
  - rewrite UpdateTransaction_fields, Hf. cbn.
    destruct (String.eqb_spec (Transaction.AccountID tx) "") as [Ea|Ea];
      destruct (String.eqb_spec customerID "") as [Ec|Ec]; cbn;
      destruct (String.eqb_spec country "") as [Eco|Eco];
      destruct (String.eqb_spec city "") as [Eci|Eci];
      destruct (String.eqb_spec paymentMethod "") as [Ep|Ep];
      repeat match goal with
             | H : ?x <> ""%string |- context [String.eqb ?x ""] =>
                 rewrite (proj2 (String.eqb_neq x "") H)
             | H : ?x = ""%string |- context [String.eqb ?x ""] =>
                 rewrite (proj2 (String.eqb_eq x "") H)
             end; cbn; try reflexivity; try (rewrite Ea; reflexivity).
  - rewrite UpdateTransaction_metadata, Hm. destruct metadata as [m|]; [|reflexivity].
    f_equal. apply (UpdateTransaction_written_twice m).
Qed.

End Properties.

(* ===================================================================== *)
(** ** Properties of the engine                                           *)
(* ===================================================================== *)

Section EngineProperties.
Context {clock : WallClock} {rand : RandSource}.
Import F64 F64Facts.
Local Open Scope float_scope.

(** Cases on the condition of the first [if] of the goal. *)
Ltac case_if :=
  match goal with
  | |- context [if ?b then _ else _] => destruct b eqn:?
  end.

(** *** The engine of the service *)

(** The score of the features that need no clock: amount, country, type. *)
Lemma addHighRisk_cases (country : string) (countries : list string) (score : float) :
  ml.addHighRisk country countries score = score \/
  ml.addHighRisk country countries score = score + 0.25.
Proof.
  induction countries as [|c cs IH]; cbn; [left; reflexivity|].
  destruct (String.eqb country c); [right; reflexivity|exact IH].
Qed.

(** [calculateMLScore] in full: one clock reading, and one draw when the
    transaction is stamped within the last hour. *)
Lemma calculateMLScore_run (tx : Transaction) (w : ml.World) (n : nat) :
  let base :=
    let score := 0 in
    let score := if gt (Transaction.Amount tx) 10000 then score + 0.3 else score in
    let score := if gt (Transaction.Amount tx) 50000 then score + 0.2 else score in
    let score := ml.addHighRisk (Country (Transaction.Location tx)) ml.highRiskCountries score in
    if String.eqb (Transaction.Type_ tx) "cash_advance"
       || String.eqb (Transaction.Type_ tx) "cryptocurrency"
    then score + 0.2 else score in
  let recent := time.After (Transaction.Timestamp tx) (time.Add (wallclock n) (- time.Hour)%Z) in
  let raw := if recent then base + randFloat64 (ml.drawn w) * 0.1 else base in
  ml.calculateMLScore tx w n =
    ((let s := if gt raw 1 then 1 else raw in if s <? 0 then 0 else s),
     {| ml.engine := ml.engine w;
        ml.drawn := if recent then S (ml.drawn w) else ml.drawn w |},
     S n).
Proof.
  cbn zeta. unfold ml.calculateMLScore, bind, ret, Now, ml.Float64, result, state, ticks.
  cbn [fst snd].
  destruct (time.After (Transaction.Timestamp tx) _); cbn [fst snd]; [reflexivity|].
  destruct w; reflexivity.
Qed.

Lemma base_score_nonneg (tx : Transaction) :
  nonneg (let score := 0 in
          let score := if gt (Transaction.Amount tx) 10000 then score + 0.3 else score in
          let score := if gt (Transaction.Amount tx) 50000 then score + 0.2 else score in
          let score := ml.addHighRisk (Country (Transaction.Location tx))
                         ml.highRiskCountries score in
          if String.eqb (Transaction.Type_ tx) "cash_advance"
             || String.eqb (Transaction.Type_ tx) "cryptocurrency"
          then score + 0.2 else score).
Proof.
  cbn zeta.
  assert (H1 : nonneg (if gt (Transaction.Amount tx) 10000 then 0 + 0.3 else 0))
    by (case_if; reflexivity).
  assert (H2 : nonneg (if gt (Transaction.Amount tx) 50000
                       then (if gt (Transaction.Amount tx) 10000 then 0 + 0.3 else 0) + 0.2
                       else if gt (Transaction.Amount tx) 10000 then 0 + 0.3 else 0)).
  { destruct (gt (Transaction.Amount tx) 50000); [|exact H1].
    apply add_nonneg; [exact H1|reflexivity]. }
  set (s2 := if gt (Transaction.Amount tx) 50000 then _ else _) in *.
  assert (H3 : nonneg (ml.addHighRisk (Country (Transaction.Location tx))
                         ml.highRiskCountries s2)).
  { destruct (addHighRisk_cases (Country (Transaction.Location tx)) ml.highRiskCountries s2)
      as [->| ->]; [exact H2|]. apply add_nonneg; [exact H2|reflexivity]. }
  case_if; [|exact H3]. apply add_nonneg; [exact H3|reflexivity].
Qed.

Lemma calculateMLScore_between (tx : Transaction) (w : ml.World) (n : nat) :
  nonneg (randFloat64 (ml.drawn w)) ->
  between 0 1 (result (ml.calculateMLScore tx w n)).
Proof.
  intros Hr. rewrite calculateMLScore_run. cbn zeta. cbn [result fst].
  apply clamp_by_comparisons.
  pose proof (base_score_nonneg tx) as Hb. cbn zeta in Hb.
  case_if; [|exact Hb].
  apply add_nonneg; [exact Hb|].
  apply (mul_nonneg_finite _ 0.1 _ _ eq_refl). exact Hr.
Qed.

(** The two ways through [PredictFraud]. *)
Lemma PredictFraud_ready (tx : Transaction) (w : ml.World) (n : nat) :
  ml.ready (ml.engine w) = true ->
  ml.PredictFraud tx w n =
    (let r := ml.calculateMLScore tx w n in
     ((result r, 0.85 + randFloat64 (ml.drawn (state r)) * 0.1, None),
      {| ml.engine := ml.engine (state r); ml.drawn := S (ml.drawn (state r)) |},
      ticks r)).
Proof.
  intros Hready. unfold ml.PredictFraud, bind, get, ret, ml.Float64, result, state, ticks.
  cbn [fst snd]. rewrite Hready. reflexivity.
Qed.

Lemma PredictFraud_not_ready (tx : Transaction) (w : ml.World) (n : nat) :
  ml.ready (ml.engine w) = false ->
  ml.PredictFraud tx w n = ((0, 0, Some "ML engine not ready"%string), w, n).
Proof.
  intros Hready. unfold ml.PredictFraud, bind, get, ret, result, state, ticks.
  cbn [fst snd]. rewrite Hready. reflexivity.
Qed.

(** [PredictFraud] leaves the engine as it was. *)
Lemma PredictFraud_engine (tx : Transaction) (w : ml.World) (n : nat) :
  ml.engine (state (ml.PredictFraud tx w n)) = ml.engine w.
Proof.
  destruct (ml.ready (ml.engine w)) eqn:E.
  - rewrite (PredictFraud_ready tx w n E), calculateMLScore_run. reflexivity.
  - rewrite (PredictFraud_not_ready tx w n E). reflexivity.
Qed.

Lemma TrainModel_run (w : ml.World) (n : nat) :
  ml.TrainModel w n =
    if ml.ready (ml.engine w)
    then (None,
          {| ml.engine := {| ml.ready := ml.ready (ml.engine w);
                             ml.modelPath := ml.modelPath (ml.engine w);
                             ml.lastUpdate := wallclock n |};
             ml.drawn := ml.drawn w |}, S n)
    else (Some "ML engine not ready"%string, w, n).
Proof.
  unfold ml.TrainModel, bind, get, put, ret, Now, result, state, ticks. cbn [fst snd].
  destruct (ml.ready (ml.engine w)); reflexivity.
Qed.

(** X16. [PredictFraud] fails exactly when the engine is not ready; it then
    answers zero and zero, as [TrainModel] fails, and nothing changes. On a
    ready engine [PredictFraud] leaves the engine as it was, reads the clock
    once and draws one or two numbers, and [TrainModel] succeeds, stamps the
    engine with the reading of the clock and keeps it ready, with its model
    path. A new engine is ready. *)
Theorem PredictFraud_fails_iff_not_ready (tx : Transaction) (w : ml.World) (n : nat) :
  (snd (result (ml.PredictFraud tx w n)) <> None <-> ml.ready (ml.engine w) = false) /\
  (ml.ready (ml.engine w) = false ->
   ml.PredictFraud tx w n = ((0, 0, Some "ML engine not ready"%string), w, n) /\
   ml.TrainModel w n = (Some "ML engine not ready"%string, w, n)) /\
  (ml.ready (ml.engine w) = true ->
   ml.engine (state (ml.PredictFraud tx w n)) = ml.engine w /\
   ticks (ml.PredictFraud tx w n) = S n /\
   (ml.drawn w < ml.drawn (state (ml.PredictFraud tx w n)) <= ml.drawn w + 2)%nat /\
   result (ml.TrainModel w n) = None /\
   ml.ready (ml.engine (state (ml.TrainModel w n))) = true /\
   ml.modelPath (ml.engine (state (ml.TrainModel w n))) = ml.modelPath (ml.engine w) /\
   ml.lastUpdate (ml.engine (state (ml.TrainModel w n))) = wallclock n) /\
  (forall S (s : S) m, ml.ready (result (ml.NewMLEngine s m)) = true).
Proof.
  split; [|split; [|split]].
  - destruct (ml.ready (ml.engine w)) eqn:E.
    + rewrite (PredictFraud_ready tx w n E). cbn. split; [congruence|discriminate].
    + rewrite (PredictFraud_not_ready tx w n E). cbn. split; [reflexivity|discriminate].
  - intros Hready. split; [exact (PredictFraud_not_ready tx w n Hready)|].
    rewrite TrainModel_run, Hready. reflexivity.
  - intros Hready. rewrite TrainModel_run, Hready.
    rewrite (PredictFraud_ready tx w n Hready), calculateMLScore_run. cbn zeta.
    unfold result, state, ticks. cbn [fst snd ml.engine ml.drawn ml.ready ml.modelPath
                                       ml.lastUpdate].
    split; [reflexivity|]. split; [reflexivity|]. split.
    + destruct (time.After _ _); lia.
    + repeat split; try reflexivity; exact Hready.
  - intros S s m. reflexivity.
Qed.

(** X17. On a ready engine whose next two draws are non-negative,
    [PredictFraud] succeeds with a score between 0 and 1 and a non-negative
    confidence; the score is zero for a transaction stamped more than an hour
    ago with no feature set (amount at most 10000, no high-risk country,
    neither a cash advance nor cryptocurrency). *)
Theorem PredictFraud_score_in_unit_interval (tx : Transaction) (w : ml.World) (n : nat) :
  ml.ready (ml.engine w) = true ->
  nonneg (randFloat64 (ml.drawn w)) -> nonneg (randFloat64 (S (ml.drawn w))) ->
  exists score confidence,
    result (ml.PredictFraud tx w n) = (score, confidence, None) /\
    between 0 1 score /\ nonneg confidence /\
    (time.After (Transaction.Timestamp tx) (time.Add (wallclock n) (- time.Hour)%Z) = false ->
     gt (Transaction.Amount tx) 10000 = false ->
     ml.addHighRisk (Country (Transaction.Location tx)) ml.highRiskCountries 0 = 0 ->
     String.eqb (Transaction.Type_ tx) "cash_advance"
       || String.eqb (Transaction.Type_ tx) "cryptocurrency" = false ->
     (score =? 0) = true).
Proof.
  intros Hready Hr0 Hr1.
  pose proof (calculateMLScore_between tx w n Hr0) as Hb.
  unfold ml.PredictFraud, bind, get, ret, ml.Float64. cbn [result state ticks fst snd].
  rewrite Hready. cbn [negb].
  eexists _, _. split; [reflexivity|]. split; [exact Hb|]. split.
  - apply add_nonneg; [reflexivity|].
    apply (mul_nonneg_finite _ 0.1 _ _ eq_refl).
    rewrite calculateMLScore_run. cbn zeta. unfold state. cbn [fst snd ml.drawn].
    destruct (time.After _ _); assumption.
  - intros Hold H1 Hc Ht. rewrite calculateMLScore_run. cbn zeta. cbn [result fst].
    rewrite Hold, H1.
    assert (H5 : gt (Transaction.Amount tx) 50000 = false).
    { destruct (gt (Transaction.Amount tx) 50000) eqn:E; [|reflexivity].
      unfold gt in *.
      assert (Hx : IsNaN (Transaction.Amount tx) = false).
      { destruct (IsNaN (Transaction.Amount tx)) eqn:En; [|reflexivity].
        apply IsNaN_nan in En. rewrite En in E. vm_compute in E. discriminate. }
      apply ltb_false_leb in H1; [|reflexivity|exact Hx].
      pose proof (leb_trans _ 10000 50000 H1 eq_refl) as H'.
      apply ltb_leb_excl in E. congruence. }
    rewrite H5, Hc, Ht. reflexivity.
Qed.

(** X18. [GetModelInfo] changes nothing and reads no clock; it reports four
    entries, the version v1.0.0 and the readiness of the engine among them,
    and after a training that succeeded, the reading of the clock at the
    training as the last update, with the model path as it was. *)
Theorem GetModelInfo_after_TrainModel (w : ml.World) (n m : nat) :
  ml.GetModelInfo w n
    = (<["ready" := AnyBool (ml.ready (ml.engine w))]>
       (<["model_path" := AnyString (ml.modelPath (ml.engine w))]>
       (<["last_update" := AnyTime (ml.lastUpdate (ml.engine w))]>
       (<["version" := AnyString "v1.0.0"]> ∅))), w, n) /\
  size (result (ml.GetModelInfo w n)) = 4%nat /\
  result (ml.GetModelInfo w n) !! "version" = Some (AnyString "v1.0.0") /\
  result (ml.GetModelInfo w n) !! "ready" = Some (AnyBool (ml.ready (ml.engine w))) /\
  (ml.ready (ml.engine w) = true ->
   let w' := state (ml.TrainModel w n) in
   result (ml.GetModelInfo w' m) !! "last_update" = Some (AnyTime (wallclock n)) /\
   result (ml.GetModelInfo w' m) !! "model_path"
     = Some (AnyString (ml.modelPath (ml.engine w))) /\
   result (ml.GetModelInfo w' m) !! "ready" = Some (AnyBool true)) /\
  (ml.ready (ml.engine w) = false ->
   result (ml.GetModelInfo (state (ml.TrainModel w n)) m) = result (ml.GetModelInfo w n)).
Proof.
  assert (E : forall w n,
    ml.GetModelInfo w n
      = (<["ready" := AnyBool (ml.ready (ml.engine w))]>
         (<["model_path" := AnyString (ml.modelPath (ml.engine w))]>
         (<["last_update" := AnyTime (ml.lastUpdate (ml.engine w))]>
         (<["version" := AnyString "v1.0.0"]> ∅))), w, n)) by reflexivity.
  split; [apply E|]. rewrite !E. cbn [result fst]. split; [|split; [|split; [|split]]].
  - rewrite !map_size_insert_None, map_size_empty; [reflexivity|..];
      repeat first [apply lookup_empty | rewrite lookup_insert_ne by discriminate].
  - do 3 (rewrite lookup_insert_ne by discriminate). apply lookup_insert_eq.
  - apply lookup_insert_eq.
  - intros Hready. cbn zeta. rewrite TrainModel_run, Hready, !E.
    unfold result, state. cbn [fst snd ml.engine ml.ready ml.modelPath ml.lastUpdate].
    split; [|split].
    + do 2 (rewrite lookup_insert_ne by discriminate). apply lookup_insert_eq.
    + rewrite lookup_insert_ne by discriminate. apply lookup_insert_eq.
    + apply lookup_insert_eq.
  - intros Hready. rewrite TrainModel_run, Hready. unfold state. cbn [fst snd].
    rewrite Hready. reflexivity.
Qed.

End EngineProperties.

(* ===================================================================== *)
(** ** Properties of the handlers                                         *)
(* ===================================================================== *)

Section HandlerProperties.
Context {lib : GoLib} {clock : WallClock} {rand : RandSource} {fmt : GoFmt}.
Import F64 F64Facts.
Local Open Scope float_scope.

(** Cases on the condition of the first [if] of the goal. *)
Ltac case_if :=
  match goal with
  | |- context [if ?b then _ else _] => destruct b eqn:?
  end.

(** *** The handlers of the service *)

(** One step of a computation. *)
Lemma bind_run {S A B : Type} (m : Eff S A) (k : A -> Eff S B) (s : S) (n : nat) :
  bind m k s n = k (result (m s n)) (state (m s n)) (ticks (m s n)).
Proof. reflexivity. Qed.

Lemma Now_run {S : Type} (s : S) (n : nat) : Now s n = (wallclock n, s, Datatypes.S n).
Proof. reflexivity. Qed.

Lemma Since_run {S : Type} (t : time.Time) (s : S) (n : nat) :
  Since t s n = (time.Sub (wallclock n) t, s, Datatypes.S n).
Proof. reflexivity. Qed.

Ltac step := rewrite bind_run; rewrite ?Now_run, ?Since_run; cbn [result state ticks fst snd].

(** A method of the interface, run through the server. *)
Lemma onFraudDetector_run {A : Type} (m : Eff FraudDetector A) (w : main.World) (n : nat) :
  main.onFraudDetector m w n =
    (result (m (main.fraudDetector (main.server w)) n),
     {| main.server :=
          {| main.fraudDetector := state (m (main.fraudDetector (main.server w)) n);
             main.mlEngine := main.mlEngine (main.server w) |};
        main.drawn := main.drawn w |},
     ticks (m (main.fraudDetector (main.server w)) n)).
Proof. reflexivity. Qed.

Lemma AnalyzeTransaction_Some (tx : Transaction) (fd : FraudDetector) (n : nat) :
  callable (detector fd) ->
  exists fs,
    result (AnalyzeTransaction (Some tx) fd n) = Returns (Some fs, None) /\
    Risk fs = determineRiskLevel (Score fs).
Proof.
  intros Hc. rewrite AnalyzeTransaction_result, (Analyze_Some tx (detector fd) n Hc).
  eexists. split; reflexivity.
Qed.

Lemma AnalyzeTransaction_Panics (tx : Transaction) (fd : FraudDetector) (n : nat) :
  ~ callable (detector fd) -> AnalyzeTransaction (Some tx) fd n = (Panics, fd, S n).
Proof.
  intros Hc. unfold AnalyzeTransaction.
  rewrite onDetector_run, (Analyze_Panics tx (detector fd) n Hc).
  destruct fd. reflexivity.
Qed.

(** An analysis through the server: with a condition in every rule it never
    fails and never returns nil, and the rules are as they were; with a rule
    that has no condition it panics, and nothing has changed. *)
Lemma onFraudDetector_Analyze (tx : Transaction) (w : main.World) (n : nat) :
  exists o w' n',
    main.onFraudDetector (AnalyzeTransaction (Some tx)) w n = (o, w', n') /\
    main.mlEngine (main.server w') = main.mlEngine (main.server w) /\
    main.drawn w' = main.drawn w /\
    (main.callableServer w ->
     main.callableServer w' /\
     exists fs, o = Returns (Some fs, None) /\ Risk fs = determineRiskLevel (Score fs)) /\
    (~ main.callableServer w -> o = Panics /\ w' = w).
Proof.
  rewrite onFraudDetector_run. eexists _, _, _. split; [reflexivity|].
  cbn [main.server main.mlEngine main.drawn].
  split; [reflexivity|]. split; [reflexivity|]. unfold main.callableServer. split.
  - intros Hc. split.
    + cbn [main.server main.fraudDetector]. rewrite AnalyzeTransaction_state.
      apply Analyze_callable, Hc.
    + apply AnalyzeTransaction_Some, Hc.
  - intros Hc. rewrite (AnalyzeTransaction_Panics tx _ n Hc).
    split; [reflexivity|]. destruct w as [[fd e] k]. reflexivity.
Qed.

(** A prediction through the server leaves the detector and the engine as
    they were. *)
Lemma onEngine_PredictFraud (tx : Transaction) (w : main.World) (n : nat) :
  exists p w' n',
    main.onEngine (ml.PredictFraud tx) w n = (p, w', n') /\
    main.server w' = main.server w /\
    (ml.ready (main.mlEngine (main.server w)) = true -> snd p = None) /\
    (ml.ready (main.mlEngine (main.server w)) = false ->
     p = (0, 0, Some "ML engine not ready"%string)).
Proof.
  unfold main.onEngine, zoom. cbn [result state ticks fst snd].
  set (mw := {| ml.engine := _; ml.drawn := _ |}).
  eexists _, _, _. split; [reflexivity|]. split.
  - cbn [main.server]. rewrite (PredictFraud_engine tx mw n).
    destruct w as [[fd e] k]. reflexivity.
  - split; intros Hready.
    + rewrite (PredictFraud_ready tx mw n Hready). reflexivity.
    + rewrite (PredictFraud_not_ready tx mw n Hready). reflexivity.
Qed.

(** [convertToInternalTransaction] reads the clock when the request carries
    no timestamp, and touches nothing else. *)
Lemma convertToInternalTransaction_run {S : Type} (req : main.TransactionRequest)
    (s : S) (n : nat) :
  exists tx n',
    main.convertToInternalTransaction req s n = (tx, s, n') /\
    Transaction.ID tx = main.TransactionRequest.ID req /\
    Transaction.AccountID tx = main.TransactionRequest.CustomerID req /\
    Transaction.Timestamp tx =
      (if main.IsZero (main.TransactionRequest.Timestamp req) then wallclock n
       else main.TransactionRequest.Timestamp req) /\
    n' = (if main.IsZero (main.TransactionRequest.Timestamp req) then Datatypes.S n else n).
Proof.
  unfold main.convertToInternalTransaction, bind, ret, Now, result, state, ticks.
  cbn [fst snd Transaction.Timestamp].
  destruct (main.IsZero (main.TransactionRequest.Timestamp req));
    eexists _, _; (split; [reflexivity|]); repeat split; reflexivity.
Qed.

(** The decision is one of three. *)
Lemma decisionOf_cases (x : float) :
  main.decisionOf x = "DECLINE"%string \/ main.decisionOf x = "REVIEW"%string \/
  main.decisionOf x = "APPROVE"%string.
Proof. unfold main.decisionOf. repeat case_if; auto. Qed.

(** The four rejections of [analyzeTransactionHandler], and what it answers
    otherwise. *)
Lemma analyzeTransactionHandler_run (r : main.Request main.TransactionRequest)
    (w : main.World) (n : nat) :
  let out := main.analyzeTransactionHandler r w n in
  (main.Method r <> "POST"%string ->
   out = (main.Error "Method not allowed" 405, w, n)) /\
  (main.Method r = "POST"%string -> main.Body r = None ->
   out = (main.Error "Invalid JSON" 400, w, n)) /\
  (forall req,
     main.Method r = "POST"%string -> main.Body r = Some req ->
     (main.TransactionRequest.ID req = ""%string ->
      out = (main.Error "transaction ID is required" 400, w, n)) /\
     (main.TransactionRequest.ID req <> ""%string ->
      (main.TransactionRequest.Amount req <=? 0) = true ->
      out = (main.Error "amount must be positive" 400, w, n)) /\
     (main.TransactionRequest.ID req <> ""%string ->
      (main.TransactionRequest.Amount req <=? 0) = false ->
      main.callableServer w ->
      exists body rule mlScore,
        result out = main.JSON body /\
        main.FraudResponse.TransactionID body = main.TransactionRequest.ID req /\
        main.FraudResponse.Metadata body !! "rule_score" = Some (AnyFloat rule) /\
        main.FraudResponse.Metadata body !! "ml_score" = Some (AnyFloat mlScore) /\
        main.FraudResponse.RiskScore body = (rule + mlScore) / 2 /\
        main.FraudResponse.Decision body = main.decisionOf (main.FraudResponse.RiskScore body) /\
        (ml.ready (main.mlEngine (main.server w)) = false ->
         mlScore = rule /\ main.FraudResponse.Confidence body = 0.5) /\
        main.mlEngine (main.server (state out)) = main.mlEngine (main.server w)) /\
     (main.TransactionRequest.ID req <> ""%string ->
      (main.TransactionRequest.Amount req <=? 0) = false ->
      ~ main.callableServer w ->
      result out = main.Panic /\ state out = w)).
Proof.
  cbn zeta. unfold main.analyzeTransactionHandler.
  split; [|split].
  - intros Hm. destruct (String.eqb_spec (main.Method r) "POST"); [contradiction|]. reflexivity.
  - intros -> ->. rewrite String.eqb_refl. reflexivity.
  - intros req -> ->. rewrite String.eqb_refl. cbn [negb].
    split; [|split; [|split]].
    + intros ->. reflexivity.
    + intros Hid Hamt.
      destruct (String.eqb_spec (main.TransactionRequest.ID req) ""); [contradiction|].
      rewrite Hamt. reflexivity.
    + intros Hid Hamt Hcall.
      destruct (String.eqb_spec (main.TransactionRequest.ID req) ""); [contradiction|].
      rewrite Hamt. step. rewrite bind_run.
      destruct (convertToInternalTransaction_run req w (S n)) as (tx & n' & -> & _).
      cbn [result state ticks fst snd]. rewrite bind_run.
      destruct (onFraudDetector_Analyze tx w n') as (o & w1 & n1 & -> & He1 & _ & Hans & _).
      destruct (Hans Hcall) as (_ & fs & -> & _). clear Hans.
      cbn [result state ticks fst snd]. rewrite bind_run.
      destruct (onEngine_PredictFraud tx w1 n1) as (p & w2 & n2 & -> & Hs2 & Hok & Hnot).
      cbn [result state ticks fst snd]. step. unfold ret. cbn [result state fst snd].
      eexists _, _, _. split; [reflexivity|]. cbn [main.FraudResponse.TransactionID
        main.FraudResponse.Metadata main.FraudResponse.RiskScore main.FraudResponse.Decision
        main.FraudResponse.Confidence].
      split; [reflexivity|]. split; [apply lookup_insert_eq|].
      split; [rewrite lookup_insert_ne by discriminate; apply lookup_insert_eq|].
      split; [reflexivity|]. split; [reflexivity|]. split.
      * intros Hready. rewrite <- He1 in Hready. rewrite (Hnot Hready). cbn. split; reflexivity.
      * rewrite Hs2. exact He1.
    + intros Hid Hamt Hcall.
      destruct (String.eqb_spec (main.TransactionRequest.ID req) ""); [contradiction|].
      rewrite Hamt. step. rewrite bind_run.
      destruct (convertToInternalTransaction_run req w (S n)) as (tx & n' & -> & _).
      cbn [result state ticks fst snd]. rewrite bind_run.
      destruct (onFraudDetector_Analyze tx w n') as (o & w1 & n1 & -> & _ & _ & _ & Hpanic).
      destruct (Hpanic Hcall) as [-> ->]. split; reflexivity.
Qed.

(** X19. [analyzeTransactionHandler] rejects a method other than POST with
    405, and a body that does not decode, an empty identifier or an amount
    that is not positive with 400, leaving the server and the clock as they
    were. Any other request is answered with the identifier of the request,
    the rule score and the engine's score in the metadata, their mean as the
    risk score, and a decision that is DECLINE from 0.8, REVIEW from 0.5 and
    APPROVE below; when the engine is not ready the rule score stands for the
    engine's and the confidence is 0.5. This is so when every rule of the
    detector has a condition, and the handler then never panics; with a rule
    that has no condition the analysis panics, and the handler with it,
    leaving the server as it was. The handler never answers 500. *)
Theorem analyzeTransactionHandler_answers (r : main.Request main.TransactionRequest)
    (w : main.World) (n : nat) :
  let out := main.analyzeTransactionHandler r w n in
  (* a request that is rejected leaves the server and the clock as they were *)
  (main.Method r <> "POST"%string ->
   out = (main.Error "Method not allowed" 405, w, n)) /\
  (main.Method r = "POST"%string -> main.Body r = None ->
   out = (main.Error "Invalid JSON" 400, w, n)) /\
  (forall req,
     main.Method r = "POST"%string -> main.Body r = Some req ->
     (main.TransactionRequest.ID req = ""%string ->
      out = (main.Error "transaction ID is required" 400, w, n)) /\
     (main.TransactionRequest.ID req <> ""%string ->
      (main.TransactionRequest.Amount req <=? 0) = true ->
      out = (main.Error "amount must be positive" 400, w, n)) /\
     (* any other request is answered with a response *)
     (main.TransactionRequest.ID req <> ""%string ->
      (main.TransactionRequest.Amount req <=? 0) = false ->
      main.callableServer w ->
      exists body rule mlScore,
        result out = main.JSON body /\
        main.FraudResponse.TransactionID body = main.TransactionRequest.ID req /\
        main.FraudResponse.Metadata body !! "rule_score" = Some (AnyFloat rule) /\
        main.FraudResponse.Metadata body !! "ml_score" = Some (AnyFloat mlScore) /\
        main.FraudResponse.RiskScore body = (rule + mlScore) / 2 /\
        main.FraudResponse.Decision body = main.decisionOf (main.FraudResponse.RiskScore body) /\
        (main.FraudResponse.Decision body = "DECLINE"%string \/
         main.FraudResponse.Decision body = "REVIEW"%string \/
         main.FraudResponse.Decision body = "APPROVE"%string) /\
        (ml.ready (main.mlEngine (main.server w)) = false ->
         mlScore = rule /\ main.FraudResponse.Confidence body = 0.5)) /\
     (* unless a rule has no condition: the analysis panics *)
     (main.TransactionRequest.ID req <> ""%string ->
      (main.TransactionRequest.Amount req <=? 0) = false ->
      ~ main.callableServer w ->
      result out = main.Panic /\ state out = w)) /\
  (* with a condition in every rule no request makes the handler panic, and none
     makes it answer a server error *)
  (main.callableServer w -> result out <> main.Panic) /\
  (forall msg, result out <> main.Error msg 500).
Proof.
  cbn zeta.
  destruct (analyzeTransactionHandler_run r w n) as (H1 & H2 & H3). cbn zeta in *.
  split; [exact H1|]. split; [exact H2|]. split.
  - intros req Hm Hb. destruct (H3 req Hm Hb) as (H4 & H5 & H6 & H7).
    split; [exact H4|]. split; [exact H5|]. split; [|exact H7]. intros Hid Hamt Hcall.
    destruct (H6 Hid Hamt Hcall)
      as (body & rule & mlScore & E1 & E2 & E3 & E4 & E5 & E6 & E7 & _).
    exists body, rule, mlScore. repeat (split; [assumption|]).
    split; [rewrite E6; apply decisionOf_cases|exact E7].
  - destruct (String.eqb_spec (main.Method r) "POST") as [Hm|Hm];
      [|rewrite (H1 Hm); split; [discriminate|intros msg; cbn; congruence]].
    destruct (main.Body r) as [req|] eqn:Hb;
      [|rewrite (H2 Hm eq_refl); split; [discriminate|intros msg; cbn; congruence]].
    destruct (H3 req Hm eq_refl) as (H4 & H5 & H6 & H7).
    destruct (String.eqb_spec (main.TransactionRequest.ID req) "") as [Hid|Hid];
      [rewrite (H4 Hid); split; [discriminate|intros msg; cbn; congruence]|].
    destruct (main.TransactionRequest.Amount req <=? 0) eqn:Hamt;
      [rewrite (H5 Hid eq_refl); split; [discriminate|intros msg; cbn; congruence]|].
    destruct (callable_dec (detector (main.fraudDetector (main.server w)))) as [Hcall|Hcall].
    + destruct (H6 Hid eq_refl Hcall) as (body & rule & mlScore & -> & _).
      split; [discriminate|intros msg; discriminate].
    + destruct (H7 Hid eq_refl Hcall) as [-> _].
      split; [intros Hc; contradiction|intros msg; discriminate].
Qed.

(** The loop of the batch handler, with a condition in every rule: it never
    ends early, fills one result per transaction, in order, and increments
    one counter per result. *)
Lemma batchLoop_run (txns : list main.TransactionRequest) :
  forall (results : list main.FraudResponse) (summary : main.BatchSummary)
         (w : main.World) (n : nat),
  main.callableServer w ->
  exists new summary' w' n',
    main.batchLoop txns results summary w n = (inr (results ++ new, summary'), w', n') /\
    map main.FraudResponse.TransactionID new = map main.TransactionRequest.ID txns /\
    Forall (fun b => main.FraudResponse.Decision b
                       = main.decisionOf (main.FraudResponse.RiskScore b) /\
                     main.FraudResponse.ProcessingTime b = "batch"%string) new /\
    main.BatchSummary.Total summary' = main.BatchSummary.Total summary /\
    main.BatchSummary.Approved summary' =
      (main.BatchSummary.Approved summary
       + Z.of_nat (length (List.filter
           (fun b => String.eqb (main.FraudResponse.Decision b) "APPROVE") new)))%Z /\
    main.BatchSummary.Declined summary' =
      (main.BatchSummary.Declined summary
       + Z.of_nat (length (List.filter
           (fun b => String.eqb (main.FraudResponse.Decision b) "DECLINE") new)))%Z /\
    main.BatchSummary.RequireReview summary' =
      (main.BatchSummary.RequireReview summary
       + Z.of_nat (length (List.filter
           (fun b => String.eqb (main.FraudResponse.Decision b) "REVIEW") new)))%Z /\
    main.BatchSummary.AvgRiskScore summary' =
      fold_left (fun a b => a + main.FraudResponse.RiskScore b) new
        (main.BatchSummary.AvgRiskScore summary) /\
    main.mlEngine (main.server w') = main.mlEngine (main.server w).
Proof.
  induction txns as [|txn rest IH]; intros results summary w n Hcall.
  - exists [], summary, w, n. cbn. rewrite app_nil_r, !Z.add_0_r.
    repeat split; try reflexivity. constructor.
  - cbn [main.batchLoop]. rewrite bind_run.
    destruct (convertToInternalTransaction_run txn w n) as (tx & n' & -> & _).
    cbn [result state ticks fst snd]. rewrite bind_run.
    destruct (onFraudDetector_Analyze tx w n') as (o & w1 & n1 & -> & He1 & _ & Hans & _).
    destruct (Hans Hcall) as (Hcall1 & fs & -> & _). clear Hans.
    cbn [result state ticks fst snd]. rewrite bind_run.
    destruct (onEngine_PredictFraud tx w1 n1) as (p & w2 & n2 & -> & Hs2 & _ & _).
    cbn [result state ticks fst snd].
    assert (Hcall2 : main.callableServer w2)
      by (unfold main.callableServer in *; rewrite Hs2; exact Hcall1).
    set (final := (Score fs + fst (fst p)) / 2).
    set (decided := if ge final 0.8 then _ else _).
    set (response := {| main.FraudResponse.TransactionID := _ |}).
    set (summary1 := main.setAvgRiskScore _ _).
    destruct (IH (results ++ [response]) summary1 w2 n2 Hcall2)
      as (new & summary' & w' & n'' & -> & Hids & Hdec & Ht & Ha & Hd & Hr & Havg & He).
    exists (response :: new), summary', w', n''.
    rewrite <- app_assoc. split; [reflexivity|].
    split; [cbn; f_equal; exact Hids|].
    assert (Hresp : main.FraudResponse.Decision response = main.decisionOf final).
    { subst response decided. cbn [main.FraudResponse.Decision]. unfold main.decisionOf.
      destruct (ge final 0.8); [reflexivity|]. destruct (ge final 0.5); reflexivity. }
    split; [constructor; [split; [exact Hresp|reflexivity]|exact Hdec]|].
    split; [rewrite Ht; subst summary1 decided;
            destruct (ge final 0.8); [|destruct (ge final 0.5)]; reflexivity|].
    rewrite Ha, Hd, Hr, Havg, He, Hs2, He1. cbn [List.filter fold_left].
    rewrite Hresp.
    assert (Hfinal : main.FraudResponse.RiskScore response = final) by reflexivity.
    rewrite Hfinal.
    subst summary1 decided. unfold main.decisionOf.
    destruct (ge final 0.8); [|destruct (ge final 0.5)]; cbn;
      repeat split; try reflexivity; lia.
Qed.

(** With a rule that has no condition the loop ends at the first
    transaction, in a panic, and nothing has changed. *)
Lemma batchLoop_panics (txn : main.TransactionRequest) (rest : list main.TransactionRequest)
    (results : list main.FraudResponse) (summary : main.BatchSummary)
    (w : main.World) (n : nat) :
  ~ main.callableServer w ->
  exists n', main.batchLoop (txn :: rest) results summary w n = (inl main.Panic, w, n').
Proof.
  intros Hcall. cbn [main.batchLoop]. rewrite bind_run.
  destruct (convertToInternalTransaction_run txn w n) as (tx & n' & -> & _).
  cbn [result state ticks fst snd]. rewrite bind_run.
  destruct (onFraudDetector_Analyze tx w n') as (o & w1 & n1 & -> & _ & _ & _ & Hpanic).
  destruct (Hpanic Hcall) as [-> ->]. eexists. reflexivity.
Qed.

Lemma decisions_partition (bs : list main.FraudResponse) :
  Forall (fun b => main.FraudResponse.Decision b
                     = main.decisionOf (main.FraudResponse.RiskScore b) /\
                   main.FraudResponse.ProcessingTime b = "batch"%string) bs ->
  (Z.of_nat (length (List.filter
      (fun b => String.eqb (main.FraudResponse.Decision b) "APPROVE") bs))
   + Z.of_nat (length (List.filter
      (fun b => String.eqb (main.FraudResponse.Decision b) "DECLINE") bs))
   + Z.of_nat (length (List.filter
      (fun b => String.eqb (main.FraudResponse.Decision b) "REVIEW") bs))
   = Z.of_nat (length bs))%Z.
Proof.
  induction 1 as [|b bs [Hb _] _ IH]; [reflexivity|].
  cbn [List.filter length]. rewrite Hb.
  destruct (decisionOf_cases (main.FraudResponse.RiskScore b)) as [->|[->| ->]];
    cbn [String.eqb Ascii.eqb Bool.eqb length]; cbn; lia.
Qed.

Lemma batchAnalysisHandler_run (r : main.Request main.BatchRequest)
    (w : main.World) (n : nat) :
  let out := main.batchAnalysisHandler r w n in
  (main.Method r <> "POST"%string ->
   out = (main.Error "Method not allowed" 405, w, n)) /\
  (main.Method r = "POST"%string -> main.Body r = None ->
   out = (main.Error "Invalid JSON" 400, w, n)) /\
  (forall req,
     main.Method r = "POST"%string -> main.Body r = Some req ->
     (main.Transactions req = [] ->
      out = (main.Error "transactions array cannot be empty" 400, w, n)) /\
     ((1000 < length (main.Transactions req))%nat ->
      out = (main.Error "maximum 1000 transactions per batch" 400, w, n)) /\
     ((1 <= length (main.Transactions req) <= 1000)%nat ->
      main.callableServer w ->
      exists resp,
        result out = main.JSON resp /\
        map main.FraudResponse.TransactionID (main.Results resp)
          = map main.TransactionRequest.ID (main.Transactions req) /\
        Forall (fun b => main.FraudResponse.Decision b
                           = main.decisionOf (main.FraudResponse.RiskScore b) /\
                         main.FraudResponse.ProcessingTime b = "batch"%string)
          (main.Results resp) /\
        main.BatchSummary.Total (main.Summary resp)
          = Z.of_nat (length (main.Transactions req)) /\
        (main.BatchSummary.Approved (main.Summary resp)
         + main.BatchSummary.Declined (main.Summary resp)
         + main.BatchSummary.RequireReview (main.Summary resp)
         = main.BatchSummary.Total (main.Summary resp))%Z /\
        main.BatchSummary.Approved (main.Summary resp) =
          Z.of_nat (length (List.filter
            (fun b => String.eqb (main.FraudResponse.Decision b) "APPROVE")
            (main.Results resp))) /\
        main.BatchSummary.Declined (main.Summary resp) =
          Z.of_nat (length (List.filter
            (fun b => String.eqb (main.FraudResponse.Decision b) "DECLINE")
            (main.Results resp))) /\
        main.BatchSummary.RequireReview (main.Summary resp) =
          Z.of_nat (length (List.filter
            (fun b => String.eqb (main.FraudResponse.Decision b) "REVIEW")
            (main.Results resp))) /\
        main.BatchSummary.AvgRiskScore (main.Summary resp) =
          fold_left (fun a b => a + main.FraudResponse.RiskScore b) (main.Results resp) 0
          / of_int (Z.of_nat (length (main.Transactions req))) /\
        main.mlEngine (main.server (state out)) = main.mlEngine (main.server w)) /\
     ((1 <= length (main.Transactions req) <= 1000)%nat ->
      ~ main.callableServer w ->
      result out = main.Panic /\ state out = w)).
Proof.
  cbn zeta. unfold main.batchAnalysisHandler.
  split; [|split].
  - intros Hm. destruct (String.eqb_spec (main.Method r) "POST"); [contradiction|]. reflexivity.
  - intros -> ->. rewrite String.eqb_refl. reflexivity.
  - intros req -> ->. rewrite String.eqb_refl. cbn [negb].
    split; [|split; [|split]].
    + intros ->. reflexivity.
    + intros Hlen.
      destruct (Nat.eqb_spec (length (main.Transactions req)) 0) as [E|E]; [lia|].
      destruct (Nat.ltb_spec 1000 (length (main.Transactions req))) as [L|L]; [|lia].
      reflexivity.
    + intros [Hlo Hhi] Hcall.
      destruct (Nat.eqb_spec (length (main.Transactions req)) 0) as [E|E]; [lia|].
      destruct (Nat.ltb_spec 1000 (length (main.Transactions req))) as [L|L]; [lia|].
      step. rewrite bind_run.
      destruct (batchLoop_run (main.Transactions req) [] main.emptySummary w (S n) Hcall)
        as (new & summary' & w' & n' & -> & Hids & Hdec & Ht & Ha & Hd & Hr & Havg & He).
      cbn [result state ticks fst snd app]. step. unfold ret. cbn [result state fst snd].
      eexists. split; [reflexivity|]. cbn [main.Results main.Summary].
      split; [exact Hids|]. split; [exact Hdec|].
      pose proof (decisions_partition new Hdec) as Hpart.
      assert (Hlen : length new = length (main.Transactions req)).
      { rewrite <- (length_map main.FraudResponse.TransactionID new), Hids, length_map.
        reflexivity. }
      cbn. rewrite Ha, Hd, Hr, Havg. cbn.
      repeat split; try reflexivity; try lia. exact He.
    + intros [Hlo Hhi] Hcall.
      destruct (Nat.eqb_spec (length (main.Transactions req)) 0) as [E|E]; [lia|].
      destruct (Nat.ltb_spec 1000 (length (main.Transactions req))) as [L|L]; [lia|].
      step. rewrite bind_run.
      destruct (main.Transactions req) as [|txn rest]; [cbn in Hlo; lia|].
      destruct (batchLoop_panics txn rest [] main.emptySummary w (S n) Hcall) as [n' ->].
      split; reflexivity.
Qed.

(** X20. [batchAnalysisHandler] rejects a method other than POST with 405,
    and a body that does not decode, an empty batch or a batch of more than
    1000 transactions with 400, leaving the server and the clock as they
    were. Any other batch is answered with one result per transaction, in
    the order of the batch, each decided by its risk score; the summary
    counts them all, its three counters count the results of each decision
    and add up to the total, and the average is the sum of the risk scores,
    in order, divided by the total. This is so when every rule of the
    detector has a condition, and the handler then never panics; with a rule
    that has no condition the first analysis panics, and the handler with
    it, leaving the server as it was. The handler never answers 500. *)
Theorem batchAnalysisHandler_summary (r : main.Request main.BatchRequest)
    (w : main.World) (n : nat) :
  let out := main.batchAnalysisHandler r w n in
  (main.Method r <> "POST"%string ->
   out = (main.Error "Method not allowed" 405, w, n)) /\
  (main.Method r = "POST"%string -> main.Body r = None ->
   out = (main.Error "Invalid JSON" 400, w, n)) /\
  (forall req,
     main.Method r = "POST"%string -> main.Body r = Some req ->
     (main.Transactions req = [] ->
      out = (main.Error "transactions array cannot be empty" 400, w, n)) /\
     ((1000 < length (main.Transactions req))%nat ->
      out = (main.Error "maximum 1000 transactions per batch" 400, w, n)) /\
     ((1 <= length (main.Transactions req) <= 1000)%nat ->
      main.callableServer w ->
      exists resp,
        result out = main.JSON resp /\
        map main.FraudResponse.TransactionID (main.Results resp)
          = map main.TransactionRequest.ID (main.Transactions req) /\
        Forall (fun b => main.FraudResponse.Decision b
                           = main.decisionOf (main.FraudResponse.RiskScore b) /\
                         main.FraudResponse.ProcessingTime b = "batch"%string)
          (main.Results resp) /\
        main.BatchSummary.Total (main.Summary resp)
          = Z.of_nat (length (main.Transactions req)) /\
        (main.BatchSummary.Approved (main.Summary resp)
         + main.BatchSummary.Declined (main.Summary resp)
         + main.BatchSummary.RequireReview (main.Summary resp)
         = main.BatchSummary.Total (main.Summary resp))%Z /\
        main.BatchSummary.Approved (main.Summary resp) =
          Z.of_nat (length (List.filter
            (fun b => String.eqb (main.FraudResponse.Decision b) "APPROVE")
            (main.Results resp))) /\
        main.BatchSummary.Declined (main.Summary resp) =
          Z.of_nat (length (List.filter
            (fun b => String.eqb (main.FraudResponse.Decision b) "DECLINE")
            (main.Results resp))) /\
        main.BatchSummary.RequireReview (main.Summary resp) =
          Z.of_nat (length (List.filter
            (fun b => String.eqb (main.FraudResponse.Decision b) "REVIEW")
            (main.Results resp))) /\
        main.BatchSummary.AvgRiskScore (main.Summary resp) =
          fold_left (fun a b => a + main.FraudResponse.RiskScore b) (main.Results resp) 0
          / of_int (Z.of_nat (length (main.Transactions req)))) /\
     ((1 <= length (main.Transactions req) <= 1000)%nat ->
      ~ main.callableServer w ->
      result out = main.Panic /\ state out = w)) /\
  (main.callableServer w -> result out <> main.Panic) /\
  (forall msg, result out <> main.Error msg 500).
Proof.
  cbn zeta.
  destruct (batchAnalysisHandler_run r w n) as (H1 & H2 & H3). cbn zeta in *.
  split; [exact H1|]. split; [exact H2|]. split.
  - intros req Hm Hb. destruct (H3 req Hm Hb) as (H4 & H5 & H6 & H7).
    split; [exact H4|]. split; [exact H5|]. split; [|exact H7]. intros Hlen Hcall.
    destruct (H6 Hlen Hcall) as (resp & E1 & E2 & E3 & E4 & E5 & E6 & E7 & E8 & E9 & _).
    exists resp. repeat (split; [assumption|]). assumption.
  - destruct (String.eqb_spec (main.Method r) "POST") as [Hm|Hm];
      [|rewrite (H1 Hm); split; [discriminate|intros msg; cbn; congruence]].
    destruct (main.Body r) as [req|] eqn:Hb;
      [|rewrite (H2 Hm eq_refl); split; [discriminate|intros msg; cbn; congruence]].
    destruct (H3 req Hm eq_refl) as (H4 & H5 & H6 & H7).
    destruct (main.Transactions req) as [|t ts] eqn:Et;
      [rewrite (H4 eq_refl); split; [discriminate|intros msg; cbn; congruence]|].
    destruct (Nat.ltb_spec 1000 (length (t :: ts))) as [L|L];
      [rewrite (H5 L); split; [discriminate|intros msg; cbn; congruence]|].
    assert (Hlen : (1 <= length (t :: ts) <= 1000)%nat) by (cbn [length] in *; lia).
    destruct (callable_dec (detector (main.fraudDetector (main.server w)))) as [Hcall|Hcall].
    + destruct (H6 Hlen Hcall) as (resp & -> & _).
      split; [discriminate|intros msg; discriminate].
    + destruct (H7 Hlen Hcall) as [-> _].
      split; [intros Hc; contradiction|intros msg; discriminate].
Qed.

(** *** What the handlers leave of the server *)

Lemma trainModelHandler_run (method : string) (w : main.World) (n : nat) :
  main.trainModelHandler method w n =
    if negb (String.eqb method "POST")
    then (main.Error "Method not allowed" 405, w, n)
    else if ml.ready (main.mlEngine (main.server w))
    then (main.JSON (<["status" := AnyString "training_started"]>
                    (<["timestamp" := AnyTime (wallclock (S n))]> ∅)),
          {| main.server :=
               {| main.fraudDetector := main.fraudDetector (main.server w);
                  main.mlEngine :=
                    {| ml.ready := true;
                       ml.modelPath := ml.modelPath (main.mlEngine (main.server w));
                       ml.lastUpdate := wallclock n |} |};
             main.drawn := main.drawn w |}, S (S n))
    else (main.Error "ML engine not ready" 500, w, n).
Proof.
  unfold main.trainModelHandler. destruct (negb (String.eqb method "POST")); [reflexivity|].
  rewrite bind_run. unfold main.onEngine, zoom. cbn [result state ticks fst snd].
  rewrite TrainModel_run. cbn [ml.engine ml.drawn].
  destruct (ml.ready (main.mlEngine (main.server w))) eqn:E; cbn [result state ticks fst snd].
  - step. reflexivity.
  - destruct w as [[fd e] k]. reflexivity.
Qed.

(** X21. No handler changes the readiness of the engine; the statistics,
    rules and health handlers change nothing at all. With a ready engine, a
    POST to the training handler answers that training started, and the
    health handler reports a healthy service with a ready engine. *)
Theorem handlers_keep_engine_ready (w : main.World) (n : nat) :
  let ready (w : main.World) := ml.ready (main.mlEngine (main.server w)) in
  (forall r, ready (state (main.analyzeTransactionHandler r w n)) = ready w) /\
  (forall r, ready (state (main.batchAnalysisHandler r w n)) = ready w) /\
  (forall method, ready (state (main.trainModelHandler method w n)) = ready w) /\
  (forall method, state (main.statisticsHandler method w n) = w) /\
  (forall method, state (main.rulesHandler method w n) = w) /\
  state (main.healthHandler w n) = w /\
  (ready w = true ->
   main.trainModelHandler "POST" w n
     = (main.JSON (<["status" := AnyString "training_started"]>
                  (<["timestamp" := AnyTime (wallclock (S n))]> ∅)),
        state (main.trainModelHandler "POST" w n), S (S n)) /\
   exists body,
     result (main.healthHandler w n) = main.JSON body /\
     body !! "ml_engine_ready" = Some (AnyBool true) /\
     body !! "status" = Some (AnyString "healthy")).
Proof.
  cbn zeta. split; [|split; [|split; [|split; [|split; [|split]]]]].
  - intros r. destruct (analyzeTransactionHandler_run r w n) as (H1 & H2 & H3). cbn zeta in *.
    destruct (String.eqb_spec (main.Method r) "POST") as [Hm|Hm]; [|rewrite (H1 Hm); reflexivity].
    destruct (main.Body r) as [req|] eqn:Hb; [|rewrite (H2 Hm eq_refl); reflexivity].
    destruct (H3 req Hm eq_refl) as (H4 & H5 & H6 & H7).
    destruct (String.eqb_spec (main.TransactionRequest.ID req) "") as [Hid|Hid];
      [rewrite (H4 Hid); reflexivity|].
    destruct (main.TransactionRequest.Amount req <=? 0) eqn:Hamt;
      [rewrite (H5 Hid eq_refl); reflexivity|].
    destruct (callable_dec (detector (main.fraudDetector (main.server w)))) as [Hcall|Hcall].
    + destruct (H6 Hid eq_refl Hcall)
        as (body & rule & mlScore & _ & _ & _ & _ & _ & _ & _ & ->).
      reflexivity.
    + destruct (H7 Hid eq_refl Hcall) as [_ ->]. reflexivity.
  - intros r. destruct (batchAnalysisHandler_run r w n) as (H1 & H2 & H3). cbn zeta in *.
    destruct (String.eqb_spec (main.Method r) "POST") as [Hm|Hm]; [|rewrite (H1 Hm); reflexivity].
    destruct (main.Body r) as [req|] eqn:Hb; [|rewrite (H2 Hm eq_refl); reflexivity].
    destruct (H3 req Hm eq_refl) as (H4 & H5 & H6 & H7).
    destruct (main.Transactions req) as [|t ts] eqn:Et; [rewrite (H4 eq_refl); reflexivity|].
    destruct (Nat.ltb_spec 1000 (length (t :: ts))) as [L|L]; [rewrite (H5 L); reflexivity|].
    assert (Hlen : (1 <= length (t :: ts) <= 1000)%nat) by (cbn [length] in *; lia).
    destruct (callable_dec (detector (main.fraudDetector (main.server w)))) as [Hcall|Hcall].
    + destruct (H6 Hlen Hcall) as (resp & _ & _ & _ & _ & _ & _ & _ & _ & _ & ->).
      reflexivity.
    + destruct (H7 Hlen Hcall) as [_ ->]. reflexivity.
  - intros method. rewrite trainModelHandler_run.
    destruct (negb (String.eqb method "POST")); [reflexivity|].
    destruct (ml.ready (main.mlEngine (main.server w))) eqn:E; cbn; congruence.
  - intros method. unfold main.statisticsHandler.
    destruct (negb (String.eqb method "GET")); [reflexivity|].
    destruct w as [[[d] e] k]. reflexivity.
  - intros method. unfold main.rulesHandler.
    destruct (String.eqb method "GET"); [destruct w as [[[d] e] k]; reflexivity|].
    destruct (String.eqb method "POST"); reflexivity.
  - destruct w as [[fd e] k]. reflexivity.
  - intros Hready. split.
    + rewrite trainModelHandler_run, Hready. reflexivity.
    + eexists. split; [reflexivity|]. split.
      * rewrite lookup_insert_ne by discriminate. rewrite lookup_insert_eq.
        cbn. rewrite Hready. reflexivity.
      * apply lookup_insert_eq.
Qed.

(** X22. After a custom rule is added to the detector of the server, the
    statistics handler counts one rule more, and the rules handler still
    reports three rules; a POST to the rules handler answers that a rule was
    added and changes nothing; other methods are answered 405. *)
Theorem rulesHandler_reports_default_rules (rule : Rule) (w : main.World) (n m : nat) :
  let w' := state (main.onFraudDetector (AddCustomRule rule) w n) in
  (* the rule is held by the detector of the server *)
  rules (detector (main.fraudDetector (main.server w')))
    = rules (detector (main.fraudDetector (main.server w))) ++ [rule] /\
  (* the statistics count it *)
  (exists stats,
     main.statisticsHandler "GET" w' m = (main.JSON stats, w', m) /\
     stats !! "total_rules"
       = Some (AnyInt (Z.of_nat (total_rules (detector (main.fraudDetector (main.server w)))) + 1))) /\
  (* the rules endpoint does not: it reports the three default rules *)
  (exists summary,
     main.rulesHandler "GET" w' m = (main.JSON summary, w', m) /\
     summary !! "total_rules" = Some (AnyInt 3) /\
     summary !! "status" = Some (AnyString "active")) /\
  (* and posting to it adds nothing *)
  main.rulesHandler "POST" w m = (main.JSON (<["status" := AnyString "rule_added"]> ∅), w, m) /\
  (forall method, method <> "GET"%string -> method <> "POST"%string ->
     main.rulesHandler method w m = (main.Error "Method not allowed" 405, w, m)) /\
  (forall method, method <> "GET"%string ->
     main.statisticsHandler method w m = (main.Error "Method not allowed" 405, w, m)).
Proof.
  cbn zeta. split; [reflexivity|]. split; [|split; [|split; [|split]]].
  - eexists. split.
    + unfold main.statisticsHandler. rewrite String.eqb_refl. reflexivity.
    + unfold main.onFraudDetector, zoom, GetStatistics, GetMetrics, AddCustomRule, onDetector,
        zoom, AddRule, bind, get, put, ret, result, state, ticks. cbn.
      rewrite lookup_insert_eq. unfold total_rules. rewrite length_app. cbn.
      f_equal. f_equal. lia.
  - eexists. split; [|split].
    + unfold main.rulesHandler. rewrite String.eqb_refl. reflexivity.
    + cbn. apply lookup_insert_eq.
    + rewrite lookup_insert_ne by discriminate. apply lookup_insert_eq.
  - reflexivity.
  - intros method H1 H2. unfold main.rulesHandler.
    destruct (String.eqb_spec method "GET"); [contradiction|].
    destruct (String.eqb_spec method "POST"); [contradiction|]. reflexivity.
  - intros method H1. unfold main.statisticsHandler.
    destruct (String.eqb_spec method "GET"); [contradiction|]. reflexivity.
Qed.

(** *** The environment of the process *)

(** X23. [getEnv] answers the value of a variable that is set to a
    non-empty string, and the default otherwise: a variable set to the empty
    string reads as one that is not set, and the answer is empty only when
    the default is. *)
Theorem getEnv_falls_back_on_empty (environ : gmap string string) (key defaultValue : string) :
  (forall value, environ !! key = Some value -> value <> ""%string ->
     main.getEnv environ key defaultValue = value) /\
  (environ !! key = None -> main.getEnv environ key defaultValue = defaultValue) /\
  (environ !! key = Some ""%string -> main.getEnv environ key defaultValue = defaultValue) /\
  main.getEnv (<[key := ""%string]> environ) key defaultValue
    = main.getEnv (delete key environ) key defaultValue /\
  (main.getEnv environ key defaultValue = ""%string -> defaultValue = ""%string).
Proof.
  unfold main.getEnv. split; [|split; [|split; [|split]]].
  - intros value -> Hne. cbn. destruct (String.eqb_spec value ""); [contradiction|reflexivity].
  - intros ->. reflexivity.
  - intros ->. reflexivity.
  - rewrite lookup_insert_eq, lookup_delete_eq. reflexivity.
  - destruct (environ !! key) as [value|]; cbn; [|auto].
    destruct (String.eqb_spec value ""); cbn; [auto|]. intros ->. contradiction.
Qed.

End HandlerProperties.

(* ===================================================================== *)
(** ** The theorems at work on the examples                               *)
(* ===================================================================== *)

Section Witnesses.
Import F64 F64Facts Examples.
Local Existing Instance smallAngle.
Local Existing Instance microClock.

(** C1, on a run: [wire] from Quito is analysed by a fresh detector, then
    [purchase] from Guayaquil four microseconds later. The penalty fires, and
    the location recorded for the account is still Quito. *)
Lemma Analyze_penalty_keeps_last_location_witness :
  lastLocations (geoAnalyzer (state afterWire)) !! "ACC-1"%string
    = Some {| location := quito; seen := wallclock 3 |} /\
  gt (CalculateDistance quito guayaquil)
     (time.Hours (time.Sub (wallclock 7) (wallclock 3)) * 900)%float = true /\
  result (onGeo (GetLastLocation "ACC-1")
            (state (Analyze (Some purchase) (state afterWire) 4)) 0)
    = Some quito /\
  Transaction.Location purchase = guayaquil.
Proof.
  assert (H1 : lastLocations (geoAnalyzer (state afterWire)) !! "ACC-1"%string
               = Some {| location := quito; seen := wallclock 3 |})
    by (vm_compute; reflexivity).
  assert (H2 : gt (CalculateDistance quito guayaquil)
                  (time.Hours (time.Sub (wallclock 7) (wallclock 3)) * 900)%float = true)
    by (vm_compute; reflexivity).
  pose proof (Analyze_penalty_keeps_last_location purchase (state afterWire) 4
                {| location := quito; seen := wallclock 3 |} H1 H2) as (_ & _ & H3).
  split; [exact H1|]. split; [exact H2|]. split; [exact (H3 0)|reflexivity].
Defined.

(** C2, as the claim states it, fails: a transaction stamped in January 2024
    is tracked in June 2025 by a fresh detector whose window is a minute, and
    the count read back for its account is zero. *)
Lemma checkVelocity_stale_not_counted :
  accounts (velocityTracker (state (checkVelocity stale fresh 1))) !! "ACC-2"%string
    = Some [Transaction.Timestamp stale] /\
  observedCount stale fresh 1 = 0%Z.
Proof. split; vm_compute; reflexivity. Qed.

(** C4 on [wire] and a fresh detector. *)
Lemma Analyze_score_in_unit_interval_witness :
  callable fresh /\ weights_nonneg fresh /\ model_score_nonneg fresh wire /\
  exists fs,
    result (Analyze (Some wire) fresh 0) = Returns (Some fs, None) /\
    between 0%float 1%float (Score fs).
Proof.
  assert (H0 : callable fresh) by exact (NewDetector_callable exampleConfig).
  assert (H1 : weights_nonneg fresh) by (split; cbn; repeat constructor).
  assert (H2 : model_score_nonneg fresh wire) by (intros _; vm_compute; reflexivity).
  split; [exact H0|]. split; [exact H1|]. split; [exact H2|].
  exact (Analyze_score_in_unit_interval wire fresh 0 H0 H1 H2).
Defined.

(** C6 on [wire] and a fresh detector: rules 0.3, pattern 0.1, averaged with
    the model's 0.35, tier LOW. *)
Lemma Analyze_risk_tier_witness :
  callable fresh /\ weights_nonneg fresh /\ model_score_nonneg fresh wire /\
  exists fs,
    result (Analyze (Some wire) fresh 0) = Returns (Some fs, None) /\
    Risk fs = "LOW"%string /\ ge (Score fs) 0.2%float = true /\ (Score fs <? 0.4)%float = true /\
    ShouldBlock fs = false.
Proof.
  assert (H0 : callable fresh) by exact (NewDetector_callable exampleConfig).
  assert (H1 : weights_nonneg fresh) by (split; cbn; repeat constructor).
  assert (H2 : model_score_nonneg fresh wire) by (intros _; vm_compute; reflexivity).
  split; [exact H0|]. split; [exact H1|]. split; [exact H2|].
  destruct (Analyze_risk_tier wire fresh 0 H0 H1 H2)
    as (fs & Hfs & Hrisk & _ & _ & _ & Hlow & _ & Hblock & _).
  exists fs. split; [exact Hfs|].
  assert (E : fs = {| Score := Score fs; Risk := Risk fs; Reasons := Reasons fs;
                      Confidence := Confidence fs; ShouldBlock := ShouldBlock fs;
                      Timestamp := Timestamp fs |}) by (destruct fs; reflexivity).
  assert (Hv : result (Analyze (Some wire) fresh 0)
               = Returns (Some {| Score := 0.375%float; Risk := "LOW";
                                  Reasons := ["Transaction amount exceeds threshold";
                                              "Suspicious round amount"]%string;
                                  Confidence := 0.75%float; ShouldBlock := false;
                                  Timestamp := wallclock 0 |}, None))
    by (vm_compute; reflexivity).
  rewrite Hfs in Hv. injection Hv as Hv. subst fs. cbn.
  repeat split; reflexivity.
Defined.

(** C7, as the claim states it, fails: with two rules that carry the same
    identifier, [RemoveRule] succeeds twice in a row. *)
Lemma RemoveRule_twice_on_duplicates :
  result (RemoveRule "DUP" withDuplicates 0) = None /\
  result (RemoveRule "DUP" (state (RemoveRule "DUP" withDuplicates 0)) 0) = None.
Proof. split; reflexivity. Qed.

(** C7 on a fresh detector: removing "HIGH_AMOUNT" leaves the two other
    default rules in their order, and removing it again fails. *)
Lemma RemoveRule_first_match_witness :
  RemoveRule "HIGH_AMOUNT" fresh 0 = (None, withRules (drop 1 DefaultRules) fresh, 0) /\
  RemoveRule "HIGH_AMOUNT" (withRules (drop 1 DefaultRules) fresh) 0
    = (Some "rule not found: HIGH_AMOUNT"%string, withRules (drop 1 DefaultRules) fresh, 0).
Proof.
  destruct (RemoveRule_first_match "HIGH_AMOUNT" fresh 0) as (_ & H & _).
  destruct (H [] (hd dupRule DefaultRules) (drop 1 DefaultRules)
              eq_refl (Forall_nil_2 _) eq_refl) as [H1 H2].
  split; [exact H1|]. apply H2. cbn. repeat constructor; discriminate.
Defined.

(** C9 with the small-angle library, on Quito and Guayaquil. *)
Lemma CalculateDistance_reflexive_symmetric_witness :
  CalculateDistance quito quito = 0%float /\
  CalculateDistance quito guayaquil = CalculateDistance guayaquil quito.
Proof.
  destruct (CalculateDistance_reflexive_symmetric (lib := smallAngle)
              eq_refl eq_refl (fun z => eq_refl))
    as [Hrefl Hsym].
  split.
  - apply (Hrefl quito); split; reflexivity.
  - apply (Hsym quito guayaquil).
Defined.

(** C10 on [wire], whose network address is empty: confidence 0.75, reported
    as it is by a fresh detector with predictive scoring enabled. *)
Lemma SimpleMLModel_Predict_bounds_witness :
  snd (Predict SimpleMLModel wire) = 0.75%float /\
  exists fs,
    result (Analyze (Some wire) fresh 0) = Returns (Some fs, None) /\
    Confidence fs = snd (Predict SimpleMLModel wire) /\ between 0%float 1%float (Confidence fs).
Proof.
  destruct (SimpleMLModel_Predict_bounds wire) as (_ & _ & Hc & H).
  split; [rewrite Hc; reflexivity|].
  exact (H fresh 0 (NewDetector_callable exampleConfig) eq_refl eq_refl).
Defined.

(** C3 on [wire] and a fresh detector, whose predictive scoring is enabled:
    the score is the clamp of the mean, the confidence is the model's. *)
Lemma Analyze_blends_by_average_witness :
  callable fresh /\
  exists fs,
    result (Analyze (Some wire) fresh 0) = Returns (Some fs, None) /\
    Score fs = clamp01 ((fst (afterPatterns wire fresh 0)
                         + fst (Predict (mlModel fresh) wire)) / 2)%float /\
    Confidence fs = snd (Predict (mlModel fresh) wire).
Proof.
  assert (H0 : callable fresh) by exact (NewDetector_callable exampleConfig).
  split; [exact H0|].
  destruct (Analyze_blends_by_average wire fresh 0 H0) as (fs & Hfs & H).
  exists fs. split; [exact Hfs|]. exact H.
Defined.


(** C8 on a run: a rule without a condition is added to a fresh detector,
    which holds it as its fourth rule; the analysis of [wire] then panics
    after one clock reading, and leaves the detector as it was. *)
Lemma Analyze_panics_on_nil_Condition_witness :
  Rule.Condition bareRule = None /\
  total_rules withBareRule = 4 /\
  Analyze (Some wire) withBareRule 0 = (Panics, withBareRule, 1).
Proof.
  split; [reflexivity|]. split; [reflexivity|].
  destruct (Analyze_panics_on_nil_Condition (Some wire) fresh 0) as ((_ & _ & H) & _).
  exact (H bareRule 0 eq_refl).
Defined.

Local Existing Instance halfSource.

(** X1 on the clock of the examples: [wire] and [purchase], both of account
    ACC-1 and stamped with the first reading, are tracked by a new tracker
    whose window is a minute; the count at the third reading is two. *)
Lemma Track_sequence_counts_witness :
  (forall i j, (i <= j)%nat ->
     (time.unixNano (wallclock i) <= time.unixNano (wallclock j))%Z) /\
  Forall (fun tx => Transaction.AccountID tx = "ACC-1"%string) [wire; purchase] /\
  ticks (fold_left (fun r tx => Track tx (state r) (ticks r)) [wire; purchase]
           (tt, NewVelocityTracker time.Minute, 0)) = 2 /\
  result (GetCount "ACC-1"
            (state (fold_left (fun r tx => Track tx (state r) (ticks r)) [wire; purchase]
                      (tt, NewVelocityTracker time.Minute, 0))) 2) = 2%Z.
Proof.
  assert (H1 : forall i j, (i <= j)%nat ->
                 (time.unixNano (wallclock i) <= time.unixNano (wallclock j))%Z)
    by (intros i j Hij; cbn; lia).
  assert (H2 : Forall (fun tx => Transaction.AccountID tx = "ACC-1"%string) [wire; purchase])
    by (repeat constructor).
  split; [exact H1|]. split; [exact H2|].
  destruct (Track_sequence_counts "ACC-1" [wire; purchase] (NewVelocityTracker time.Minute)
              0 2 H1 H2 (le_n 2)) as (Ht & _ & H).
  split; [exact Ht|]. apply H; [reflexivity|repeat constructor].
Defined.

(** X5 with the arc tangent of [magnitude], between Quito and Guayaquil. *)
Lemma CalculateDistance_never_negative_witness :
  (forall y x, plus_signed y ->
     IsNaN (abs (y / x)) = true \/ nonneg (abs (y / x))) /\
  (forall x, IsNaN (abs (nan / x)) = true) /\
  (IsNaN (CalculateDistance (lib := magnitude) quito guayaquil) = true \/
   nonneg (CalculateDistance (lib := magnitude) quito guayaquil)) /\
  (CalculateDistance (lib := magnitude) quito guayaquil <? 0)%float = false.
Proof.
  assert (H1 : forall y x, plus_signed y ->
                 IsNaN (abs (y / x)) = true \/ nonneg (abs (y / x)))
    by (intros y x _; apply abs_nonneg_or_nan).
  assert (H2 : forall x, IsNaN (abs (nan / x)) = true)
    by (intros x; rewrite nan_div_l; reflexivity).
  split; [exact H1|]. split; [exact H2|].
  exact (CalculateDistance_never_negative (lib := magnitude) H1 H2 quito guayaquil).
Defined.

(** X10 on the detector [wire] leaves of a fresh one, asked about [purchase]. *)
Lemma reachable_well_formed_witness :
  reachable exampleConfig (state afterWire) /\
  weights_nonneg (state afterWire) /\
  callable (state afterWire) /\
  exists fs,
    result (Analyze (Some purchase) (state afterWire) (ticks afterWire)) = Returns (Some fs, None) /\
    between 0%float 1%float (Score fs) /\ between 0%float 1%float (Confidence fs).
Proof.
  assert (H : reachable exampleConfig (state afterWire))
    by exact (reachable_Analyze _ fresh (Some wire) 0 (reachable_NewDetector _)).
  split; [exact H|].
  destruct (reachable_well_formed exampleConfig (state afterWire) H)
    as (_ & _ & _ & _ & Hw & Hc & Ha).
  split; [exact Hw|]. split; [exact Hc|]. exact (Ha purchase (ticks afterWire)).
Defined.

(** X11 on [wire], of 15000, and a fresh detector. *)
Lemma Analyze_default_rules_fire_witness :
  rules fresh = DefaultRules /\ patternMatcher fresh = NewPatternMatcher /\
  mlModel fresh = SimpleMLModel /\ gt (Transaction.Amount wire) 10000%float = true /\
  exists fs,
    result (Analyze (Some wire) fresh 0) = Returns (Some fs, None) /\
    In "Transaction amount exceeds threshold"%string (Reasons fs) /\
    gt (Score fs) 0.2%float = true.
Proof.
  do 4 (split; [reflexivity|]).
  destruct (Analyze_default_rules_fire wire fresh 0 eq_refl eq_refl eq_refl)
    as (fs & Hfs & H & _).
  exists fs. split; [exact Hfs|]. exact (H eq_refl).
Defined.

(** X12 on [heist]: after [wire] was analysed twice, a transfer of 75000 from
    Guayaquil is the third transaction of the account within the minute, for
    a limit of two, and lies farther from Quito than the elapsed time allows. *)
Lemma Analyze_stacked_indicators_critical_witness :
  rules (state afterWires) = DefaultRules /\
  gt (Transaction.Amount heist) 50000%float = true /\
  (MaxVelocity (config (state afterWires))
     <? observedCount heist (state afterWires) (S (ticks afterWires)))%Z = true /\
  gt (fst (result (geoRun heist (state afterWires) (ticks afterWires)))) 0%float = true /\
  exists fs,
    result (Analyze (Some heist) (state afterWires) (ticks afterWires)) = Returns (Some fs, None) /\
    ge (Score fs) 0.8%float = true /\ Risk fs = "CRITICAL"%string /\ ShouldBlock fs = true.
Proof.
  assert (H1 : rules (state afterWires) = DefaultRules) by reflexivity.
  assert (H2 : patternMatcher (state afterWires) = NewPatternMatcher) by reflexivity.
  assert (H3 : mlModel (state afterWires) = SimpleMLModel) by reflexivity.
  assert (H4 : gt (Transaction.Amount heist) 50000%float = true) by reflexivity.
  assert (H5 : (MaxVelocity (config (state afterWires))
                  <? observedCount heist (state afterWires) (S (ticks afterWires)))%Z = true)
    by (vm_compute; reflexivity).
  assert (H6 : gt (fst (result (geoRun heist (state afterWires) (ticks afterWires)))) 0%float
               = true)
    by (vm_compute; reflexivity).
  split; [exact H1|]. split; [exact H4|]. split; [exact H5|]. split; [exact H6|].
  destruct (Analyze_stacked_indicators_critical heist (state afterWires) (ticks afterWires)
              H1 H2 H3 H4 H5 H6) as (fs & Hfs & Hge & Hrisk & Hblock).
  exists fs. split; [exact Hfs|]. split; [exact Hge|]. split; [exact Hrisk|].
  rewrite Hblock. exact Hge.
Defined.

(** X14 on the detector of a service that just started, asked about [wire]. *)
Lemma NewFraudDetector_service_witness :
  reachable (config (detector NewFraudDetector)) (detector NewFraudDetector) /\
  exists fs,
    result (AnalyzeTransaction (Some wire) NewFraudDetector 0) = Returns (Some fs, None) /\
    between 0%float 1%float (Score fs) /\
    between 0.65%float 0.85%float (Confidence fs) /\
    (ShouldBlock fs = true <-> Risk fs = "CRITICAL"%string).
Proof.
  assert (H : reachable (config (detector NewFraudDetector)) (detector NewFraudDetector))
    by exact (reachable_NewDetector _).
  split; [exact H|].
  destruct (NewFraudDetector_service NewFraudDetector H wire 0)
    as (fs & Hfs & Hs & Hc & Hb & _).
  exists fs. repeat (split; [assumption|]). exact Hb.
Defined.

(** X17 on a new engine and a source that draws one half: [stale], stamped
    long before the last hour and with no feature set, scores zero. *)
Lemma PredictFraud_score_in_unit_interval_witness :
  ml.ready (ml.engine newEngine) = true /\
  nonneg (randFloat64 0) /\ nonneg (randFloat64 1) /\
  exists score confidence,
    result (ml.PredictFraud stale newEngine 1) = (score, confidence, None) /\
    between 0%float 1%float score /\ nonneg confidence /\ (score =? 0)%float = true.
Proof.
  assert (H0 : nonneg (randFloat64 0)) by reflexivity.
  assert (H1 : nonneg (randFloat64 1)) by reflexivity.
  split; [reflexivity|]. split; [exact H0|]. split; [exact H1|].
  destruct (PredictFraud_score_in_unit_interval stale newEngine 1 eq_refl H0 H1)
    as (score & confidence & Hp & Hs & Hc & Hz).
  exists score, confidence. split; [exact Hp|]. split; [exact Hs|]. split; [exact Hc|].
  apply Hz; reflexivity.
Defined.

End Witnesses.
